(** * ospd-openvas: the scan daemon of [ospd_openvas/daemon.py]

    A shallow embedding of the preference compiler, the feed-staleness
    check, the result translator and the scan life cycle ([exec_scan],
    [stop_scan_cleanup]) of the OSP wrapper around the OpenVAS scanner,
    followed by the properties established about them. *)

From Stdlib Require Import PrimFloat.
From Stdlib Require Import ZArith List Bool Ascii String DecimalString Lia.
From stdpp Require Import base gmap strings list.

Import ListNotations.
Local Open Scope string_scope.
Local Open Scope Z_scope.

(** ** Python values and string primitives *)

Module Py.

(** The exceptions the modelled code can raise. *)
Inductive pyerr : Type :=
| ValueError
| IndexError
| KeyError
| AttributeError
| TypeError
| UnicodeDecodeError
| OspdOpenvasError (msg : string)
| SubprocessError.

(** Results of fallible computations: [inl e] is a raised exception. *)
Definition exc (A : Type) : Type := (pyerr + A)%type.

Definition ok {A} (a : A) : exc A := inr a.
Definition throw {A} (e : pyerr) : exc A := inl e.
Definition ebind {A B} (m : exc A) (k : A -> exc B) : exc B :=
match m with inl e => inl e | inr a => k a end.

(** The dynamically typed scalars that travel through option maps. *)
Inductive pyval : Type :=
| PInt (z : Z)
| PStr (s : string).

(** [str(z)] for an integer. *)
Definition str_of_Z (z : Z) : string := NilZero.string_of_int (Z.to_int z).

(** [str(v)]. *)
Definition str (v : pyval) : string :=
match v with PInt z => str_of_Z z | PStr s => s end.

(** Truthiness of a scalar: [0] and [''] are false. *)
Definition truthy (v : pyval) : bool :=
match v with
| PInt z => negb (z =? 0)
| PStr s => negb (String.eqb s "")
end.

Definition str_truthy (s : string) : bool := negb (String.eqb s "").

(** Truthiness of an optional string ([None] and [''] are false). *)
Definition opt_truthy (o : option string) : bool :=
match o with Some s => str_truthy s | None => false end.

(** Characters are read as code points below 256. White space as
  [str.strip] sees it. *)
Definition is_space (c : ascii) : bool :=
let n := nat_of_ascii c in
((9 <=? n) && (n <=? 13) || (28 <=? n) && (n <=? 32)
 || (n =? 133) || (n =? 160))%nat.

(** White space as [int] sees it: the separators [U+001C] to [U+001F],
  which [str.strip] removes, are no white space to [int]. *)
Definition is_int_space (c : ascii) : bool :=
let n := nat_of_ascii c in
((9 <=? n) && (n <=? 13) || (n =? 32) || (n =? 133) || (n =? 160))%nat.

Definition digit_of (c : ascii) : option Z :=
let n := nat_of_ascii c in
if ((48 <=? n) && (n <=? 57))%nat then Some (Z.of_nat n - 48) else None.

Fixpoint lstrip (s : string) : string :=
match s with
| String c s' => if is_space c then lstrip s' else s
| EmptyString => EmptyString
end.

Fixpoint rev_string_onto (s acc : string) : string :=
match s with
| EmptyString => acc
| String c s' => rev_string_onto s' (String c acc)
end.

Definition rev_string (s : string) : string := rev_string_onto s "".

(** [s.strip()]. *)
Definition strip (s : string) : string :=
rev_string (lstrip (rev_string (lstrip s))).

(** The white space [int] passes over before and after the literal. *)
Fixpoint lstrip_int (s : string) : string :=
match s with
| String c s' => if is_int_space c then lstrip_int s' else s
| EmptyString => EmptyString
end.

Definition strip_int (s : string) : string :=
rev_string (lstrip_int (rev_string (lstrip_int s))).

(** Digits of a decimal literal, single underscores allowed between
  digits. [acc] is the value read so far, [after_digit] tells whether the
  previous character was a digit. *)
Fixpoint digits (s : string) (acc : Z) (after_digit : bool) : option Z :=
match s with
| EmptyString => if after_digit then Some acc else None
| String c s' =>
    match digit_of c with
    | Some d => digits s' (10 * acc + d) true
    | None =>
        if (Ascii.eqb c "_" && after_digit)%bool then digits s' acc false
        else None
    end
end.

(** [int(s)] in base ten: surrounding white space, an optional sign, then
  digits. [None] stands for [ValueError]. *)
Definition int_of_string (s : string) : option Z :=
match strip_int s with
| String "-" r => option_map Z.opp (digits r 0 false)
| String "+" r => digits r 0 false
| r => digits r 0 false
end.

(** [int(v)]. *)
Definition int (v : pyval) : exc Z :=
match v with
| PInt z => ok z
| PStr s =>
    match int_of_string s with Some z => ok z | None => throw ValueError end
end.

(** [p] is a prefix of [s]. *)
Fixpoint starts_with (p s : string) : bool :=
match p, s with
| EmptyString, _ => true
| String a p', String b s' => Ascii.eqb a b && starts_with p' s'
| String _ _, EmptyString => false
end.

(** [sub in s]. *)
Fixpoint contains (sub s : string) : bool :=
starts_with sub s ||
match s with
| EmptyString => false
| String _ s' => contains sub s'
end.

(** [s.split(sep)] for a non-empty separator: leftmost, non-overlapping
  occurrences. [skip] counts the characters of a separator occurrence
  still to be passed over, [cur] holds the current field reversed. *)
Fixpoint split_aux (sep : string) (skip : nat) (cur : string) (s : string)
: list string :=
match s with
| EmptyString => [rev_string cur]
| String c s' =>
    match skip with
    | S k => split_aux sep k cur s'
    | O =>
        if starts_with sep s
        then rev_string cur :: split_aux sep (String.length sep - 1) "" s'
        else split_aux sep 0 (String c cur) s'
    end
end.

Definition split (sep s : string) : list string := split_aux sep 0 "" s.

(** [s.replace(old, '')] for a one-character [old]. *)
Fixpoint remove_char (c : ascii) (s : string) : string :=
match s with
| EmptyString => EmptyString
| String a s' =>
    if Ascii.eqb a c then remove_char c s' else String a (remove_char c s')
end.

(** The double quote and the line feed. *)
Definition dquote : ascii := ascii_of_nat 34.
Definition newline : string := String (ascii_of_nat 10) EmptyString.

(** [sep.join(l)]. *)
Fixpoint join (sep : string) (l : list string) : string :=
match l with
| [] => ""
| [x] => x
| x :: rest => x ++ sep ++ join sep rest
end.

(** [xml.sax.saxutils.escape]. *)
Fixpoint escape (s : string) : string :=
match s with
| EmptyString => EmptyString
| String c s' =>
    if Ascii.eqb c "&" then "&amp;" ++ escape s'
    else if Ascii.eqb c "<" then "&lt;" ++ escape s'
    else if Ascii.eqb c ">" then "&gt;" ++ escape s'
    else String c (escape s')
end.

End Py.

Import Py.

Notation "'try' x := m 'in' k" := (ebind m (fun x => k))
  (at level 10, x name, m at level 100, k at level 200).

(** ** Insertion-ordered dictionaries

    A Python [dict] iterates in insertion order and assigning to a key that
    is present keeps its position: an association list with in-place
    update. *)

Module Dict.
Section Dict.
Context {K V : Type} `{EqDecision K}.

Definition t : Type := list (K * V).

(** [d.get(k)] *)
Fixpoint get (d : t) (k : K) : option V :=
  match d with
  | [] => None
  | (k', v) :: d' => if decide (k' = k) then Some v else get d' k
  end.

(** [k in d] *)
Definition mem (d : t) (k : K) : bool :=
  match get d k with Some _ => true | None => false end.

(** [d[k] = v] *)
Fixpoint set (d : t) (k : K) (v : V) : t :=
  match d with
  | [] => [(k, v)]
  | (k', v') :: d' =>
      if decide (k' = k) then (k', v) :: d' else (k', v') :: set d' k v
  end.

(** [del d[k]] *)
Fixpoint remove (d : t) (k : K) : t :=
  match d with
  | [] => []
  | (k', v') :: d' =>
      if decide (k' = k) then d' else (k', v') :: remove d' k
  end.

Definition keys (d : t) : list K := map fst d.

(** A well-formed dictionary holds each key once. *)
Definition wf (d : t) : Prop := NoDup (keys d).
End Dict.
Arguments t : clear implicits.
End Dict.

(** ** Constants of the module *)

(** An entry of [OSPD_PARAMS] as the module declares it; [name] repeats the
    key and [mandatory] and [description] are read by no function modelled
    here. *)
Record param_desc : Type := {
  p_type : string;
  p_default : pyval;
}.

Definition OSPD_PARAMS : Dict.t string param_desc := [
  ("auto_enable_dependencies", {| p_type := "boolean"; p_default := PInt 1 |});
  ("cgi_path", {| p_type := "string"; p_default := PStr "/cgi-bin:/scripts" |});
  ("checks_read_timeout", {| p_type := "integer"; p_default := PInt 5 |});
  ("drop_privileges", {| p_type := "boolean"; p_default := PInt 0 |});
  ("network_scan", {| p_type := "boolean"; p_default := PInt 0 |});
  ("non_simult_ports",
     {| p_type := "string"; p_default := PStr "139, 445, 3389, Services/irc" |});
  ("open_sock_max_attempts", {| p_type := "integer"; p_default := PInt 5 |});
  ("timeout_retry", {| p_type := "integer"; p_default := PInt 5 |});
  ("optimize_test", {| p_type := "integer"; p_default := PInt 5 |});
  ("plugins_timeout", {| p_type := "integer"; p_default := PInt 5 |});
  ("report_host_details", {| p_type := "boolean"; p_default := PInt 1 |});
  ("safe_checks", {| p_type := "boolean"; p_default := PInt 1 |});
  ("scanner_plugins_timeout",
     {| p_type := "integer"; p_default := PInt 36000 |});
  ("time_between_request", {| p_type := "integer"; p_default := PInt 0 |});
  ("unscanned_closed", {| p_type := "boolean"; p_default := PInt 1 |});
  ("unscanned_closed_udp", {| p_type := "boolean"; p_default := PInt 1 |});
  ("expand_vhosts", {| p_type := "boolean"; p_default := PInt 1 |});
  ("test_empty_vhost", {| p_type := "boolean"; p_default := PInt 0 |})
].

Definition OID_SSH_AUTH : string := "1.3.6.1.4.1.25623.1.0.103591".
Definition OID_SMB_AUTH : string := "1.3.6.1.4.1.25623.1.0.90023".
Definition OID_ESXI_AUTH : string := "1.3.6.1.4.1.25623.1.0.105058".
Definition OID_SNMP_AUTH : string := "1.3.6.1.4.1.25623.1.0.105076".
Definition OID_PING_HOST : string := "1.3.6.1.4.1.25623.1.0.100315".

(** [class AliveTest(IntEnum)] *)
Module AliveTest.
Definition ALIVE_TEST_TCP_ACK_SERVICE : Z := 1.
Definition ALIVE_TEST_ICMP : Z := 2.
Definition ALIVE_TEST_ARP : Z := 4.
Definition ALIVE_TEST_CONSIDER_ALIVE : Z := 8.
Definition ALIVE_TEST_TCP_SYN_SERVICE : Z := 16.
End AliveTest.

(** [_from_bool_to_str]: ['yes' if value == 1 else 'no']. A string never
    equals the integer [1]. *)
Definition _from_bool_to_str (value : pyval) : string :=
  match value with
  | PInt 1 => "yes"
  | _ => "no"
  end.

(** ** The preference compiler: credentials *)

Abbreviation cred_dict := (Dict.t string string).

(** [cred_params.get(key, '')] *)
Definition cred_get (cred_params : cred_dict) (key : string) : string :=
  match Dict.get cred_params key with Some v => v | None => "" end.

(** The body of the loop of [build_credentials_as_prefs]: the lines one
    item of the credentials dictionary appends to [cred_prefs_list]. *)
Definition credential_prefs (service : string) (cred_params : cred_dict)
  : list string :=
  let cred_type := cred_get cred_params "type" in
  let username := cred_get cred_params "username" in
  let password := cred_get cred_params "password" in
  (if String.eqb service "ssh" then
     let port := cred_get cred_params "port" in
     [ "auth_port_ssh|||" ++ port;
       OID_SSH_AUTH ++ ":1:" ++ "entry:SSH login " ++ "name:|||" ++ username ]
     ++ (if String.eqb cred_type "up" then
           [ OID_SSH_AUTH ++ ":3:" ++ "password:SSH password "
               ++ "(unsafe!):|||" ++ password ]
         else
           let private := cred_get cred_params "private" in
           [ OID_SSH_AUTH ++ ":2:" ++ "password:SSH key passphrase:|||"
               ++ password;
             OID_SSH_AUTH ++ ":4:" ++ "file:SSH private key:|||" ++ private ])
   else [])
  ++ (if String.eqb service "smb" then
        [ OID_SMB_AUTH ++ ":1:entry" ++ ":SMB login:|||" ++ username;
          OID_SMB_AUTH ++ ":2:" ++ "password:SMB password:|||" ++ password ]
      else [])
  ++ (if String.eqb service "esxi" then
        [ OID_ESXI_AUTH ++ ":1:entry:" ++ "ESXi login name:|||" ++ username;
          OID_ESXI_AUTH ++ ":2:" ++ "password:ESXi login password:|||"
            ++ password ]
      else [])
  ++ (if String.eqb service "snmp" then
        let community := cred_get cred_params "community" in
        let auth_algorithm := cred_get cred_params "auth_algorithm" in
        let privacy_password := cred_get cred_params "privacy_password" in
        let privacy_algorithm := cred_get cred_params "privacy_algorithm" in
        [ OID_SNMP_AUTH ++ ":1:" ++ "password:SNMP Community:|||" ++ community;
          OID_SNMP_AUTH ++ ":2:" ++ "entry:SNMPv3 Username:|||" ++ username;
          OID_SNMP_AUTH ++ ":3:" ++ "password:SNMPv3 Password:|||" ++ password;
          OID_SNMP_AUTH ++ ":4:" ++ "radio:SNMPv3 Authentication Algorithm:|||"
            ++ auth_algorithm;
          OID_SNMP_AUTH ++ ":5:" ++ "password:SNMPv3 Privacy Password:|||"
            ++ privacy_password;
          OID_SNMP_AUTH ++ ":6:" ++ "radio:SNMPv3 Privacy Algorithm:|||"
            ++ privacy_algorithm ]
      else []).

(** [for credential in credentials.items()]: the service is the key of the
    item and its parameters are fetched again with [credentials.get]; on
    [None] the first [cred_params.get] raises [AttributeError]. *)
Fixpoint build_credentials_loop
    (credentials : Dict.t string cred_dict)
    (items : list (string * cred_dict)) (cred_prefs_list : list string)
  : exc (list string) :=
  match items with
  | [] => ok cred_prefs_list
  | credential :: rest =>
      let service := fst credential in
      match Dict.get credentials service with
      | None => throw AttributeError
      | Some cred_params =>
          build_credentials_loop credentials rest
            (cred_prefs_list ++ credential_prefs service cred_params)
      end
  end.

Definition build_credentials_as_prefs (credentials : Dict.t string cred_dict)
  : exc (list string) :=
  build_credentials_loop credentials credentials [].

(** ** The preference compiler: alive test *)

(** Truthiness of [alive_test & flag]. *)
Definition has_flag (alive_test flag : Z) : bool :=
  negb (Z.land alive_test flag =? 0).

(** The lines written once the value of [alive_test] is an integer. *)
Definition alive_test_prefs (alive_test : Z) : list string :=
  if (alive_test <? 1) || (alive_test >? 31) then []
  else
    [ OID_PING_HOST ++ ":1:checkbox:" ++ "Do a TCP ping|||"
        ++ (if has_flag alive_test AliveTest.ALIVE_TEST_TCP_ACK_SERVICE
               || has_flag alive_test AliveTest.ALIVE_TEST_TCP_SYN_SERVICE
            then "yes" else "no");
      OID_PING_HOST ++ ":2:checkbox:" ++ "TCP ping tries also TCP-SYN ping|||"
        ++ (if has_flag alive_test AliveTest.ALIVE_TEST_TCP_SYN_SERVICE
               && has_flag alive_test AliveTest.ALIVE_TEST_TCP_ACK_SERVICE
            then "yes" else "no");
      OID_PING_HOST ++ ":7:checkbox:" ++ "TCP ping tries only TCP-SYN ping|||"
        ++ (if has_flag alive_test AliveTest.ALIVE_TEST_TCP_SYN_SERVICE
               && negb (has_flag alive_test
                          AliveTest.ALIVE_TEST_TCP_ACK_SERVICE)
            then "yes" else "no");
      OID_PING_HOST ++ ":3:checkbox:" ++ "Do an ICMP ping|||"
        ++ (if has_flag alive_test AliveTest.ALIVE_TEST_ICMP
            then "yes" else "no");
      OID_PING_HOST ++ ":4:checkbox:" ++ "Use ARP|||"
        ++ (if has_flag alive_test AliveTest.ALIVE_TEST_ARP
            then "yes" else "no");
      OID_PING_HOST ++ ":5:checkbox:"
        ++ "Mark unrechable Hosts as dead (not scanning)|||"
        ++ (if has_flag alive_test AliveTest.ALIVE_TEST_CONSIDER_ALIVE
            then "no" else "yes") ]
    (* Also select a method, otherwise Ping Host logs a warning. *)
    ++ (if alive_test =? AliveTest.ALIVE_TEST_CONSIDER_ALIVE
        then [ OID_PING_HOST ++ ":1:checkbox:" ++ "Do a TCP ping|||yes" ]
        else []).

(** [build_alive_test_opt_as_prefs]: nothing is written for empty options,
    a missing or false [alive_test], or one that is no integer
    ([ValueError] is caught). *)
Definition build_alive_test_opt_as_prefs (target_options : Dict.t string pyval)
  : list string :=
  match target_options, Dict.get target_options "alive_test" with
  | _ :: _, Some v =>
      if truthy v then
        match int v with
        | inl _ => []
        | inr alive_test => alive_test_prefs alive_test
        end
      else []
  | _, _ => []
  end.

(** ** The VT catalogue as the scan code reads it *)

(** A declared parameter of a VT, an entry of [vt['vt_params']]. *)
Record vt_param : Type := {
  vp_type : string;
  vp_name : string;
  vp_default : string;
}.

(** An entry of [self.vts]. Only the fields read by the scan code are kept:
    references, dependencies, dates and the descriptive texts are consumed
    by the XML formatters alone. An entry always holds a name, so it is
    never an empty (false) dictionary. *)
Record vt : Type := {
  vt_name : string;
  vt_params : Dict.t string vt_param;
  vt_custom : Dict.t string string;
  vt_qod_type : option string;
  vt_qod : option string;
  vt_severities : Dict.t string string;
}.

Abbreviation vts_dict := (Dict.t string vt).

(** The value of [get_scan_vts] when it is not ['']: the VT groups under
    the key ['vt_groups'] and, under every other key, a VT id with its
    parameter values. *)
Record vts_selection : Type := {
  vt_groups : list string;
  single_vts : Dict.t string (Dict.t string string);
}.

(** [get_vts_in_groups], first loop: VT ids by family; a VT without a
    family is filed under [None]. *)
Fixpoint families_of (temp_vts_dict : vts_dict)
    (families : Dict.t (option string) (list string))
  : Dict.t (option string) (list string) :=
  match temp_vts_dict with
  | [] => families
  | (oid, v) :: rest =>
      let family := Dict.get (vt_custom v) "family" in
      let families :=
        if Dict.mem families family then families
        else Dict.set families family [] in
      let members :=
        match Dict.get families family with Some l => l | None => [] end in
      families_of rest (Dict.set families family (members ++ [oid])%list)
  end.

(** [get_vts_in_groups], second loop. [key, value = elem.split('=')] raises
    [ValueError] unless the filter holds exactly one ['=']. *)
Fixpoint filter_groups (families : Dict.t (option string) (list string))
    (filters : list string) (vts_list : list string) : exc (list string) :=
  match filters with
  | [] => ok vts_list
  | elem :: rest =>
      match split "=" elem with
      | [key; value] =>
          if String.eqb key "family" && Dict.mem families (Some value)
          then
            filter_groups families rest
              (vts_list ++
                 match Dict.get families (Some value) with
                 | Some l => l
                 | None => []
                 end)%list
          else filter_groups families rest vts_list
      | _ => throw ValueError
      end
  end.

Definition get_vts_in_groups (temp_vts_dict : vts_dict) (filters : list string)
  : exc (list string) :=
  filter_groups (families_of temp_vts_dict []) filters [].

(** [self.temp_vts_dict[vtid]] *)
Definition vts_index (temp_vts_dict : vts_dict) (vtid : string) : exc vt :=
  match Dict.get temp_vts_dict vtid with
  | Some v => ok v
  | None => throw KeyError
  end.

Definition get_vt_param_type (temp_vts_dict : vts_dict)
    (vtid vt_param_id : string) : exc (option string) :=
  try v := vts_index temp_vts_dict vtid in
  ok (option_map vp_type (Dict.get (vt_params v) vt_param_id)).

Definition get_vt_param_name (temp_vts_dict : vts_dict)
    (vtid vt_param_id : string) : exc (option string) :=
  try v := vts_index temp_vts_dict vtid in
  ok (option_map vp_name (Dict.get (vt_params v) vt_param_id)).

Section ParamCheck.

(** [base64.b64decode] of the standard library: whether it accepts the
    encoded value or raises [binascii.Error]. *)
Variable b64decode_ok : string -> bool.

(** [check_param_type]: [None] when the value fits the type, [1]
    otherwise. Parameter values are strings. *)
Definition check_param_type (vt_param_value param_type : string)
  : option Z :=
  if existsb (String.eqb param_type) ["entry"; "password"; "radio"; "sshlogin"]
  then None
  else if String.eqb param_type "checkbox"
          && (String.eqb vt_param_value "0" || String.eqb vt_param_value "1")
  then None
  else if String.eqb param_type "file"
  then (if b64decode_ok vt_param_value then None else Some 1)
  else if String.eqb param_type "integer"
  then
    match int_of_string vt_param_value with
    | Some _ => None
    | None => Some 1
    end
  else Some 1.

(** The body of the loop over the parameters of one VT in [process_vts]:
    what one [(vt_param_id, vt_param_value)] does to [vts_params]. *)
Definition process_vt_param (temp_vts_dict : vts_dict) (vtid : string)
    (vt_param_id vt_param_value : string)
    (vts_params : Dict.t string string) : exc (Dict.t string string) :=
  try param_type := get_vt_param_type temp_vts_dict vtid vt_param_id in
  try param_name := get_vt_param_name temp_vts_dict vtid vt_param_id in
  match param_type, param_name with
  | Some param_type, Some param_name =>
      if negb (str_truthy param_type) || negb (str_truthy param_name)
      then ok vts_params
      else
        let type_aux :=
          if String.eqb vt_param_id "0" then "integer" else param_type in
        match check_param_type vt_param_value type_aux with
        | Some _ => ok vts_params
        | None =>
            try vt_param_value :=
              (if String.eqb type_aux "checkbox" then
                 try n := int (PStr vt_param_value) in
                 ok (_from_bool_to_str (PInt n))
               else ok vt_param_value) in
            ok (Dict.set vts_params
                  (vtid ++ ":" ++ vt_param_id ++ ":" ++ param_type ++ ":"
                     ++ param_name)
                  vt_param_value)
        end
  | _, _ => ok vts_params
  end.

Fixpoint process_vt_params (temp_vts_dict : vts_dict) (vtid : string)
    (vt_params : list (string * string))
    (vts_params : Dict.t string string) : exc (Dict.t string string) :=
  match vt_params with
  | [] => ok vts_params
  | (vt_param_id, vt_param_value) :: rest =>
      try vts_params :=
        process_vt_param temp_vts_dict vtid vt_param_id vt_param_value
          vts_params in
      process_vt_params temp_vts_dict vtid rest vts_params
  end.

(** The loop over the VTs given one by one. *)
Fixpoint process_single_vts (temp_vts_dict : vts_dict)
    (items : list (string * Dict.t string string))
    (vts_list : list string) (vts_params : Dict.t string string)
  : exc (list string * Dict.t string string) :=
  match items with
  | [] => ok (vts_list, vts_params)
  | (vtid, vt_params) :: rest =>
      if negb (Dict.mem temp_vts_dict vtid)
      then process_single_vts temp_vts_dict rest vts_list vts_params
      else
        try vts_params :=
          process_vt_params temp_vts_dict vtid vt_params vts_params in
        process_single_vts temp_vts_dict rest (vts_list ++ [vtid])%list
          vts_params
  end.

Definition process_vts (temp_vts_dict : vts_dict) (vts : vts_selection)
  : exc (list string * Dict.t string string) :=
  let vtgroups := vt_groups vts in
  try vts_list :=
    (match vtgroups with
     | [] => ok []
     | _ :: _ => get_vts_in_groups temp_vts_dict vtgroups
     end) in
  process_single_vts temp_vts_dict (single_vts vts) vts_list [].

End ParamCheck.

(** ** The keyed store

    Modelled from the spec: [ospd_openvas/db.py] ([OpenvasDB]) is not among
    the sources. The store is a bounded set of numbered indices, each a
    partition of keys holding ordered lists of values; one active connection
    has one index selected. The operations are those of the spec's Keyed
    Store contract: allocate, select, get, set, append, pop, enumerate and
    release. A single value is the oldest entry of the list under its key. *)

Module KB.

Abbreviation partition := (gmap string (list string)).

Record t : Type := {
  dbs : gmap Z partition;     (* contents of the indices; absent = empty *)
  in_use : gset Z;            (* indices handed out and not yet released *)
  max_dbindex : Z;            (* the indices are [0 .. max_dbindex - 1] *)
  selected : Z;               (* index selected by the active connection *)
}.

Definition part (s : t) (i : Z) : partition := default ∅ (dbs s !! i).

(** [enumerate]: the ordered values under [key] in index [i]. *)
Definition items_at (s : t) (i : Z) (key : string) : list string :=
  default [] (part s i !! key).

(** [get(key) -> value | None], in index [i]. *)
Definition get_at (s : t) (i : Z) (key : string) : option string :=
  head (items_at s i key).

Definition write_at (s : t) (i : Z) (key : string) (l : list string) : t :=
  {| dbs := <[i := <[key := l]> (part s i)]> (dbs s);
     in_use := in_use s;
     max_dbindex := max_dbindex s;
     selected := selected s |}.

(** [select(index)]: rebinds the partition of the active connection. *)
Definition select (s : t) (i : Z) : t :=
  {| dbs := dbs s; in_use := in_use s; max_dbindex := max_dbindex s;
     selected := i |}.

Definition get (s : t) (key : string) : option string :=
  get_at s (selected s) key.

Definition enumerate (s : t) (key : string) : list string :=
  items_at s (selected s) key.

(** [set(key, value)] overwrites. *)
Definition set (s : t) (key : string) (l : list string) : t :=
  write_at s (selected s) key l.

(** [append(key, value)] pushes without removing existing entries. *)
Definition append (s : t) (key : string) (l : list string) : t :=
  write_at s (selected s) key (enumerate s key ++ l).

(** [pop(key) -> value | None]: the oldest value still present. *)
Definition pop (s : t) (key : string) : option string * t :=
  match enumerate s key with
  | [] => (None, s)
  | x :: rest => (Some x, write_at s (selected s) key rest)
  end.

(** Removal of every occurrence of a value from the list under [key]. *)
Definition remove_item (s : t) (key : string) (v : string) : t :=
  write_at s (selected s) key
    (List.filter (fun x => negb (String.eqb x v)) (enumerate s key)).

(** [release(index)] clears all keys of the partition and returns the
    index to the free pool. *)
Definition release (s : t) (i : Z) : t :=
  {| dbs := delete i (dbs s);
     in_use := in_use s ∖ {[i]};
     max_dbindex := max_dbindex s;
     selected := selected s |}.

(** [allocate_index()]: an index not currently in use, here the lowest;
    [None] is [ResourceExhausted]. The fresh index is selected. *)
Definition allocate (s : t) : option (Z * t) :=
  match List.find (fun i => bool_decide (i ∉ in_use s))
          (seqZ 0 (max_dbindex s)) with
  | Some i =>
      Some (i, {| dbs := dbs s; in_use := in_use s ∪ {[i]};
                  max_dbindex := max_dbindex s; selected := i |})
  | None => None
  end.

(** An index is released when it is free and holds no key. *)
Definition released (s : t) (i : Z) : Prop :=
  (i ∉ in_use s) ∧ (dbs s !! i = None).

End KB.

(** ** The daemon and its surroundings *)

(** The progress of a host as [update_progress] computes it: the integer
    [100] or a float. *)
Inductive pynum : Type :=
  | NInt (z : Z)
  | NFloat (f : float).

Section Daemon.

(** The type of CVSS scores (a Python [float]) and
    [ospd.cvss.CVSS.cvss_base_v2_value], a function of the [ospd]
    library, taken as given: it yields a score for the vector passed. *)
Context {score : Type}.
Variable cvss_base_v2_value : string -> score.

(** Calls into the reporting layer of [OSPDaemon] ([add_scan_error],
    [add_scan_log], [add_scan_host_detail], [add_scan_alarm],
    [set_scan_host_progress], [set_scan_host_finished]), in call order.
    Arguments left out by a call take the defaults of [ospd] (['']). *)
Inductive event : Type :=
  | ScanError (host : option string) (hostname name value port : string)
  | ScanLog (host : option string)
      (hostname name value port test_id qod : string)
  | ScanHostDetail (host : option string) (hostname name value : string)
  | ScanAlarm (host : option string)
      (hostname name value port test_id : string)
      (severity : option score) (qod : string)
  | HostProgress (target : string) (host : option string) (host_prog : pynum)
  | HostFinished (target : string) (host : option string).

(** The fields of [OSPDopenvas] the modelled methods read or write. *)
Record daemon : Type := {
  scan_only_params : Dict.t string pyval;
  ospd_defaults : Dict.t string pyval;
      (* the defaults of the global [OSPD_PARAMS], its only mutable part *)
  main_kbindex : option Z;
  openvas_db : KB.t;
  pending_feed : option bool;
  temp_vts_dict : option vts_dict;
  vts : vts_dict;
  vts_version : option string;
  events : list event;
  clock : nat;          (* calls to [time.sleep] so far *)
  ps_lookups : nat;     (* calls to [psutil.Process] so far *)
}.

Definition with_db (d : daemon) (k : KB.t) : daemon :=
  {| scan_only_params := scan_only_params d; ospd_defaults := ospd_defaults d;
     main_kbindex := main_kbindex d; openvas_db := k;
     pending_feed := pending_feed d; temp_vts_dict := temp_vts_dict d;
     vts := vts d; vts_version := vts_version d; events := events d;
     clock := clock d; ps_lookups := ps_lookups d |}.

Definition with_main_kbindex (d : daemon) (i : option Z) : daemon :=
  {| scan_only_params := scan_only_params d; ospd_defaults := ospd_defaults d;
     main_kbindex := i; openvas_db := openvas_db d;
     pending_feed := pending_feed d; temp_vts_dict := temp_vts_dict d;
     vts := vts d; vts_version := vts_version d; events := events d;
     clock := clock d; ps_lookups := ps_lookups d |}.

Definition with_pending_feed (d : daemon) (b : option bool) : daemon :=
  {| scan_only_params := scan_only_params d; ospd_defaults := ospd_defaults d;
     main_kbindex := main_kbindex d; openvas_db := openvas_db d;
     pending_feed := b; temp_vts_dict := temp_vts_dict d;
     vts := vts d; vts_version := vts_version d; events := events d;
     clock := clock d; ps_lookups := ps_lookups d |}.

Definition with_temp_vts_dict (d : daemon) (t : option vts_dict) : daemon :=
  {| scan_only_params := scan_only_params d; ospd_defaults := ospd_defaults d;
     main_kbindex := main_kbindex d; openvas_db := openvas_db d;
     pending_feed := pending_feed d; temp_vts_dict := t;
     vts := vts d; vts_version := vts_version d; events := events d;
     clock := clock d; ps_lookups := ps_lookups d |}.

Definition with_params (d : daemon) (so : Dict.t string pyval)
    (op : Dict.t string pyval) : daemon :=
  {| scan_only_params := so; ospd_defaults := op;
     main_kbindex := main_kbindex d; openvas_db := openvas_db d;
     pending_feed := pending_feed d; temp_vts_dict := temp_vts_dict d;
     vts := vts d; vts_version := vts_version d; events := events d;
     clock := clock d; ps_lookups := ps_lookups d |}.

Definition emit (d : daemon) (e : event) : daemon :=
  {| scan_only_params := scan_only_params d; ospd_defaults := ospd_defaults d;
     main_kbindex := main_kbindex d; openvas_db := openvas_db d;
     pending_feed := pending_feed d; temp_vts_dict := temp_vts_dict d;
     vts := vts d; vts_version := vts_version d;
     events := (events d ++ [e])%list;
     clock := clock d; ps_lookups := ps_lookups d |}.

Definition tick_clock (d : daemon) : daemon :=
  {| scan_only_params := scan_only_params d; ospd_defaults := ospd_defaults d;
     main_kbindex := main_kbindex d; openvas_db := openvas_db d;
     pending_feed := pending_feed d; temp_vts_dict := temp_vts_dict d;
     vts := vts d; vts_version := vts_version d; events := events d;
     clock := S (clock d); ps_lookups := ps_lookups d |}.

Definition tick_ps (d : daemon) : daemon :=
  {| scan_only_params := scan_only_params d; ospd_defaults := ospd_defaults d;
     main_kbindex := main_kbindex d; openvas_db := openvas_db d;
     pending_feed := pending_feed d; temp_vts_dict := temp_vts_dict d;
     vts := vts d; vts_version := vts_version d; events := events d;
     clock := clock d; ps_lookups := S (ps_lookups d) |}.

(** What lies outside the daemon process: the scan as [ospd] holds it
    (the [get_scan_*] accessors of [OSPDaemon]), the operating system and
    the scanner engine. *)
Record world : Type := {
  (* files and subprocesses *)
  read_lines : string -> string -> option (list string);
      (* lines of file [name] under directory [dir]; [None]: no file *)
  openvas_settings : option string;
      (* output of [openvas -s]; [None]: the call fails *)
  running_scan : bool;      (* some entry of [scan_processes] is alive *)
  (* the scan, as the accessors of [ospd] return it *)
  scan_ports : option string;
  scan_options : Dict.t string pyval;
  scan_exclude_hosts : option string;
  scan_finished_hosts : list string;
  scan_credentials : Dict.t string cred_dict;
  scan_vts : option vts_selection;        (* [None] is [''] *)
  scan_target_options : Dict.t string pyval;
  (* the process environment *)
  new_uuid : string;                 (* [str(uuid.uuid4())] *)
  is_running_as_root : bool;
  sudo_available : bool;
  niceness : option string;          (* [self._niceness] *)
  popen : list string -> option Z;   (* pid; [None]: [OSError] *)
  poll : nat -> option Z;
      (* [result.poll()] after so many sleeps: the return code, if any *)
  process_life : Z -> nat;
      (* [psutil.Process(pid)] finds the process for so many look-ups *)
  engine : nat -> KB.t -> KB.t;
      (* what the engine and the clients write into the store during
         the n-th sleep *)
}.

(** [time.sleep]: the other processes act on the store; the connection
    of the daemon keeps its selection. *)
Definition sleep (w : world) (d : daemon) : daemon :=
  let k := openvas_db d in
  let k' := engine w (clock d) k in
  tick_clock
    (with_db d {| KB.dbs := KB.dbs k'; KB.in_use := KB.in_use k';
                  KB.max_dbindex := KB.max_dbindex k;
                  KB.selected := KB.selected k |}).

(** *** Feed synchronisation *)

Definition bool_dict : Dict.t string Z := [("no", 0); ("yes", 1)].

(** [parse_param], first loop: the settings printed by [openvas -s]. *)
Fixpoint parse_settings (confs : list string)
    (param_list : Dict.t string pyval) : Dict.t string pyval :=
  match confs with
  | [] => param_list
  | conf :: rest =>
      match split "=" conf with
      | [e0; e1] =>
          let value :=
            match Dict.get bool_dict (strip e1) with
            | Some b => PInt b
            | None => PStr (strip e1)
            end in
          parse_settings rest (Dict.set param_list (strip e0) value)
      | _ => parse_settings rest param_list
      end
  end.

(** Second loop: the defaults of [OSPD_PARAMS] are overwritten. *)
Definition update_defaults (defaults : Dict.t string pyval)
    (param_list : Dict.t string pyval) : Dict.t string pyval :=
  map (fun '(elem, default) =>
         match Dict.get param_list elem with
         | Some v => (elem, v)
         | None => (elem, default)
         end) defaults.

(** Third loop: the other settings go to [scan_only_params]. *)
Fixpoint update_scan_only (items : list (string * pyval))
    (so : Dict.t string pyval) : Dict.t string pyval :=
  match items with
  | [] => so
  | (elem, v) :: rest =>
      update_scan_only rest
        (if Dict.mem OSPD_PARAMS elem then so else Dict.set so elem v)
  end.

Fixpoint is_ascii (s : string) : bool :=
  match s with
  | EmptyString => true
  | String c s' => (nat_of_ascii c <? 128)%nat && is_ascii s'
  end.

Definition parse_param (w : world) (d : daemon) : exc daemon :=
  match openvas_settings w with
  | None => throw SubprocessError
  | Some result =>
      if negb (is_ascii result) then throw UnicodeDecodeError
      else
        let param_list := parse_settings (split newline result) [] in
        ok (with_params d
              (update_scan_only param_list (scan_only_params d))
              (update_defaults (ospd_defaults d) param_list))
  end.

(** The loop of [feed_is_outdated] over the lines of the marker file.
    [line.split(' = ')[1]] raises [IndexError] on a line that mentions
    [PLUGIN_SET] without the separator. *)
Fixpoint read_plugin_set (lines : list string) (date : pyval) : exc pyval :=
  match lines with
  | [] => ok date
  | line :: rest =>
      if contains "PLUGIN_SET" line then
        match split " = " line with
        | _ :: date :: _ =>
            read_plugin_set rest
              (PStr (remove_char dquote (remove_char ";" date)))
        | _ => throw IndexError
        end
      else read_plugin_set rest date
  end.

(** [feed_is_outdated]: [Some true], [Some false] or [None]. *)
Definition feed_is_outdated (w : world) (d : daemon) (current_feed : string)
  : exc (option bool * daemon) :=
  match Dict.get (scan_only_params d) "plugins_folder" with
  | Some (PStr plugins_folder) =>
      if negb (str_truthy plugins_folder)
      then throw (OspdOpenvasError "Error: Path to plugins folder not found.")
      else
        match read_lines w plugins_folder "plugin_feed_info.inc" with
        | None =>
            try d := parse_param w d in
            ok (None, d)
        | Some lines =>
            try date := read_plugin_set lines (PInt 0) in
            try current := int (PStr current_feed) in
            try date := int date in
            if (current <? date) || (date =? 0) then ok (Some true, d)
            else ok (Some false, d)
        end
  | Some (PInt n) =>
      if n =? 0
      then throw (OspdOpenvasError "Error: Path to plugins folder not found.")
      else throw TypeError
  | None =>
      throw (OspdOpenvasError "Error: Path to plugins folder not found.")
  end.

(** [NVTICache.get_feed_version], [redis_nvticache_init] followed by the
    rebinding of the connection to the cache, and [load_vts]: the
    ingestion of the VT catalogue, which runs the scanner and reads the
    metadata cache of [nvticache.py]. *)
Variable nvti_get_feed_version : daemon -> option string.
Variable redis_nvticache_init : daemon -> daemon.
Variable load_vts : daemon -> daemon.

Definition is_true (o : option bool) : bool :=
  match o with Some true => true | _ => false end.

Definition check_feed (w : world) (d : daemon) : exc daemon :=
  let current_feed := nvti_get_feed_version d in
  (* Check if the feed is already accessible in the disk. *)
  try first :=
    (match current_feed with
     | Some cf =>
         if str_truthy cf then
           try r := feed_is_outdated w d cf in ok (Some r)
         else ok None
     | None => ok None
     end) in
  match first with
  | Some (None, d) => ok (with_pending_feed d (Some true))
  | _ =>
      let d := match first with Some (_, d) => d | None => d end in
      (* Check if the nvticache in redis is outdated *)
      try d :=
        (match current_feed with
         | Some cf =>
             if str_truthy cf then
               try r := feed_is_outdated w d cf in
               if is_true (fst r)
               then ok (with_pending_feed
                          (redis_nvticache_init (snd r)) (Some true))
               else ok (snd r)
             else ok (with_pending_feed (redis_nvticache_init d) (Some true))
         | None => ok (with_pending_feed (redis_nvticache_init d) (Some true))
         end) in
      let _running_scan := running_scan w in
      (* Check if the NVT dict is outdated *)
      let _pending_feed :=
        if is_true (pending_feed d) then true
        else negb (bool_decide (vts_version d = nvti_get_feed_version d)) in
      if _running_scan && _pending_feed then
        (if is_true (pending_feed d) then ok d
         else ok (with_pending_feed d (Some true)))
      else if negb _running_scan && _pending_feed then ok (load_vts d)
      else ok d
  end.

(** *** The result translator *)

(** [NVTICache.QOD_TYPES], the table of [nvticache.py], and the keys under
    which [db.py] queues result lines, status lines and keeps the address
    of the host of a host index. *)
Variable QOD_TYPES : Dict.t string string.
Variable results_key : string.
Variable status_key : string.
Variable host_ip_key : string.

(** The builtin [float] on a string: the float read, [None] for
    [ValueError]. Taken as given. *)
Variable float_of_string : string -> option float.

Definition get_severity_score (vt_aux : option vt) : option score :=
  match vt_aux with
  | Some v =>
      let severity_type := Dict.get (vt_severities v) "severity_type" in
      let severity_vector :=
        Dict.get (vt_severities v) "severity_base_vector" in
      match severity_type, severity_vector with
      | Some ty, Some vec =>
          if String.eqb ty "cvss_base_v2" && str_truthy vec
          then Some (cvss_base_v2_value vec)
          else None
      | _, _ => None
      end
  | None => None
  end.

(** The VT looked up for a record: none when the record names no VT or
    reports a dead host. *)
Definition matched_vt (vts : vts_dict) (roid msg4 : string) : option vt :=
  if str_truthy roid && negb (contains "Host dead" msg4)
  then Dict.get vts roid
  else None.

(** The body of the loop of [get_openvas_result]: one record. A record
    with fewer than five fields raises [IndexError]. *)
Definition translate_result (d : daemon) (current_host : option string)
    (res : string) : exc daemon :=
  match split "|||" res with
  | m0 :: m1 :: m2 :: m3 :: m4 :: _ =>
      let roid := strip m3 in
      let rhostname := if str_truthy m1 then strip m1 else "" in
      let vt_aux := matched_vt (vts d) roid m4 in
      try rqod :=
        (match vt_aux with
         | Some v =>
             match vt_qod_type v, vt_qod v with
             | Some qod_t, q =>
                 if str_truthy qod_t then
                   match Dict.get QOD_TYPES qod_t with
                   | Some q => ok q
                   | None => throw KeyError
                   end
                 else if opt_truthy q then ok (default "" q)
                 else ok ""
             | None, q => if opt_truthy q then ok (default "" q) else ok ""
             end
         | None => ok ""
         end) in
      let rname := match vt_aux with Some v => vt_name v | None => "" end in
      let rname := if str_truthy rname then escape rname else rname in
      let d :=
        if String.eqb m0 "ERRMSG"
        then emit d (ScanError current_host rhostname rname m4 m2)
        else d in
      let d :=
        if String.eqb m0 "LOG"
        then emit d (ScanLog current_host rhostname rname m4 m2 roid rqod)
        else d in
      let d :=
        if String.eqb m0 "HOST_DETAIL"
        then emit d (ScanHostDetail current_host rhostname rname m4)
        else d in
      let d :=
        if String.eqb m0 "ALARM"
        then
          let rseverity := get_severity_score vt_aux in
          emit d (ScanAlarm current_host rhostname rname m4 m2 roid
                    rseverity rqod)
        else d in
      ok d
  | _ => throw IndexError
  end.

(** [get_openvas_result]: records are popped until the queue yields
    nothing (or an empty line). Every turn pops one record, so the length
    of the queue bounds the number of turns. *)
Fixpoint get_openvas_result_loop (turns : nat)
    (current_host : option string) (d : daemon) : exc daemon :=
  match turns with
  | O => ok d
  | S turns =>
      let '(res, k) := KB.pop (openvas_db d) results_key in
      let d := with_db d k in
      if opt_truthy res then
        try d := translate_result d current_host (default "" res) in
        get_openvas_result_loop turns current_host d
      else ok d
  end.

Definition get_openvas_result (d : daemon) (current_host : option string)
  : exc daemon :=
  get_openvas_result_loop
    (S (length (KB.enumerate (openvas_db d) results_key))) current_host d.

(** [update_progress]: a line that does not split into two parts at
    ['/'] is passed over (the [ValueError] of the unpacking is caught);
    the [ValueError] of [float] on a part is not caught. *)
Definition update_progress (d : daemon) (target : string)
    (current_host : option string) (msg : string) : exc daemon :=
  match split "/" msg with
  | [launched; total] =>
      match float_of_string total with
      | None => throw ValueError
      | Some t =>
          if PrimFloat.eqb t 0%float then ok d
          else if PrimFloat.eqb t (-1)%float then
            ok (emit d (HostProgress target current_host (NInt 100)))
          else
            match float_of_string launched with
            | None => throw ValueError
            | Some l =>
                let host_prog := PrimFloat.mul (PrimFloat.div l t) 100%float in
                ok (emit d (HostProgress target current_host
                              (NFloat host_prog)))
            end
      end
  | _ => ok d
  end.

(** [get_openvas_status]: status lines are popped until the queue yields
    nothing (or an empty line), each one handed to [update_progress]. *)
Fixpoint get_openvas_status_loop (turns : nat) (target : string)
    (current_host : option string) (d : daemon) : exc daemon :=
  match turns with
  | O => ok d
  | S turns =>
      let '(res, k) := KB.pop (openvas_db d) status_key in
      let d := with_db d k in
      if opt_truthy res then
        try d := update_progress d target current_host (default "" res) in
        get_openvas_status_loop turns target current_host d
      else ok d
  end.

Definition get_openvas_status (d : daemon) (target : string)
    (current_host : option string) : exc daemon :=
  get_openvas_status_loop
    (S (length (KB.enumerate (openvas_db d) status_key))) target
    current_host d.

Definition get_openvas_timestamp_scan_host (d : daemon)
    (target : option string) : daemon :=
  let timestamp := KB.get (openvas_db d) "internal/HOST_END" in
  if opt_truthy timestamp
  then emit d (ScanLog target "" "HOST_END" (default "" timestamp) "" "" "")
  else
    let timestamp := KB.get (openvas_db d) "internal/HOST_START" in
    if opt_truthy timestamp
    then
      emit d (ScanLog target "" "HOST_START" (default "" timestamp) "" "" "")
    else d.

(** *** Completion and stop markers *)

(** [kb_connect(dbnum=self.main_kbindex)]; index 0 when none is set. *)
Definition main_index (d : daemon) : Z := default 0 (main_kbindex d).

(** ['%s' % v] for an optional string. *)
Definition fmt (o : option string) : string := default "None" o.

Definition host_is_finished (d : daemon) (scan_id : string) : bool :=
  bool_decide (KB.get (openvas_db d) ("internal/" ++ scan_id)
               = Some "finished").

Definition target_is_finished (d : daemon) (scan_id : string) : bool :=
  let ctx := main_index d in
  let scan_id :=
    KB.get_at (openvas_db d) ctx ("internal/" ++ scan_id ++ "/globalscanid")
  in
  let status :=
    KB.get_at (openvas_db d) ctx ("internal/" ++ fmt scan_id) in
  bool_decide (status = Some "finished") || bool_decide (status = None).

(** [scan_is_stopped] also rebinds the connection to the main index. *)
Definition scan_is_stopped (d : daemon) (scan_id : string) : bool * daemon :=
  let d := with_db d (KB.select (openvas_db d) (main_index d)) in
  (bool_decide (KB.get (openvas_db d) ("internal/" ++ scan_id)
                = Some "stop_all"), d).

(** *** Stopping a scan *)

(** [psutil.Process(int(ovas_pid))]: whether the process is found.
    [int(None)] raises the [TypeError] the caller catches (no process);
    a value that is no number raises [ValueError]. *)
Definition find_process (w : world) (d : daemon) (ovas_pid : option string)
  : exc (bool * daemon) :=
  match ovas_pid with
  | None => ok (false, d)
  | Some s =>
      match int_of_string s with
      | None => throw ValueError
      | Some pid =>
          ok ((ps_lookups d <? process_life w pid)%nat, tick_ps d)
      end
  end.

(** [while parent: parent = psutil.Process(...)]: looks the process up
    until it is gone. The process is found for [process_life] look-ups in
    all, which bounds the turns. *)
Fixpoint wait_until_gone (turns : nat) (w : world) (pid : Z) (d : daemon)
  : daemon :=
  match turns with
  | O => d
  | S turns =>
      if (ps_lookups d <? process_life w pid)%nat
      then wait_until_gone turns w pid (tick_ps d)
      else tick_ps d
  end.

(** The inner loop of [stop_scan_cleanup] over the host indices. *)
Fixpoint release_host_kbs (scan_id : string) (host_kbs : list Z) (k : KB.t)
  : KB.t :=
  match host_kbs with
  | [] => k
  | host_kb :: rest =>
      let k := KB.select k host_kb in
      if opt_truthy (KB.get k ("internal/" ++ scan_id))
      then release_host_kbs scan_id rest (KB.release k host_kb)
      else release_host_kbs scan_id rest k
  end.

Definition stop_command (w : world) (scan_id : string) : list string :=
  let cmd := ["openvas"; "--scan-stop"; scan_id] in
  if negb (is_running_as_root w) && sudo_available w
  then ["sudo"; "-n"] ++ cmd
  else cmd.

(** The loop of [stop_scan_cleanup] over all indices. The result is
    [Some false] when the stop command cannot be run ([return False])
    and [None] at the end of the function. *)
Fixpoint stop_scan_cleanup_loop (w : world) (global_scan_id : string)
    (kbs : list Z) (d : daemon) : exc (option bool * daemon) :=
  match kbs with
  | [] => ok (None, d)
  | current_kbi :: rest =>
      let k := KB.select (openvas_db d) current_kbi in
      let scan_id :=
        KB.get k ("internal/" ++ global_scan_id ++ "/globalscanid") in
      if opt_truthy scan_id then
        let scan_id := default "" scan_id in
        let k := KB.set k ("internal/" ++ scan_id) ["stop_all"] in
        let ovas_pid := KB.get k "internal/ovas_pid" in
        try found := find_process w (with_db d k) ovas_pid in
        let '(parent, d) := found in
        let stopped :=
          if parent then
            match popen w (stop_command w scan_id) with
            | None => None
            | Some _ =>
                let pid := default 0 (int_of_string (default "" ovas_pid)) in
                Some (wait_until_gone (S (process_life w pid)) w pid d)
            end
          else Some d in
        match stopped with
        | None => ok (Some false, d)
        | Some d =>
            let k := KB.release (openvas_db d) current_kbi in
            let k :=
              release_host_kbs scan_id (seqZ 0 (KB.max_dbindex k)) k in
            stop_scan_cleanup_loop w global_scan_id rest (with_db d k)
        end
      else stop_scan_cleanup_loop w global_scan_id rest (with_db d k)
  end.

Definition stop_scan_cleanup (w : world) (d : daemon)
    (global_scan_id : string) : exc (option bool * daemon) :=
  stop_scan_cleanup_loop w global_scan_id
    (seqZ 0 (KB.max_dbindex (openvas_db d))) d.

(** *** [exec_scan] *)

(** The exit branches of [exec_scan] and the value each returns. *)
Inductive exit : Type :=
  | PendingFeed     (* a feed update is pending *)
  | NoPorts         (* no port list *)
  | NotLaunched     (* malformed credential or no VT: [do_not_launch] *)
  | SpawnOSError    (* the engine could not be created *)
  | SpawnFailed     (* the engine ended with a negative code at launch *)
  | Stopped         (* the client stopped the scan *)
  | Completed.      (* end of the function *)

Inductive retval : Type := RNone | RFalse | RInt (n : Z).

Definition return_value (e : exit) : retval :=
  match e with
  | PendingFeed | NoPorts | NotLaunched => RInt 2
  | SpawnOSError => RFalse
  | SpawnFailed | Stopped => RInt 1
  | Completed => RNone
  end.

(** How a run ends: a return, an exception, or still looping when the
    observation (the fuel) ends. *)
Inductive outcome : Type :=
  | Returned (e : exit) (d : daemon)
  | Raised (err : pyerr)
  | Running (d : daemon).

(** [add_scan_error(scan_id, name='', host=target, value=...)] *)
Definition add_scan_error (d : daemon) (target value : string) : daemon :=
  emit d (ScanError (Some target) "" "" value "").

Definition add_single_item (d : daemon) (key : string) (l : list string)
  : daemon :=
  with_db d (KB.append (openvas_db d) key l).

(** The exclusions written to [options]: the explicit ones, then the
    hosts finished by an earlier run of a resumed scan. *)
Definition merge_exclude_hosts (options : Dict.t string pyval)
    (exclude_hosts : option string) (finished_hosts : list string)
  : Dict.t string pyval :=
  let options :=
    if opt_truthy exclude_hosts
    then Dict.set options "exclude_hosts" (PStr (default "" exclude_hosts))
    else options in
  match finished_hosts with
  | [] => options
  | _ :: _ =>
      if opt_truthy exclude_hosts then
        let finished_hosts_str := join "," finished_hosts in
        let exclude_hosts :=
          default "" exclude_hosts ++ "," ++ finished_hosts_str in
        Dict.set options "exclude_hosts" (PStr exclude_hosts)
      else Dict.set options "exclude_hosts" (PStr (join "," finished_hosts))
  end.

(** [# Set scan preferences]: one line per option. *)
Definition scan_preferences (options : Dict.t string pyval) : list string :=
  map (fun '(key, value) =>
         let item_type :=
           match Dict.get OSPD_PARAMS key with
           | Some desc => p_type desc
           | None => ""
           end in
         let val :=
           if String.eqb item_type "boolean" then _from_bool_to_str value
           else str value in
         key ++ "|||" ++ val) options.

(** [# Set credentials]: the new state and [do_not_launch]. *)
Definition set_credentials (w : world) (d : daemon)
    (target openvas_scan_id : string) : exc (daemon * bool) :=
  let credentials := scan_credentials w in
  match credentials with
  | [] => ok (d, false)
  | _ :: _ =>
      try cred_prefs := build_credentials_as_prefs credentials in
      match cred_prefs with
      | _ :: _ =>
          ok (add_single_item d
                ("internal/" ++ openvas_scan_id ++ "/scanprefs") cred_prefs,
              false)
      | [] => ok (add_scan_error d target "Malformed credential.", true)
      end
  end.

(** The alive test lines overwrite the VT parameters of the same key. *)
Fixpoint merge_alive_test (alive_test_opt : list string)
    (nvts_params : Dict.t string string) : exc (Dict.t string string) :=
  match alive_test_opt with
  | [] => ok nvts_params
  | elem :: rest =>
      match split "|||" elem with
      | [key; val] => merge_alive_test rest (Dict.set nvts_params key val)
      | _ => throw ValueError
      end
  end.

Variable b64decode_ok : string -> bool.

(** [# Set plugins to run]: the new state and whether VTs were given. *)
Definition set_plugins (w : world) (d : daemon)
    (target openvas_scan_id : string) : exc (daemon * bool) :=
  let d := with_temp_vts_dict d (Some (vts d)) in
  match scan_vts w with
  | Some nvts =>
      try processed := process_vts b64decode_ok (vts d) nvts in
      let '(nvts_list, nvts_params) := processed in
      let plugin_list := "plugin_set|||" ++ join ";" nvts_list in
      let d :=
        add_single_item d ("internal/" ++ openvas_scan_id ++ "/scanprefs")
          [plugin_list] in
      let target_options := scan_target_options w in
      try nvts_params :=
        (match target_options with
         | [] => ok nvts_params
         | _ :: _ =>
             merge_alive_test (build_alive_test_opt_as_prefs target_options)
               nvts_params
         end) in
      let d :=
        fold_left
          (fun d '(key, val) =>
             add_single_item d
               ("internal/" ++ openvas_scan_id ++ "/scanprefs")
               [key ++ "|||" ++ val])
          nvts_params d in
      ok (with_temp_vts_dict d None, false)
  | None => ok (add_scan_error d target "No VTS to run.", true)
  end.

(** [exec_scan] up to the decision to launch: either an early return or
    the state with all preferences written. *)
Definition prepare_scan (w : world) (d : daemon) (scan_id target : string)
  : outcome + daemon :=
  if is_true (pending_feed d) then
    inl (Returned PendingFeed
           (add_scan_error d target
              ("It was not possible to start the scan,"
                 ++ "because a pending feed update. Please try later")))
  else
    let ports := scan_ports w in
    if negb (opt_truthy ports) then
      inl (Returned NoPorts (add_scan_error d target "No port list defined."))
    else
      let ports := default "" ports in
      let options := scan_options w in
      match KB.allocate (openvas_db d) with
      | None => inl (Raised (OspdOpenvasError "ResourceExhausted"))
      | Some (db_index, k) =>
          let d := with_main_kbindex (with_db d k) (Some db_index) in
          let openvas_scan_id := new_uuid w in
          let d := add_single_item d ("internal/" ++ openvas_scan_id)
                     ["new"] in
          let d := add_single_item d
                     ("internal/" ++ scan_id ++ "/globalscanid")
                     [openvas_scan_id] in
          let d := add_single_item d "internal/scanid" [openvas_scan_id] in
          let options :=
            merge_exclude_hosts options (scan_exclude_hosts w)
              (scan_finished_hosts w) in
          let prefs_val := scan_preferences options in
          let scanprefs := "internal/" ++ openvas_scan_id ++ "/scanprefs" in
          let d := add_single_item d scanprefs prefs_val in
          let d := add_single_item d scanprefs
                     ["ov_maindbid|||" ++ str_of_Z db_index] in
          let d := add_single_item d scanprefs ["TARGET|||" ++ target] in
          let d := add_single_item d scanprefs ["port_range|||" ++ ports] in
          match set_credentials w d target openvas_scan_id with
          | inl err => inl (Raised err)
          | inr (d, no_creds) =>
              match set_plugins w d target openvas_scan_id with
              | inl err => inl (Raised err)
              | inr (d, no_vts) =>
                  let do_not_launch := no_creds || no_vts in
                  if do_not_launch then
                    inl (Returned NotLaunched
                           (with_db d
                              (KB.release (openvas_db d) (main_index d))))
                  else inr d
              end
          end
      end.

Definition start_command (w : world) (openvas_scan_id : string)
  : list string :=
  let cmd := ["openvas"; "--scan-start"; openvas_scan_id] in
  let cmd :=
    if negb (is_running_as_root w) && sudo_available w
    then (["sudo"; "-n"] ++ cmd)%list
    else cmd in
  match niceness w with
  | Some n => (["nice"; "-n"; n] ++ cmd)%list
  | None => cmd
  end.

(** [# Wait until the scanner starts and loads all the preferences.] *)
Fixpoint wait_for_engine (fuel : nat) (w : world) (scan_id : string)
    (d : daemon) : outcome + daemon :=
  match fuel with
  | O => inl (Running d)
  | S fuel =>
      if bool_decide (KB.get (openvas_db d) ("internal/" ++ new_uuid w)
                      = Some "new")
      then
        match poll w (clock d) with
        | Some res =>
            if res <? 0 then
              match stop_scan_cleanup w d scan_id with
              | inl err => inl (Raised err)
              | inr (_, d) => inl (Returned SpawnFailed d)
              end
            else wait_for_engine fuel w scan_id (sleep w d)
        | None => wait_for_engine fuel w scan_id (sleep w d)
        end
      else inr d
  end.

(** What one turn of the polling loop saw: the host indices it
    harvested, and what [target_is_finished] reads at its end (read here
    on every turn, also when the loop does not consult it). *)
Record tick_obs : Type := {
  obs_harvested : list string;
  obs_finished : bool;
}.

(** An entry of [internal/dbindex] read as an index. *)
Definition kb_index_of (i : string) : exc Z :=
  match int_of_string i with
  | Some n => ok n
  | None => throw ValueError
  end.

(** The body of [for i in list(dbs)]. The state of the loop is
    [no_id_found], the host indices harvested so far and the daemon.
    The test [i == self.main_kbindex] compares an entry of the store, a
    string, with an integer: it never holds, so every entry of the
    registry is taken for a host index, the main index included when the
    registry names it. *)
Definition harvest_host (target openvas_scan_id : string) (i : string)
    (st : bool * list string * daemon)
  : exc (bool * list string * daemon) :=
  let '(no_id_found, harvested, d) := st in
  try kbi := kb_index_of i in
  let d := with_db d (KB.select (openvas_db d) kbi) in
  let id_aux := KB.get (openvas_db d) "internal/scan_id" in
  if negb (opt_truthy id_aux) then ok (no_id_found, harvested, d)
  else if bool_decide (id_aux = Some openvas_scan_id) then
    let current_host := KB.get (openvas_db d) host_ip_key in
    try d := get_openvas_result d current_host in
    try d := get_openvas_status d target current_host in
    let d := get_openvas_timestamp_scan_host d current_host in
    if host_is_finished d openvas_scan_id then
      let d := emit d (HostFinished target current_host) in
      try d := get_openvas_status d target current_host in
      let d := get_openvas_timestamp_scan_host d current_host in
      let k := KB.select (openvas_db d) (main_index d) in
      let k := KB.remove_item k "internal/dbindex" i in
      ok (false, (harvested ++ [i])%list, with_db d (KB.release k kbi))
    else ok (false, (harvested ++ [i])%list, d)
  else ok (no_id_found, harvested, d).

Fixpoint harvest_hosts (target openvas_scan_id : string)
    (dbs : list string) (st : bool * list string * daemon)
  : exc (bool * list string * daemon) :=
  match dbs with
  | [] => ok st
  | i :: rest =>
      try st := harvest_host target openvas_scan_id i st in
      harvest_hosts target openvas_scan_id rest st
  end.

Inductive tick_result : Type :=
  | TickStop (d : daemon)
  | TickBreak (d : daemon)
  | TickContinue (d : daemon)
  | TickRaise (err : pyerr).

(** One turn of [while True], after its [time.sleep(3)]. *)
Definition poll_tick (scan_id target openvas_scan_id : string)
    (no_id_found : bool) (d : daemon) : tick_obs * tick_result :=
  (* Check if the client stopped the whole scan *)
  let '(stopped, d) := scan_is_stopped d openvas_scan_id in
  if stopped then
    ({| obs_harvested := []; obs_finished := target_is_finished d scan_id |},
     TickStop d)
  else
    let d := with_db d (KB.select (openvas_db d) (main_index d)) in
    match get_openvas_result d (Some "") with
    | inl err =>
        ({| obs_harvested := [];
            obs_finished := target_is_finished d scan_id |}, TickRaise err)
    | inr d =>
        let dbs := KB.enumerate (openvas_db d) "internal/dbindex" in
        match harvest_hosts target openvas_scan_id dbs
                (no_id_found, [], d) with
        | inl err =>
            ({| obs_harvested := [];
                obs_finished := target_is_finished d scan_id |},
             TickRaise err)
        | inr (no_id_found, harvested, d) =>
            let obs :=
              {| obs_harvested := harvested;
                 obs_finished := target_is_finished d scan_id |} in
            (* Scan end. No kb in use for this scan id *)
            if no_id_found && target_is_finished d scan_id
            then (obs, TickBreak d)
            else (obs, TickContinue d)
        end
    end.

(** The polling loop; [trace] gathers what each turn saw. After the
    loop the main index is released. *)
Fixpoint poll_loop (fuel : nat) (w : world) (scan_id target : string)
    (no_id_found : bool) (trace : list tick_obs) (d : daemon)
  : list tick_obs * outcome :=
  match fuel with
  | O => (trace, Running d)
  | S fuel =>
      let d := sleep w d in
      let '(obs, r) := poll_tick scan_id target (new_uuid w) no_id_found d in
      let trace := (trace ++ [obs])%list in
      match r with
      | TickStop d => (trace, Returned Stopped d)
      | TickRaise err => (trace, Raised err)
      | TickBreak d =>
          (* Delete keys from KB related to this scan task. *)
          (trace,
           Returned Completed
             (with_db d (KB.release (openvas_db d) (main_index d))))
      | TickContinue d => poll_loop fuel w scan_id target true trace d
      end
  end.

(** [exec_scan]: the turns the polling loop took and how the run ends.
    Each of the two loops is followed for at most [fuel] turns. *)
Definition exec_scan (w : world) (fuel : nat) (d : daemon)
    (scan_id target : string) : list tick_obs * outcome :=
  match prepare_scan w d scan_id target with
  | inl o => ([], o)
  | inr d =>
      let openvas_scan_id := new_uuid w in
      match popen w (start_command w openvas_scan_id) with
      | None =>
          (* the command is not available *)
          ([], Returned SpawnOSError d)
      | Some ovas_pid =>
          let d := add_single_item d "internal/ovas_pid"
                     [str_of_Z ovas_pid] in
          match wait_for_engine fuel w scan_id d with
          | inl o => ([], o)
          | inr d => poll_loop fuel w scan_id target false [] d
          end
      end
  end.

End Daemon.

Arguments event : clear implicits.
Arguments daemon : clear implicits.
Arguments outcome : clear implicits.
Arguments tick_result : clear implicits.

(** ** The constructor

    [__init__] stores [str(niceness)] in [self._niceness]: without a
    niceness the field holds the string ['None']. *)
Definition init_niceness (niceness : option pyval) : option string :=
  Some (match niceness with Some v => str v | None => "None" end).

(** ** Statements of the specification, in its own words *)

(** The bit table of the alive test: the six boolean lines derived from the
    five flags of the mask (bit 0 TCP-ACK, bit 1 ICMP, bit 2 ARP, bit 3
    consider alive, bit 4 TCP-SYN). *)
Definition yes_no (b : bool) : string := if b then "yes" else "no".

Definition alive_test_table (mask : Z) : list string :=
  let tcp_ack := Z.testbit mask 0 in
  let icmp := Z.testbit mask 1 in
  let arp := Z.testbit mask 2 in
  let consider_alive := Z.testbit mask 3 in
  let tcp_syn := Z.testbit mask 4 in
  [ "1.3.6.1.4.1.25623.1.0.100315:1:checkbox:Do a TCP ping|||"
      ++ yes_no (tcp_ack || tcp_syn);
    "1.3.6.1.4.1.25623.1.0.100315:2:checkbox:TCP ping tries also TCP-SYN ping|||"
      ++ yes_no (tcp_ack && tcp_syn);
    "1.3.6.1.4.1.25623.1.0.100315:7:checkbox:TCP ping tries only TCP-SYN ping|||"
      ++ yes_no (tcp_syn && negb tcp_ack);
    "1.3.6.1.4.1.25623.1.0.100315:3:checkbox:Do an ICMP ping|||"
      ++ yes_no icmp;
    "1.3.6.1.4.1.25623.1.0.100315:4:checkbox:Use ARP|||" ++ yes_no arp;
    "1.3.6.1.4.1.25623.1.0.100315:5:checkbox:Mark unrechable Hosts as dead (not scanning)|||"
      ++ yes_no (negb consider_alive) ].

(** The line forced when the mask is the consider-alive bit alone. *)
Definition forced_tcp_ping : string :=
  "1.3.6.1.4.1.25623.1.0.100315:1:checkbox:Do a TCP ping|||yes".

(** The services for which credentials are expanded, and the number of
    lines each yields. *)
Definition recognised (service : string) : bool :=
  existsb (String.eqb service) ["ssh"; "smb"; "esxi"; "snmp"].

Definition expected_lines (service cred_type : string) : nat :=
  if String.eqb service "ssh" then
    (if String.eqb cred_type "up" then 3%nat else 4%nat)
  else if String.eqb service "smb" then 2%nat
  else if String.eqb service "esxi" then 2%nat
  else if String.eqb service "snmp" then 6%nat
  else 0%nat.

(** The parameters [credentials.get(service)] yields, and the lines of a
    whole map: those of its entries, in order. *)
Definition params_of (credentials : Dict.t string cred_dict)
    (service : string) : cred_dict :=
  default [] (Dict.get credentials service).

Definition cred_lines (credentials : Dict.t string cred_dict) : list string :=
  flat_map (fun it => credential_prefs (fst it) (params_of credentials (fst it)))
    credentials.

(** A string without a colon. *)
Fixpoint colon_free (s : string) : bool :=
  match s with
  | EmptyString => true
  | String c s' => negb (Ascii.eqb c ":") && colon_free s'
  end.

(** The key of a VT parameter in the preferences of a scan. *)
Definition param_key (vtid vt_param_id param_type param_name : string)
  : string :=
  vtid ++ ":" ++ vt_param_id ++ ":" ++ param_type ++ ":" ++ param_name.

(** The parameter slots of the services, as a table: the preference a
    line sets and the sub-field its value is taken from. A slot of a VT is
    named by the id of the VT, the position of the parameter, its type and
    its name. *)
Record cred_slot : Type := {
  slot_pref : string;
  slot_field : string;
}.

Definition vt_slot (oid position kind name field : string) : cred_slot :=
  {| slot_pref := oid ++ ":" ++ position ++ ":" ++ kind ++ ":" ++ name ++ ":";
     slot_field := field |}.

Definition credential_table (service cred_type : string) : list cred_slot :=
  if String.eqb service "ssh" then
    [ {| slot_pref := "auth_port_ssh"; slot_field := "port" |};
      vt_slot OID_SSH_AUTH "1" "entry" "SSH login name" "username" ]
    ++ (if String.eqb cred_type "up" then
          [ vt_slot OID_SSH_AUTH "3" "password" "SSH password (unsafe!)"
              "password" ]
        else
          [ vt_slot OID_SSH_AUTH "2" "password" "SSH key passphrase"
              "password";
            vt_slot OID_SSH_AUTH "4" "file" "SSH private key" "private" ])
  else if String.eqb service "smb" then
    [ vt_slot OID_SMB_AUTH "1" "entry" "SMB login" "username";
      vt_slot OID_SMB_AUTH "2" "password" "SMB password" "password" ]
  else if String.eqb service "esxi" then
    [ vt_slot OID_ESXI_AUTH "1" "entry" "ESXi login name" "username";
      vt_slot OID_ESXI_AUTH "2" "password" "ESXi login password" "password" ]
  else if String.eqb service "snmp" then
    [ vt_slot OID_SNMP_AUTH "1" "password" "SNMP Community" "community";
      vt_slot OID_SNMP_AUTH "2" "entry" "SNMPv3 Username" "username";
      vt_slot OID_SNMP_AUTH "3" "password" "SNMPv3 Password" "password";
      vt_slot OID_SNMP_AUTH "4" "radio" "SNMPv3 Authentication Algorithm"
        "auth_algorithm";
      vt_slot OID_SNMP_AUTH "5" "password" "SNMPv3 Privacy Password"
        "privacy_password";
      vt_slot OID_SNMP_AUTH "6" "radio" "SNMPv3 Privacy Algorithm"
        "privacy_algorithm" ]
  else [].

(** The line of a slot for the parameters of an entry: the preference,
    the separator and the value of the sub-field, the empty string when
    the entry lacks it. *)
Definition slot_line (cred_params : cred_dict) (slot : cred_slot) : string :=
  slot_pref slot ++ "|||"
  ++ default "" (Dict.get cred_params (slot_field slot)).

(** The lines of a whole credentials map by the table: for each entry, in
    order, one line per slot of its service. *)
Definition table_lines (credentials : Dict.t string cred_dict)
  : list string :=
  flat_map
    (fun it =>
       let cred_params := default [] (Dict.get credentials (fst it)) in
       map (slot_line cred_params)
         (credential_table (fst it)
            (default "" (Dict.get cred_params "type"))))
    credentials.

(** The three lines peculiar to one kind of SSH credential. *)
Definition is_ssh_password_line (l : string) : bool :=
  starts_with
    "1.3.6.1.4.1.25623.1.0.103591:3:password:SSH password (unsafe!):|||" l.

Definition is_ssh_passphrase_line (l : string) : bool :=
  starts_with
    "1.3.6.1.4.1.25623.1.0.103591:2:password:SSH key passphrase:|||" l.

Definition is_ssh_private_key_line (l : string) : bool :=
  starts_with "1.3.6.1.4.1.25623.1.0.103591:4:file:SSH private key:|||" l.

(** The assignment line of the feed marker file for a version: the name,
    the separator, the quoted version, a semicolon and the end of line. *)
Definition plugin_set_line (version : string) : string :=
  "PLUGIN_SET = " ++ String dquote (version ++ String dquote (";" ++ newline)).

(** A line that does not mention the feed version. *)
Definition no_plugin_set (line : string) : Prop :=
  contains "PLUGIN_SET" line = false.



(** A turn of the polling loop is quiet when it harvested no host index and
    the main completion marker read finished or absent. *)
Definition quiet (o : tick_obs) : Prop :=
  obs_harvested o = [] /\ obs_finished o = true.

(** The termination condition as the specification words it: the last two
    turns were quiet. *)
Definition ends_after_two_quiet_turns (trace : list tick_obs) : Prop :=
  exists pre o1 o2, trace = (pre ++ [o1; o2])%list /\ quiet o1 /\ quiet o2.

(** The termination condition of the code: the last turn was quiet and was
    not the first. *)
Definition ends_after_quiet_turn (trace : list tick_obs) : Prop :=
  exists pre o, trace = (pre ++ [o])%list /\ pre <> [] /\ quiet o.

(** No index that the registry of the main index names is a host index of
    the scan: each entry reads as an index that carries no scan id, or the
    id of another scan. *)
Definition no_host_of_scan (openvas_scan_id : string) (main : Z) (k : KB.t)
  : Prop :=
  Forall
    (fun i =>
       exists kbi,
         kb_index_of i = inr kbi
         /\ (opt_truthy (KB.get_at k kbi "internal/scan_id") = false
             \/ KB.get_at k kbi "internal/scan_id" <> Some openvas_scan_id))
    (KB.items_at k main "internal/dbindex").

(** The main completion marker, the one of the engine scan id that the
    main index maps the scan id to, reads finished or is absent. *)
Definition marker_done (scan_id : string) (main : Z) (k : KB.t) : Prop :=
  let openvas_scan_id :=
    KB.get_at k main ("internal/" ++ scan_id ++ "/globalscanid") in
  KB.get_at k main ("internal/" ++ fmt openvas_scan_id) = Some "finished"
  \/ KB.get_at k main ("internal/" ++ fmt openvas_scan_id) = None.

(** A record that [get_openvas_result] can translate: five fields, and a
    quality-of-detection type, if any, that the table knows. *)
Definition record_translates {score : Type}
    (cvss_base_v2_value : string -> score) (QOD_TYPES : Dict.t string string)
    (vts0 : vts_dict) (res : string) : Prop :=
  forall (d : daemon score) (host : option string),
    vts d = vts0 ->
    exists d', translate_result cvss_base_v2_value QOD_TYPES d host res
               = inr d'.

(** The store of a scan without hosts that is over: the registry of the
    main index is empty, the scan id maps to the engine scan id whose
    marker reads finished or is absent, and the records pending in the
    main index can be translated. *)
Definition quiet_store {score : Type}
    (cvss_base_v2_value : string -> score) (QOD_TYPES : Dict.t string string)
    (results_key : string) (vts0 : vts_dict)
    (scan_id openvas_scan_id : string) (main : Z) (k : KB.t) : Prop :=
  KB.items_at k main "internal/dbindex" = []
  /\ KB.get_at k main ("internal/" ++ scan_id ++ "/globalscanid")
     = Some openvas_scan_id
  /\ (KB.get_at k main ("internal/" ++ openvas_scan_id) = Some "finished"
      \/ KB.get_at k main ("internal/" ++ openvas_scan_id) = None)
  /\ Forall (record_translates cvss_base_v2_value QOD_TYPES vts0)
        (KB.items_at k main results_key).

(** Two daemons that differ in their events only. *)
Definition same_but_events {score : Type} (d d' : daemon score) : Prop :=
  openvas_db d' = openvas_db d
  /\ main_kbindex d' = main_kbindex d
  /\ vts d' = vts d.

(** What every step of a scan keeps: which index is the main one and the
    size of the index space. *)
Definition same_frame {score : Type} (d d' : daemon score) : Prop :=
  main_kbindex d' = main_kbindex d
  /\ KB.max_dbindex (openvas_db d') = KB.max_dbindex (openvas_db d).

(** Index [i] holds the mapping of a client scan id to an engine scan
    id, the mark by which [stop_scan_cleanup] finds the indices of a scan. *)
Definition holds_mapping (k : KB.t) (i : Z) (global_scan_id : string) : Prop :=
  opt_truthy
    (KB.get_at k i ("internal/" ++ global_scan_id ++ "/globalscanid")) = true.

(** A daemon whose scan is being prepared or run on main index [i]. *)
Definition prepared {score : Type} (i mx : Z) (d : daemon score) : Prop :=
  main_kbindex d = Some i
  /\ KB.selected (openvas_db d) = i
  /\ i ∈ KB.in_use (openvas_db d)
  /\ KB.max_dbindex (openvas_db d) = mx.

(** ** Vocabulary of the further properties *)

(** The kinds of record that the translator reports. *)
Definition reported_kinds : list string :=
  ["ERRMSG"; "LOG"; "HOST_DETAIL"; "ALARM"].

(** A record whose first field is one of the reported kinds. *)
Definition is_reported (res : string) : bool :=
  match split "|||" res with
  | m0 :: _ => existsb (String.eqb m0) reported_kinds
  | [] => false
  end.

(** The VTs of a family, in the order of the catalogue. *)
Definition family_members (temp_vts_dict : vts_dict) (family : option string)
  : list string :=
  map fst
    (List.filter
       (fun it => bool_decide (Dict.get (vt_custom (snd it)) "family" = family))
       temp_vts_dict).

(** What one filter of a VT group selects: the members of the family it
    names; a filter on another key selects nothing. *)
Definition group_of (temp_vts_dict : vts_dict) (elem : string) : list string :=
  match split "=" elem with
  | [key; value] =>
      if String.eqb key "family"
      then family_members temp_vts_dict (Some value)
      else []
  | _ => []
  end.

(** The daemon has index [i] selected and [l] is the list under [key]
    there. *)
Definition list_under {score : Type} (i : Z) (key : string)
    (l : list string) (d : daemon score) : Prop :=
  KB.selected (openvas_db d) = i /\ KB.items_at (openvas_db d) i key = l.

(** What harvesting one host index keeps: the selection, the main index
    and every list but the queues it empties; events are only added. *)
Definition harvest_keeps {score : Type} (results_key status_key : string)
    (d d' : daemon score) : Prop :=
  KB.selected (openvas_db d') = KB.selected (openvas_db d)
  /\ main_kbindex d' = main_kbindex d
  /\ (forall j key, key <> results_key -> key <> status_key ->
        KB.items_at (openvas_db d') j key = KB.items_at (openvas_db d) j key)
  /\ exists es, events d' = (events d ++ es)%list.

(** The daemon has index [i] selected and the first value under [key]
    there is a true one. *)
Definition head_set {score : Type} (i : Z) (key : string)
    (d : daemon score) : Prop :=
  KB.selected (openvas_db d) = i
  /\ opt_truthy (KB.get_at (openvas_db d) i key) = true.

(** ** Concrete scenarios

    A store of four indices whose index 0 is taken (the metadata cache), a
    daemon that has loaded one VT, and a family of worlds around them. *)

Definition demo_kb : KB.t :=
  {| KB.dbs := ∅; KB.in_use := {[0]}; KB.max_dbindex := 4; KB.selected := 0 |}.

Definition demo_vt : vt :=
  {| vt_name := "Ping host";
     vt_params :=
       [("1", {| vp_type := "checkbox"; vp_name := "Report dead hosts";
                 vp_default := "0" |});
        ("2", {| vp_type := "entry"; vp_name := "Label"; vp_default := "a" |})];
     vt_custom := [("family", "Port scanners")];
     vt_qod_type := None;
     vt_qod := Some "80";
     vt_severities :=
       [("severity_base_vector", "AV:N/AC:L/Au:N/C:N/I:N/A:N");
        ("severity_type", "cvss_base_v2")] |}.

(** The same VT with a severity scheme that is not supported. *)
Definition demo_vt_v3 : vt :=
  {| vt_name := "Ping host";
     vt_params := [];
     vt_custom := [("family", "Port scanners")];
     vt_qod_type := None;
     vt_qod := Some "80";
     vt_severities :=
       [("severity_base_vector", "AV:N/AC:L/Au:N/C:N/I:N/A:N");
        ("severity_type", "cvss_base_v3")] |}.

Definition demo_daemon : daemon Z :=
  {| scan_only_params := [("plugins_folder", PStr "/var/lib/openvas/plugins")];
     ospd_defaults := map (fun it => (fst it, p_default (snd it))) OSPD_PARAMS;
     main_kbindex := None;
     openvas_db := demo_kb;
     pending_feed := None;
     temp_vts_dict := None;
     vts := [("1.3.6.1.4.1.25623.1.0.100315", demo_vt);
             ("1.3.6.1.4.1.25623.1.0.999999", demo_vt_v3)];
     vts_version := None;
     events := [];
     clock := 0;
     ps_lookups := 0 |}.

Definition demo_uuid : string := "5c7e6e0e-9d5c-4b9a-8f0e-2f1d3c4b5a69".

(** A world in which the scan has one VT, ports and options; what varies
    is the credentials, the marker file, the engine and the processes. *)
Definition demo_world (credentials : Dict.t string cred_dict)
    (marker : option (list string)) (spawn : option Z)
    (exit_code : nat -> option Z) (engine : nat -> KB.t -> KB.t) : world :=
  {| read_lines := fun _ _ => marker;
     openvas_settings := Some "plugins_folder = /var/lib/openvas/plugins";
     running_scan := false;
     scan_ports := Some "T:1-1024";
     scan_options := [("safe_checks", PInt 1)];
     scan_exclude_hosts := Some "10.0.0.1";
     scan_finished_hosts := ["10.0.0.2"; "10.0.0.3"];
     scan_credentials := credentials;
     scan_vts :=
       Some {| vt_groups := [];
               single_vts :=
                 [("1.3.6.1.4.1.25623.1.0.100315", [("1", "1")])] |};
     scan_target_options := [("alive_test", PStr "2")];
     new_uuid := demo_uuid;
     is_running_as_root := true;
     sudo_available := false;
     niceness := None;
     popen := fun _ => spawn;
     poll := exit_code;
     process_life := fun _ => 0%nat;
     engine := engine |}.

(** The scores of the scenarios are tenths; every vector scores 5.0. *)
Definition demo_cvss (vector : string) : Z := 50.

(** An engine that accepts the scan during the first sleep, works through
    the second and marks the scan finished during the third; it never
    registers a host index. The main index of the scenarios is 1. *)
Definition engine_late_finish (n : nat) (k : KB.t) : KB.t :=
  match n with
  | 0%nat => KB.write_at k 1 ("internal/" ++ demo_uuid) ["ready"]
  | 2%nat => KB.write_at k 1 ("internal/" ++ demo_uuid) ["finished"]
  | _ => k
  end.

(** A client that asks for the scan to be stopped during the second sleep:
    the first write of [stop_scan_cleanup]. *)
Definition engine_then_stop (n : nat) (k : KB.t) : KB.t :=
  match n with
  | 0%nat => KB.write_at k 1 ("internal/" ++ demo_uuid) ["ready"]
  | 1%nat => KB.write_at k 1 ("internal/" ++ demo_uuid) ["stop_all"]
  | _ => k
  end.

(** A daemon in the polling loop of a scan that is over and had no host:
    main index 1, the marker finished. *)
Definition demo_quiet_daemon : daemon Z :=
  with_main_kbindex
    (with_db demo_daemon
       (KB.write_at
          (KB.write_at demo_kb 1 "internal/scan-1/globalscanid" [demo_uuid])
          1 ("internal/" ++ demo_uuid) ["finished"]))
    (Some 1).

(** [float] on the status lines of the scenarios, which count plugins in
    whole numbers below [2^53] written in decimal; no other string is
    read. *)
Fixpoint float_of_pos (p : positive) : float :=
  match p with
  | xH => 1%float
  | xO p => PrimFloat.mul 2%float (float_of_pos p)
  | xI p => PrimFloat.add (PrimFloat.mul 2%float (float_of_pos p)) 1%float
  end.

Definition demo_float (s : string) : option float :=
  match int_of_string s with
  | Some Z0 => Some 0%float
  | Some (Zpos p) => Some (float_of_pos p)
  | Some (Zneg p) => Some (PrimFloat.opp (float_of_pos p))
  | None => None
  end.

(** [exec_scan] with the helpers of the scenarios. *)
Definition demo_exec_scan (w : world) (fuel : nat)
  : list tick_obs * outcome Z :=
  exec_scan demo_cvss [] "internal/results" "internal/status" "internal/ip"
    demo_float
    (fun _ => true) w fuel demo_daemon "scan-1" "192.168.0.0/24".

(** The exit branch of a run and the indices in use at its end. *)
Definition run_summary (run : list tick_obs * outcome Z)
  : option (exit * list Z) :=
  match snd run with
  | Returned e d => Some (e, elements (KB.in_use (openvas_db d)))
  | _ => None
  end.

(** A store in which index 1 is taken as well, and selected. *)
Definition demo_kb_scan : KB.t :=
  {| KB.dbs := ∅; KB.in_use := {[0; 1]}; KB.max_dbindex := 4;
     KB.selected := 1 |}.

(** A daemon whose scan [scan-1] runs on main index 1; the engine process
    it recorded is gone. *)
Definition demo_running_daemon : daemon Z :=
  with_main_kbindex
    (with_db demo_daemon
       (KB.write_at
          (KB.write_at demo_kb_scan 1 "internal/scan-1/globalscanid"
             [demo_uuid])
          1 "internal/ovas_pid" ["4242"]))
    (Some 1).

(** A daemon that has launched the engine and waits for it to take the
    scan over. *)
Definition demo_waiting_daemon : daemon Z :=
  with_main_kbindex
    (with_db demo_daemon
       (KB.write_at demo_kb_scan 1 ("internal/" ++ demo_uuid) ["new"]))
    (Some 1).

(** The world of a scan without credentials whose engine is launched as
    process 4242 and, once it has accepted the scan, does nothing else. *)
Definition demo_idle_world : world :=
  demo_world [] None (Some 4242) (fun _ => None) (fun _ k => k).

(** The exit branch of a run. *)
Definition exit_of (o : outcome Z) : option exit :=
  match o with Returned e _ => Some e | _ => None end.

(** A world in which the engine process 4242 stays alive and the stop
    command cannot be run. *)
Definition demo_stuck_world : world :=
  {| read_lines := fun _ _ => None;
     openvas_settings :=
       Some ("safe_checks = no" ++ newline ++ "plugins_folder = /opt/plugins");
     running_scan := true;
     scan_ports := Some "T:1-1024";
     scan_options := [];
     scan_exclude_hosts := None;
     scan_finished_hosts := [];
     scan_credentials := [];
     scan_vts := None;
     scan_target_options := [];
     new_uuid := demo_uuid;
     is_running_as_root := false;
     sudo_available := true;
     niceness := init_niceness None;
     popen := fun _ => None;
     poll := fun _ => None;
     process_life := fun _ => 3%nat;
     engine := fun _ k => k |}.

(** A daemon with two records queued on the selected index: a log of the
    Ping Host VT and a record of a kind that is not reported. *)
Definition demo_results_daemon : daemon Z :=
  with_db demo_daemon
    (KB.write_at demo_kb 0 "internal/results"
       ["LOG|||gateway|||general/tcp|||1.3.6.1.4.1.25623.1.0.100315|||up";
        "DEBUG|||gateway|||general/tcp||||||trace"]).

(** A daemon whose first queued record has two fields only. *)
Definition demo_short_record_daemon : daemon Z :=
  with_db demo_daemon
    (KB.write_at demo_kb 0 "internal/results"
       ["ALARM|||gateway";
        "LOG|||gateway|||general/tcp|||1.3.6.1.4.1.25623.1.0.100315|||up"]).

(** A VT that declares its timeout, the parameter with id 0, as an
    entry. *)
Definition demo_vt_timeout : vt :=
  {| vt_name := "Ping host";
     vt_params :=
       [("0", {| vp_type := "entry"; vp_name := "Timeout";
                 vp_default := "320" |})];
     vt_custom := [("family", "Port scanners")];
     vt_qod_type := None;
     vt_qod := Some "80";
     vt_severities := [] |}.

(** The running scan of [demo_running_daemon] with a host index, 2, that
    the engine has taken for it. *)
Definition demo_hosts_daemon : daemon Z :=
  with_db demo_running_daemon
    (KB.write_at
       {| KB.dbs := KB.dbs (openvas_db demo_running_daemon);
          KB.in_use := {[0; 1; 2]};
          KB.max_dbindex := 4;
          KB.selected := 1 |}
       2 ("internal/" ++ demo_uuid) ["ready"]).

(** A scan on main index 1 whose registry names the host index 2, which
    the engine has marked finished, two status lines still queued. *)
Definition demo_harvest_daemon : daemon Z :=
  with_main_kbindex
    (with_db demo_daemon
       (KB.write_at
          (KB.write_at
             (KB.write_at
                (KB.write_at
                   (KB.write_at
                      {| KB.dbs := ∅; KB.in_use := {[0; 1; 2]};
                         KB.max_dbindex := 4; KB.selected := 1 |}
                      1 "internal/dbindex" ["2"])
                   2 "internal/scan_id" [demo_uuid])
                2 ("internal/" ++ demo_uuid) ["finished"])
             2 "internal/ip" ["192.168.0.7"])
          2 "internal/status" ["5/10"; "-1/-1"]))
    (Some 1).

(** ** Properties *)

(** *** Alive test *)

Lemma alive_test_prefs_in_range :
  Forall (fun mask =>
            alive_test_prefs mask =
            (alive_test_table mask
               ++ (if mask =? 8 then [forced_tcp_ping] else []))%list)
         (seqZ 1 31).
Proof. apply (bool_decide_unpack _). vm_compute. reflexivity. Qed.

Lemma alive_test_prefs_out_of_range (mask : Z) :
  mask < 1 \/ mask > 31 -> alive_test_prefs mask = [].
Proof.
  intros H. unfold alive_test_prefs.
  destruct (mask <? 1) eqn:E1; [reflexivity|].
  destruct (mask >? 31) eqn:E2; [reflexivity|].
  apply Z.ltb_ge in E1. rewrite Z.gtb_ltb in E2. apply Z.ltb_ge in E2. lia.
Qed.

Lemma build_alive_test_of_int (target_options : Dict.t string pyval)
    (v : pyval) (mask : Z) :
  Dict.get target_options "alive_test" = Some v ->
  int v = inr mask ->
  build_alive_test_opt_as_prefs target_options = alive_test_prefs mask.
Proof.
  intros Hget Hint. unfold build_alive_test_opt_as_prefs.
  destruct target_options as [|it rest]; [discriminate|].
  rewrite Hget. destruct (truthy v) eqn:Ht.
  - rewrite Hint. reflexivity.
  - destruct v as [z|s]; simpl in *.
    + injection Hint as <-. apply negb_false_iff, Z.eqb_eq in Ht. subst z.
      reflexivity.
    + apply negb_false_iff, String.eqb_eq in Ht. subst s.
      vm_compute in Hint. discriminate.
Qed.

(** C3. For an alive-test value that reads as the integer [mask]: when
    [1 <= mask <= 31], [build_alive_test_opt_as_prefs] emits exactly the six
    lines of the bit table, followed by the forced [Do a TCP ping|||yes]
    line exactly when [mask = 8]; when [mask < 1] or [mask > 31] it emits
    nothing. *)
Theorem build_alive_test_opt_as_prefs_bit_table
    (target_options : Dict.t string pyval) (v : pyval) (mask : Z) :
  Dict.get target_options "alive_test" = Some v ->
  int v = inr mask ->
  (1 <= mask <= 31 ->
   build_alive_test_opt_as_prefs target_options =
   (alive_test_table mask
      ++ (if mask =? 8 then [forced_tcp_ping] else []))%list)
  /\ (mask < 1 \/ mask > 31 ->
      build_alive_test_opt_as_prefs target_options = []).
Proof.
  intros Hget Hint.
  rewrite (build_alive_test_of_int _ _ _ Hget Hint). split.
  - intros Hr.
    pose proof alive_test_prefs_in_range as H.
    rewrite Forall_forall in H. apply H.
    apply elem_of_seqZ. lia.
  - apply alive_test_prefs_out_of_range.
Qed.

Lemma build_alive_test_opt_as_prefs_bit_table_witness :
  build_alive_test_opt_as_prefs [("alive_test", PStr "17")] =
  [ "1.3.6.1.4.1.25623.1.0.100315:1:checkbox:Do a TCP ping|||yes";
    "1.3.6.1.4.1.25623.1.0.100315:2:checkbox:TCP ping tries also TCP-SYN ping|||yes";
    "1.3.6.1.4.1.25623.1.0.100315:7:checkbox:TCP ping tries only TCP-SYN ping|||no";
    "1.3.6.1.4.1.25623.1.0.100315:3:checkbox:Do an ICMP ping|||no";
    "1.3.6.1.4.1.25623.1.0.100315:4:checkbox:Use ARP|||no";
    "1.3.6.1.4.1.25623.1.0.100315:5:checkbox:Mark unrechable Hosts as dead (not scanning)|||yes" ].
Proof.
  apply (proj1 (build_alive_test_opt_as_prefs_bit_table
                  [("alive_test", PStr "17")] (PStr "17") 17
                  eq_refl eq_refl)).
  lia.
Defined.

(** *** Credentials *)

Lemma dict_get_of_item {K V : Type} `{EqDecision K} (d : Dict.t K V)
    (it : K * V) :
  In it d -> exists v, Dict.get d (fst it) = Some v.
Proof.
  induction d as [|[k v] d IH]; intros Hin; [destruct Hin|].
  simpl. destruct (decide (k = fst it)) as [->|Hne]; [eauto|].
  destruct Hin as [<-|Hin]; [simpl in Hne; congruence|auto].
Qed.

Lemma build_credentials_loop_lines (credentials : Dict.t string cred_dict)
    (items : list (string * cred_dict)) (acc : list string) :
  (forall it, In it items -> In it credentials) ->
  build_credentials_loop credentials items acc =
  inr (acc ++ flat_map (fun it => credential_prefs (fst it)
                                    (params_of credentials (fst it)))
                       items)%list.
Proof.
  revert acc. induction items as [|it items IH]; intros acc Hsub; simpl.
  - rewrite app_nil_r. reflexivity.
  - destruct (dict_get_of_item credentials it (Hsub it (or_introl eq_refl)))
      as [p Hp].
    unfold params_of. rewrite Hp. simpl. rewrite IH.
    + rewrite <- app_assoc. reflexivity.
    + intros it' Hin. apply Hsub. right. exact Hin.
Qed.

Lemma build_credentials_as_prefs_lines (credentials : Dict.t string cred_dict) :
  build_credentials_as_prefs credentials = inr (cred_lines credentials).
Proof.
  unfold build_credentials_as_prefs, cred_lines.
  rewrite build_credentials_loop_lines; [reflexivity|auto].
Qed.

Lemma credential_prefs_length (service : string) (cred_params : cred_dict) :
  length (credential_prefs service cred_params) =
  expected_lines service (cred_get cred_params "type").
Proof.
  unfold credential_prefs, expected_lines.
  destruct (String.eqb service "ssh") eqn:Essh.
  - apply String.eqb_eq in Essh. subst service. simpl.
    destruct (String.eqb (cred_get cred_params "type") "up"); reflexivity.
  - destruct (String.eqb service "smb") eqn:Esmb.
    + apply String.eqb_eq in Esmb. subst service. reflexivity.
    + destruct (String.eqb service "esxi") eqn:Eesxi.
      * apply String.eqb_eq in Eesxi. subst service. reflexivity.
      * destruct (String.eqb service "snmp"); reflexivity.
Qed.

Lemma credential_prefs_nil (service : string) (cred_params : cred_dict) :
  credential_prefs service cred_params = [] <-> recognised service = false.
Proof.
  rewrite <- length_zero_iff_nil, credential_prefs_length.
  unfold expected_lines, recognised. simpl.
  destruct (String.eqb service "ssh").
  { destruct (String.eqb _ "up"); simpl; split; intros; discriminate. }
  destruct (String.eqb service "smb"); [simpl; split; intros; discriminate|].
  destruct (String.eqb service "esxi"); [simpl; split; intros; discriminate|].
  destruct (String.eqb service "snmp"); simpl; split; intros; try discriminate;
    reflexivity.
Qed.

Lemma flat_map_nil {A B : Type} (f : A -> list B) (l : list A) :
  flat_map f l = [] <-> (forall x, In x l -> f x = []).
Proof.
  induction l as [|a l IH]; simpl.
  - split; [intros _ x []|reflexivity].
  - split.
    + intros Hnil. apply app_eq_nil in Hnil as [H1 H2].
      intros x [<-|Hin]; [exact H1|]. apply IH; assumption.
    + intros Hall. rewrite (Hall a (or_introl eq_refl)). simpl.
      apply IH. intros x Hin. apply Hall. right. exact Hin.
Qed.

Lemma cred_lines_nil (credentials : Dict.t string cred_dict) :
  cred_lines credentials = [] <->
  forallb (fun it => negb (recognised (fst it))) credentials = true.
Proof.
  unfold cred_lines. rewrite flat_map_nil, forallb_forall.
  split; intros H x Hin; specialize (H x Hin).
  - apply credential_prefs_nil in H. rewrite H. reflexivity.
  - apply credential_prefs_nil. apply negb_true_iff. exact H.
Qed.

Lemma cred_get_default (cred_params : cred_dict) (key : string) :
  cred_get cred_params key = default "" (Dict.get cred_params key).
Proof. unfold cred_get. destruct (Dict.get cred_params key); reflexivity. Qed.

(** The lines of one entry are those of the table, slot by slot. *)
Lemma credential_prefs_table (service : string) (cred_params : cred_dict) :
  credential_prefs service cred_params
  = map (slot_line cred_params)
      (credential_table service (default "" (Dict.get cred_params "type"))).
Proof.
  unfold credential_prefs, credential_table, slot_line. cbv zeta.
  rewrite !cred_get_default.
  destruct (String.eqb service "ssh") eqn:Essh.
  - apply String.eqb_eq in Essh. subst service.
    destruct (String.eqb (default "" (Dict.get cred_params "type")) "up");
      reflexivity.
  - destruct (String.eqb service "smb") eqn:Esmb.
    + apply String.eqb_eq in Esmb. subst service. reflexivity.
    + destruct (String.eqb service "esxi") eqn:Eesxi.
      * apply String.eqb_eq in Eesxi. subst service. reflexivity.
      * destruct (String.eqb service "snmp"); reflexivity.
Qed.

Lemma cred_lines_table (credentials : Dict.t string cred_dict) :
  cred_lines credentials = table_lines credentials.
Proof.
  unfold cred_lines, table_lines, params_of.
  apply flat_map_ext. intros it. apply credential_prefs_table.
Qed.

Lemma credential_table_length (service cred_type : string) :
  length (credential_table service cred_type)
  = expected_lines service cred_type.
Proof.
  unfold credential_table, expected_lines.
  destruct (String.eqb service "ssh").
  { destruct (String.eqb cred_type "up"); reflexivity. }
  destruct (String.eqb service "smb"); [reflexivity|].
  destruct (String.eqb service "esxi"); [reflexivity|].
  destruct (String.eqb service "snmp"); reflexivity.
Qed.

(** What [exec_scan] does with the credentials: nothing for an empty map,
    an error and [do_not_launch] when no line comes out, the lines
    appended to the scan preferences otherwise. *)
Lemma set_credentials_cases {score : Type} (w : world) (d : daemon score)
    (target openvas_scan_id : string) :
  set_credentials w d target openvas_scan_id =
  inr (match scan_credentials w with
       | [] => (d, false)
       | _ :: _ =>
           if forallb (fun it => negb (recognised (fst it)))
                (scan_credentials w)
           then (add_scan_error d target "Malformed credential.", true)
           else
             (add_single_item d
                ("internal/" ++ openvas_scan_id ++ "/scanprefs")
                (cred_lines (scan_credentials w)), false)
       end).
Proof.
  unfold set_credentials.
  destruct (scan_credentials w) as [|it rest] eqn:Ecred; [reflexivity|].
  rewrite build_credentials_as_prefs_lines. simpl ebind.
  destruct (cred_lines (it :: rest)) as [|l ls] eqn:Elines.
  - apply cred_lines_nil in Elines. rewrite Elines. reflexivity.
  - destruct (forallb _ (it :: rest)) eqn:Eall; [|reflexivity].
    apply cred_lines_nil in Eall. congruence.
Qed.

(** C1 (as the code has it). Credential expansion never fails and never
    withholds lines of a recognised service: every entry contributes the
    full fixed set of lines of its service, the lines of the table of
    slots (3 for [ssh] with type [up], 4 for [ssh] otherwise, 2 for [smb],
    2 for [esxi], 6 for [snmp], none for any other name), each with the
    value of its sub-field, a sub-field that is missing being rendered as
    the empty string. [exec_scan] reports [Malformed credential.] and sets
    [do_not_launch] only when a non-empty credentials map contains no
    recognised service at all; otherwise the lines are appended to the
    scan preferences. With a map without a recognised service [exec_scan]
    never launches the engine: it returns before the launch, or raises. *)
Theorem credentials_expand_in_full {score : Type} (w : world)
    (d : daemon score) (target openvas_scan_id : string) :
  let credentials := scan_credentials w in
  build_credentials_as_prefs credentials = inr (table_lines credentials)
  /\ (forall service cred_params,
        credential_prefs service cred_params
        = map (slot_line cred_params)
            (credential_table service
               (default "" (Dict.get cred_params "type"))))
  /\ (forall service cred_type,
        length (credential_table service cred_type)
        = expected_lines service cred_type)
  /\ (forall cred_params slot,
        Dict.get cred_params (slot_field slot) = None ->
        slot_line cred_params slot = slot_pref slot ++ "|||")
  /\ set_credentials w d target openvas_scan_id =
     inr (match credentials with
          | [] => (d, false)
          | _ :: _ =>
              if forallb (fun it => negb (recognised (fst it))) credentials
              then (add_scan_error d target "Malformed credential.", true)
              else
                (add_single_item d
                   ("internal/" ++ openvas_scan_id ++ "/scanprefs")
                   (table_lines credentials), false)
          end)
  /\ (forall (cvss_base_v2_value : string -> score)
        (QOD_TYPES : Dict.t string string)
        (results_key status_key host_ip_key : string)
        (float_of_string : string -> option float)
        (b64decode_ok : string -> bool) (fuel : nat) (scan_id : string),
        credentials <> [] ->
        forallb (fun it => negb (recognised (fst it))) credentials = true ->
        match snd (exec_scan cvss_base_v2_value QOD_TYPES results_key
                     status_key host_ip_key float_of_string b64decode_ok w
                     fuel d scan_id target) with
        | Returned e _ => e = PendingFeed \/ e = NoPorts \/ e = NotLaunched
        | Raised _ => True
        | Running _ => False
        end).
Proof.
  intros credentials.
  split; [rewrite <- cred_lines_table; apply build_credentials_as_prefs_lines|].
  split; [apply credential_prefs_table|].
  split; [apply credential_table_length|].
  split.
  { intros p slot Hnone. unfold slot_line. rewrite Hnone. reflexivity. }
  split.
  { rewrite <- cred_lines_table. apply set_credentials_cases. }
  intros cvss QOD rk sk hk fl b64 fuel scan_id Hsome Hnone.
  unfold exec_scan, prepare_scan.
  destruct (is_true (pending_feed d)); [left; reflexivity|].
  destruct (opt_truthy (scan_ports w)); cbn [negb];
    [|right; left; reflexivity].
  destruct (KB.allocate (openvas_db d)) as [[db_index k]|]; [|exact I].
  rewrite set_credentials_cases. fold credentials.
  destruct credentials as [|it rest]; [contradiction|].
  rewrite Hnone.
  destruct (set_plugins b64 w _ target (new_uuid w)) as [err|[d2 no_vts]];
    [exact I|].
  cbn [orb snd]. right. right. reflexivity.
Qed.

(** C1 (as stated) fails: an [smb] entry without its [password] sub-field
    is not rejected. Both lines of the service are emitted, the password
    empty, and [exec_scan] appends them to the preferences without
    reporting an error or setting [do_not_launch]. *)
Lemma malformed_credential_is_not_rejected :
  let credentials := [("smb", [("username", "admin")])] in
  let w := demo_world credentials None (Some 4242) (fun _ => None)
             (fun _ k => k) in
  recognised "smb" = true
  /\ Dict.get [("username", "admin")] "password" = None
  /\ build_credentials_as_prefs credentials =
     inr [ "1.3.6.1.4.1.25623.1.0.90023:1:entry:SMB login:|||admin";
           "1.3.6.1.4.1.25623.1.0.90023:2:password:SMB password:|||" ]
  /\ set_credentials w demo_daemon "192.168.0.1" "id" =
     inr (add_single_item demo_daemon "internal/id/scanprefs"
            [ "1.3.6.1.4.1.25623.1.0.90023:1:entry:SMB login:|||admin";
              "1.3.6.1.4.1.25623.1.0.90023:2:password:SMB password:|||" ],
          false).
Proof. repeat split. Qed.

(** *** SSH credentials *)

Lemma ssh_lines_of_other_services (service : string) (p : cred_dict) :
  String.eqb service "ssh" = false ->
  Forall (fun l => is_ssh_password_line l = false
                   /\ is_ssh_passphrase_line l = false
                   /\ is_ssh_private_key_line l = false)
         (credential_prefs service p).
Proof.
  intros Hne. unfold credential_prefs. rewrite Hne. simpl.
  destruct (String.eqb service "smb"), (String.eqb service "esxi"),
    (String.eqb service "snmp"); simpl;
    repeat (constructor; [repeat split; vm_compute; reflexivity|]);
    constructor.
Qed.

Lemma ssh_lines_up (p : cred_dict) :
  cred_get p "type" = "up" ->
  credential_prefs "ssh" p =
  [ "auth_port_ssh|||" ++ cred_get p "port";
    "1.3.6.1.4.1.25623.1.0.103591:1:entry:SSH login name:|||"
      ++ cred_get p "username";
    "1.3.6.1.4.1.25623.1.0.103591:3:password:SSH password (unsafe!):|||"
      ++ cred_get p "password" ].
Proof. intros Hup. unfold credential_prefs. rewrite Hup. reflexivity. Qed.

Lemma ssh_lines_key (p : cred_dict) :
  cred_get p "type" <> "up" ->
  credential_prefs "ssh" p =
  [ "auth_port_ssh|||" ++ cred_get p "port";
    "1.3.6.1.4.1.25623.1.0.103591:1:entry:SSH login name:|||"
      ++ cred_get p "username";
    "1.3.6.1.4.1.25623.1.0.103591:2:password:SSH key passphrase:|||"
      ++ cred_get p "password";
    "1.3.6.1.4.1.25623.1.0.103591:4:file:SSH private key:|||"
      ++ cred_get p "private" ].
Proof.
  intros Hup. unfold credential_prefs.
  apply String.eqb_neq in Hup. rewrite Hup. reflexivity.
Qed.

Lemma dict_get_in {K V : Type} `{EqDecision K} (d : Dict.t K V) (k : K)
    (v : V) :
  Dict.get d k = Some v -> In (k, v) d.
Proof.
  induction d as [|[k' v'] d IH]; simpl; [discriminate|].
  destruct (decide (k' = k)) as [->|Hne].
  - intros [= ->]. left. reflexivity.
  - intros Hget. right. auto.
Qed.

Lemma cred_lines_forall (P : string -> Prop)
    (credentials : Dict.t string cred_dict) :
  (forall service, Forall P (credential_prefs service
                               (params_of credentials service))) ->
  Forall P (cred_lines credentials).
Proof.
  intros HP. unfold cred_lines.
  revert HP. generalize (params_of credentials). intros params HP.
  induction credentials as [|it rest IH]; simpl; [constructor|].
  apply Forall_app. split; [apply HP|apply IH].
Qed.

Lemma cred_lines_incl (credentials : Dict.t string cred_dict) (p : cred_dict) :
  Dict.get credentials "ssh" = Some p ->
  incl (credential_prefs "ssh" p) (cred_lines credentials).
Proof.
  intros Hget l Hl. unfold cred_lines. apply in_flat_map.
  exists ("ssh", p). split; [apply dict_get_in; exact Hget|].
  simpl. unfold params_of. rewrite Hget. exact Hl.
Qed.

(** C6. For a credentials map whose [ssh] entry has type [up], the
    expansion holds the port, login-name and password lines of SSH and no
    key-passphrase or private-key line, and these three lines are all of it
    when [ssh] is the only service; for an [ssh] entry of any other type it
    holds the login-name, key-passphrase and private-key lines and no plain
    password line. *)
Theorem build_credentials_as_prefs_ssh
    (credentials : Dict.t string cred_dict) (p : cred_dict) :
  Dict.get credentials "ssh" = Some p ->
  exists lines,
    build_credentials_as_prefs credentials = inr lines
    /\ (cred_get p "type" = "up" ->
        incl [ "auth_port_ssh|||" ++ cred_get p "port";
               "1.3.6.1.4.1.25623.1.0.103591:1:entry:SSH login name:|||"
                 ++ cred_get p "username";
               "1.3.6.1.4.1.25623.1.0.103591:3:password:SSH password (unsafe!):|||"
                 ++ cred_get p "password" ] lines
        /\ Forall (fun l => is_ssh_passphrase_line l = false
                            /\ is_ssh_private_key_line l = false) lines
        /\ (Dict.keys credentials = ["ssh"] ->
            lines =
            [ "auth_port_ssh|||" ++ cred_get p "port";
              "1.3.6.1.4.1.25623.1.0.103591:1:entry:SSH login name:|||"
                ++ cred_get p "username";
              "1.3.6.1.4.1.25623.1.0.103591:3:password:SSH password (unsafe!):|||"
                ++ cred_get p "password" ]))
    /\ (cred_get p "type" <> "up" ->
        incl [ "1.3.6.1.4.1.25623.1.0.103591:1:entry:SSH login name:|||"
                 ++ cred_get p "username";
               "1.3.6.1.4.1.25623.1.0.103591:2:password:SSH key passphrase:|||"
                 ++ cred_get p "password";
               "1.3.6.1.4.1.25623.1.0.103591:4:file:SSH private key:|||"
                 ++ cred_get p "private" ] lines
        /\ Forall (fun l => is_ssh_password_line l = false) lines).
Proof.
  intros Hget. exists (cred_lines credentials).
  split; [apply build_credentials_as_prefs_lines|].
  pose proof (cred_lines_incl credentials p Hget) as Hincl.
  split; intros Hty.
  - rewrite (ssh_lines_up p Hty) in Hincl. split; [exact Hincl|]. split.
    + apply cred_lines_forall. intros service.
      destruct (String.eqb service "ssh") eqn:E.
      * apply String.eqb_eq in E. subst service.
        unfold params_of. rewrite Hget. simpl.
        rewrite (ssh_lines_up p Hty).
        repeat (constructor; [split; vm_compute; reflexivity|]). constructor.
      * eapply Forall_impl; [apply (ssh_lines_of_other_services _ _ E)|].
        simpl. intros l (_ & H2 & H3). split; assumption.
    + intros Hkeys. destruct credentials as [|[k q] [|it rest]];
        try discriminate Hkeys.
      simpl in Hkeys. injection Hkeys as ->.
      assert (cred_lines [("ssh", q)] = credential_prefs "ssh" p) as ->.
      { unfold cred_lines. cbn [flat_map fst]. rewrite app_nil_r.
        unfold params_of. rewrite Hget. reflexivity. }
      rewrite (ssh_lines_up p Hty). reflexivity.
  - rewrite (ssh_lines_key p Hty) in Hincl. split.
    + intros l Hl. apply Hincl. right. exact Hl.
    + apply cred_lines_forall. intros service.
      destruct (String.eqb service "ssh") eqn:E.
      * apply String.eqb_eq in E. subst service.
        unfold params_of. rewrite Hget. simpl.
        rewrite (ssh_lines_key p Hty).
        repeat (constructor; [vm_compute; reflexivity|]). constructor.
      * eapply Forall_impl; [apply (ssh_lines_of_other_services _ _ E)|].
        simpl. intros l (H1 & _ & _). assumption.
Qed.

Lemma build_credentials_as_prefs_ssh_witness :
  exists lines,
    build_credentials_as_prefs
      [("ssh", [("type", "up"); ("username", "root"); ("password", "s3cret");
                ("port", "22")])] = inr lines
    /\ lines =
       [ "auth_port_ssh|||22";
         "1.3.6.1.4.1.25623.1.0.103591:1:entry:SSH login name:|||root";
         "1.3.6.1.4.1.25623.1.0.103591:3:password:SSH password (unsafe!):|||s3cret" ].
Proof.
  destruct (build_credentials_as_prefs_ssh
              [("ssh", [("type", "up"); ("username", "root");
                        ("password", "s3cret"); ("port", "22")])]
              [("type", "up"); ("username", "root"); ("password", "s3cret");
               ("port", "22")] eq_refl) as (lines & Hbuild & Hup & _).
  exists lines. split; [exact Hbuild|].
  apply (proj2 (proj2 (Hup eq_refl))). reflexivity.
Defined.

(** *** VT parameters of type checkbox *)

Lemma dict_get_set {K V : Type} `{EqDecision K} (d : Dict.t K V) (k : K)
    (v : V) :
  Dict.get (Dict.set d k v) k = Some v /\ In (k, v) (Dict.set d k v).
Proof.
  induction d as [|[k' v'] d IH]; simpl.
  - rewrite decide_True by reflexivity. auto.
  - destruct (decide (k' = k)) as [->|Hne]; simpl.
    + rewrite decide_True by reflexivity. auto.
    + rewrite decide_False by assumption. destruct IH. auto.
Qed.

Lemma dict_get_set_ne {K V : Type} `{EqDecision K} (d : Dict.t K V)
    (k k' : K) (v : V) :
  k <> k' -> Dict.get (Dict.set d k v) k' = Dict.get d k'.
Proof.
  intros Hne. induction d as [|[k0 v0] d IH]; cbn [Dict.set Dict.get].
  - rewrite decide_False by exact Hne. reflexivity.
  - destruct (decide (k0 = k)) as [->|Hk0]; cbn [Dict.get].
    + rewrite !decide_False by exact Hne. reflexivity.
    + rewrite IH. reflexivity.
Qed.

Lemma append_colon_inj (a a' r r' : string) :
  colon_free a = true -> colon_free a' = true ->
  a ++ String ":" r = a' ++ String ":" r' -> a = a' /\ r = r'.
Proof.
  revert a'. induction a as [|c a IH]; intros [|c' a'] Ha Ha' Heq.
  - change (String ":" r = String ":" r') in Heq. injection Heq as ->.
    split; reflexivity.
  - change (String ":" r = String c' (a' ++ String ":" r')) in Heq.
    injection Heq as <- _. discriminate Ha'.
  - change (String c (a ++ String ":" r) = String ":" r') in Heq.
    injection Heq as -> _. discriminate Ha.
  - change (String c (a ++ String ":" r) = String c' (a' ++ String ":" r'))
      in Heq.
    injection Heq as -> Heq.
    cbn [colon_free] in Ha, Ha'.
    apply andb_true_iff in Ha as [_ Ha]. apply andb_true_iff in Ha' as [_ Ha'].
    destruct (IH a' Ha Ha' Heq) as [-> ->]. split; reflexivity.
Qed.

Lemma param_key_inj (vtid vtid' pid pid' ty ty' nm nm' : string) :
  colon_free vtid = true -> colon_free vtid' = true ->
  colon_free pid = true -> colon_free pid' = true ->
  param_key vtid pid ty nm = param_key vtid' pid' ty' nm' ->
  vtid = vtid' /\ pid = pid'.
Proof.
  intros Hv Hv' Hp Hp' Heq. unfold param_key in Heq.
  change (vtid ++ String ":" (pid ++ String ":" (ty ++ ":" ++ nm))
          = vtid' ++ String ":" (pid' ++ String ":" (ty' ++ ":" ++ nm')))
    in Heq.
  apply append_colon_inj in Heq as [-> Heq]; [|assumption|assumption].
  apply append_colon_inj in Heq as [-> _]; [|assumption|assumption].
  split; reflexivity.
Qed.

Section Compile.
Variable b64decode_ok : string -> bool.
Variable temp_vts_dict : vts_dict.

(** One parameter of a known VT never raises; it leaves [vts_params] as it
    was or sets one key of the VT and the parameter. *)
Lemma process_vt_param_cases (vtid vt_param_id vt_param_value : string)
    (vts_params : Dict.t string string) :
  Dict.mem temp_vts_dict vtid = true ->
  exists vts_params',
    process_vt_param b64decode_ok temp_vts_dict vtid vt_param_id
      vt_param_value vts_params = inr vts_params'
    /\ (vts_params' = vts_params
        \/ exists ty nm r,
             vts_params'
             = Dict.set vts_params (param_key vtid vt_param_id ty nm) r).
Proof.
  intros Hmem. unfold process_vt_param, get_vt_param_type, get_vt_param_name,
    vts_index.
  unfold Dict.mem in Hmem.
  destruct (Dict.get temp_vts_dict vtid) as [v|]; [|discriminate Hmem].
  cbn [ebind ok].
  destruct (Dict.get (vt_params v) vt_param_id) as [prm|]; cbn [option_map];
    [|eexists; split; [reflexivity|left; reflexivity]].
  destruct (negb (str_truthy (vp_type prm)) || negb (str_truthy (vp_name prm)));
    [eexists; split; [reflexivity|left; reflexivity]|].
  destruct (check_param_type b64decode_ok vt_param_value _) eqn:Echk;
    [eexists; split; [reflexivity|left; reflexivity]|].
  destruct (String.eqb (if String.eqb vt_param_id "0" then "integer"
                        else vp_type prm) "checkbox") eqn:Ebox.
  - apply String.eqb_eq in Ebox. rewrite Ebox in Echk.
    unfold check_param_type in Echk. cbn [existsb] in Echk.
    change (String.eqb "checkbox" "entry") with false in Echk.
    change (String.eqb "checkbox" "password") with false in Echk.
    change (String.eqb "checkbox" "radio") with false in Echk.
    change (String.eqb "checkbox" "sshlogin") with false in Echk.
    change (String.eqb "checkbox" "checkbox") with true in Echk.
    change (String.eqb "checkbox" "file") with false in Echk.
    change (String.eqb "checkbox" "integer") with false in Echk.
    cbn [orb andb] in Echk.
    destruct (String.eqb vt_param_value "0") eqn:E0.
    + apply String.eqb_eq in E0. subst vt_param_value.
      eexists. split; [reflexivity|]. right. do 3 eexists. reflexivity.
    + destruct (String.eqb vt_param_value "1") eqn:E1; [|discriminate Echk].
      apply String.eqb_eq in E1. subst vt_param_value.
      eexists. split; [reflexivity|]. right. do 3 eexists. reflexivity.
  - eexists. split; [reflexivity|]. right. do 3 eexists. reflexivity.
Qed.

(** What the parameters of a VT write: only keys of that VT and of the
    parameters given. *)
Lemma process_vt_params_frame (vtid : string)
    (vt_params : list (string * string)) :
  Dict.mem temp_vts_dict vtid = true ->
  forall vts_params,
  exists vts_params',
    process_vt_params b64decode_ok temp_vts_dict vtid vt_params vts_params
    = inr vts_params'
    /\ forall key,
         (forall pid value ty nm,
            In (pid, value) vt_params -> key <> param_key vtid pid ty nm) ->
         Dict.get vts_params' key = Dict.get vts_params key.
Proof.
  intros Hmem.
  induction vt_params as [|[pid value] rest IH]; intros vts_params;
    cbn [process_vt_params].
  - exists vts_params. split; [reflexivity|]. intros key _. reflexivity.
  - destruct (process_vt_param_cases vtid pid value vts_params Hmem)
      as (acc & -> & Hacc).
    cbn [ebind]. destruct (IH acc) as (acc' & -> & Hframe).
    exists acc'. split; [reflexivity|]. intros key Hkey.
    rewrite Hframe
      by (intros pid' value' ty nm Hin; apply (Hkey pid' value' ty nm);
          right; exact Hin).
    destruct Hacc as [->|(ty & nm & r & ->)]; [reflexivity|].
    apply dict_get_set_ne. intros Heq. symmetry in Heq. revert Heq.
    apply (Hkey pid value). left. reflexivity.
Qed.

Lemma process_vt_params_app (vtid : string)
    (l1 l2 : list (string * string)) :
  forall vts_params,
    process_vt_params b64decode_ok temp_vts_dict vtid (l1 ++ l2)%list
      vts_params
    = ebind (process_vt_params b64decode_ok temp_vts_dict vtid l1 vts_params)
        (process_vt_params b64decode_ok temp_vts_dict vtid l2).
Proof.
  induction l1 as [|[pid value] l1 IH]; intros vts_params;
    cbn [process_vt_params app]; [reflexivity|].
  destruct (process_vt_param _ _ _ _ _ _) as [e|acc]; cbn [ebind];
    [reflexivity|apply IH].
Qed.

(** What the VTs given one by one write: only keys of those VTs; the VTs
    that are known are listed. *)
Lemma process_single_vts_frame
    (items : list (string * Dict.t string string)) :
  forall vts_list vts_params,
  exists vts_params',
    process_single_vts b64decode_ok temp_vts_dict items vts_list vts_params
    = inr ((vts_list
            ++ List.filter (Dict.mem temp_vts_dict) (map fst items))%list,
           vts_params')
    /\ forall key,
         (forall vtid vt_params pid value ty nm,
            In (vtid, vt_params) items -> In (pid, value) vt_params ->
            key <> param_key vtid pid ty nm) ->
         Dict.get vts_params' key = Dict.get vts_params key.
Proof.
  induction items as [|[vtid vt_params] rest IH]; intros vts_list vts_params;
    cbn [process_single_vts map List.filter fst].
  - exists vts_params. rewrite app_nil_r. split; [reflexivity|].
    intros key _. reflexivity.
  - destruct (Dict.mem temp_vts_dict vtid) eqn:Hmem; cbn [negb].
    + destruct (process_vt_params_frame vtid vt_params Hmem vts_params)
        as (acc & -> & Hacc).
      cbn [ebind].
      destruct (IH (vts_list ++ [vtid])%list acc) as (acc' & -> & Hframe).
      exists acc'. rewrite <- app_assoc. split; [reflexivity|].
      intros key Hkey.
      rewrite Hframe
        by (intros v' ps' pid value ty nm Hv' Hp';
            apply (Hkey v' ps' pid value ty nm); [right|]; assumption).
      apply Hacc. intros pid value ty nm Hin.
      apply (Hkey vtid vt_params pid value ty nm); [left; reflexivity|exact Hin].
    + destruct (IH vts_list vts_params) as (acc' & -> & Hframe).
      exists acc'. split; [reflexivity|].
      intros key Hkey. apply Hframe.
      intros v' ps' pid value ty nm Hv' Hp'.
      apply (Hkey v' ps' pid value ty nm); [right|]; assumption.
Qed.

Lemma process_single_vts_app
    (l1 l2 : list (string * Dict.t string string)) :
  forall vts_list vts_params,
    process_single_vts b64decode_ok temp_vts_dict (l1 ++ l2)%list vts_list
      vts_params
    = ebind (process_single_vts b64decode_ok temp_vts_dict l1 vts_list
               vts_params)
        (fun r => process_single_vts b64decode_ok temp_vts_dict l2 (fst r)
                    (snd r)).
Proof.
  induction l1 as [|[vtid vt_params] l1 IH]; intros vts_list vts_params;
    cbn [process_single_vts app]; [reflexivity|].
  destruct (negb (Dict.mem temp_vts_dict vtid)); [apply IH|].
  destruct (process_vt_params _ _ _ _ _) as [e|acc]; cbn [ebind];
    [reflexivity|apply IH].
Qed.

End Compile.

Lemma param_key_vt (vtid vtid' pid pid' ty ty' nm nm' : string) :
  colon_free vtid = true -> colon_free vtid' = true ->
  param_key vtid pid ty nm = param_key vtid' pid' ty' nm' -> vtid = vtid'.
Proof.
  intros Hv Hv' Heq. unfold param_key in Heq.
  change (vtid ++ String ":" (pid ++ ":" ++ ty ++ ":" ++ nm)
          = vtid' ++ String ":" (pid' ++ ":" ++ ty' ++ ":" ++ nm')) in Heq.
  apply append_colon_inj in Heq as [Heq _]; assumption.
Qed.

(** The entries around one entry of a dictionary have other keys. *)
Lemma dict_wf_middle {K V : Type} `{EqDecision K} (l1 l2 : Dict.t K V)
    (k : K) (v : V) :
  Dict.wf (l1 ++ (k, v) :: l2)%list ->
  forall it, In it (l1 ++ l2)%list -> fst it <> k.
Proof.
  unfold Dict.wf, Dict.keys. rewrite map_app. cbn [map fst].
  intros Hwf it Hin Heq.
  apply NoDup_app in Hwf as (_ & Hdis & Hwf).
  apply NoDup_cons in Hwf as [Hfresh _].
  apply in_app_or in Hin as [Hin|Hin].
  - apply (Hdis k).
    + apply list_elem_of_In. rewrite <- Heq. apply in_map. exact Hin.
    + left.
  - apply Hfresh. apply list_elem_of_In. rewrite <- Heq. apply in_map.
    exact Hin.
Qed.

Section Checkbox.
Variable b64decode_ok : string -> bool.
Variable temp_vts_dict : vts_dict.
Variables vtid vt_param_id : string.
Variable v : vt.
Variable prm : vt_param.
Hypothesis Hvt : Dict.get temp_vts_dict vtid = Some v.
Hypothesis Hprm : Dict.get (vt_params v) vt_param_id = Some prm.
Hypothesis Htype : vp_type prm = "checkbox".
Hypothesis Hid : vt_param_id <> "0".
Hypothesis Hname : vp_name prm <> "".

Let key : string :=
  vtid ++ ":" ++ vt_param_id ++ ":" ++ "checkbox" ++ ":" ++ vp_name prm.

Lemma checkbox_param_lookup :
  get_vt_param_type temp_vts_dict vtid vt_param_id = inr (Some "checkbox")
  /\ get_vt_param_name temp_vts_dict vtid vt_param_id
     = inr (Some (vp_name prm)).
Proof.
  unfold get_vt_param_type, get_vt_param_name, vts_index.
  rewrite Hvt. simpl. rewrite Hprm. simpl. rewrite Htype. split; reflexivity.
Qed.

Lemma checkbox_param_accepted (value rendered : string)
    (vts_params : Dict.t string string) :
  (value = "0" /\ rendered = "no") \/ (value = "1" /\ rendered = "yes") ->
  process_vt_param b64decode_ok temp_vts_dict vtid vt_param_id value
    vts_params = inr (Dict.set vts_params key rendered).
Proof.
  intros Hv. unfold process_vt_param.
  destruct checkbox_param_lookup as [-> ->]. simpl ebind.
  apply String.eqb_neq in Hname, Hid.
  unfold str_truthy. rewrite Hname, Hid. simpl.
  destruct Hv as [[-> ->]|[-> ->]]; reflexivity.
Qed.

Lemma checkbox_param_dropped (value : string)
    (vts_params : Dict.t string string) :
  value <> "0" -> value <> "1" ->
  process_vt_param b64decode_ok temp_vts_dict vtid vt_param_id value
    vts_params = inr vts_params.
Proof.
  intros H0 H1. unfold process_vt_param.
  destruct checkbox_param_lookup as [-> ->]. simpl ebind.
  apply String.eqb_neq in Hname, Hid, H0, H1.
  unfold str_truthy. rewrite Hname, Hid. simpl.
  unfold check_param_type. simpl. rewrite H0, H1. reflexivity.
Qed.

Lemma checkbox_params_dropped (value : string)
    (before after : list (string * string))
    (vts_params : Dict.t string string) :
  value <> "0" -> value <> "1" ->
  process_vt_params b64decode_ok temp_vts_dict vtid
    (before ++ (vt_param_id, value) :: after)%list vts_params =
  process_vt_params b64decode_ok temp_vts_dict vtid (before ++ after)%list
    vts_params.
Proof.
  intros H0 H1. revert vts_params.
  induction before as [|[pid pv] before IH]; intros vts_params; simpl.
  - rewrite checkbox_param_dropped by assumption. reflexivity.
  - destruct (process_vt_param _ _ _ pid pv vts_params); simpl; auto.
Qed.

Lemma checkbox_vts_dropped (value : string)
    (before after : list (string * string))
    (vts_before vts_after : list (string * Dict.t string string))
    (vts_list : list string) (vts_params : Dict.t string string) :
  value <> "0" -> value <> "1" ->
  process_single_vts b64decode_ok temp_vts_dict
    (vts_before ++ (vtid, (before ++ (vt_param_id, value) :: after)%list)
                     :: vts_after)%list vts_list vts_params =
  process_single_vts b64decode_ok temp_vts_dict
    (vts_before ++ (vtid, (before ++ after)%list) :: vts_after)%list
    vts_list vts_params.
Proof.
  intros H0 H1. revert vts_list vts_params.
  induction vts_before as [|[id ps] vts_before IH];
    intros vts_list vts_params; simpl.
  - rewrite checkbox_params_dropped by assumption. reflexivity.
  - destruct (Dict.mem temp_vts_dict id); simpl; [|apply IH].
    destruct (process_vt_params _ _ id ps vts_params); simpl; auto.
Qed.

(** The value under the key of the parameter in what [process_vts]
    returns, the parameter given with [value] somewhere in the selection. *)
Lemma checkbox_vts_result (groups l0 : list string)
    (vts_before vts_after : list (string * Dict.t string string))
    (before after : list (string * string)) (value : string) :
  get_vts_in_groups temp_vts_dict groups = inr l0 ->
  Dict.wf (vts_before
             ++ (vtid, (before ++ (vt_param_id, value) :: after)%list)
                  :: vts_after)%list ->
  Dict.wf (before ++ (vt_param_id, value) :: after)%list ->
  Forall (fun it => colon_free (fst it) = true)
    (vts_before
       ++ (vtid, (before ++ (vt_param_id, value) :: after)%list)
            :: vts_after)%list ->
  Forall (fun prm => colon_free (fst prm) = true)
    (before ++ (vt_param_id, value) :: after)%list ->
  exists vts_list vts_params,
    process_vts b64decode_ok temp_vts_dict
      {| vt_groups := groups;
         single_vts :=
           (vts_before
              ++ (vtid, (before ++ (vt_param_id, value) :: after)%list)
                   :: vts_after)%list |}
    = inr (vts_list, vts_params)
    /\ In vtid vts_list
    /\ Dict.get vts_params key
       = (if String.eqb value "1" then Some "yes"
          else if String.eqb value "0" then Some "no"
          else None).
Proof.
  intros Hgroups Hwf Hwfp Hfree Hfreep.
  assert (Hmem : Dict.mem temp_vts_dict vtid = true)
    by (unfold Dict.mem; rewrite Hvt; reflexivity).
  assert (Hvfree : colon_free vtid = true).
  { apply Forall_app in Hfree as [_ Hfree]. exact (Forall_inv Hfree). }
  assert (Hpfree : colon_free vt_param_id = true).
  { apply Forall_app in Hfreep as [_ Hfreep]. exact (Forall_inv Hfreep). }
  assert (Hothers : forall vtid' vt_params' pid value' ty nm,
             In (vtid', vt_params') (vts_before ++ vts_after)%list ->
             In (pid, value') vt_params' ->
             key <> param_key vtid' pid ty nm).
  { intros vtid' ps pid value' ty nm Hin _ Heq.
    apply (dict_wf_middle _ _ _ _ Hwf (vtid', ps) Hin). cbn [fst].
    symmetry. apply (param_key_vt _ _ _ _ _ _ _ _ Hvfree) in Heq;
      [exact Heq|].
    apply (proj1 (List.Forall_forall _ _) Hfree (vtid', ps)).
    apply in_app_or in Hin as [Hin|Hin]; apply in_or_app;
      [left|right; right]; exact Hin. }
  assert (Hparams : forall pid value' ty nm,
             In (pid, value') (before ++ after)%list ->
             key <> param_key vtid pid ty nm).
  { intros pid value' ty nm Hin Heq.
    apply (dict_wf_middle _ _ _ _ Hwfp (pid, value') Hin). cbn [fst].
    symmetry. apply (param_key_inj _ _ _ _ _ _ _ _ Hvfree Hvfree Hpfree) in Heq;
      [exact (proj2 Heq)|].
    apply (proj1 (List.Forall_forall _ _) Hfreep (pid, value')).
    apply in_app_or in Hin as [Hin|Hin]; apply in_or_app;
      [left|right; right]; exact Hin. }
  unfold process_vts. cbn [vt_groups single_vts].
  assert (Hl1 : exists l1,
             match groups with
             | [] => ok []
             | _ :: _ => get_vts_in_groups temp_vts_dict groups
             end = inr l1).
  { destruct groups; [exists []; reflexivity|exists l0; exact Hgroups]. }
  destruct Hl1 as [l1 ->]. cbn [ebind].
  rewrite process_single_vts_app.
  destruct (process_single_vts_frame b64decode_ok temp_vts_dict vts_before
              l1 []) as (acc1 & -> & Hf1).
  cbn [ebind fst snd process_single_vts]. rewrite Hmem. cbn [negb].
  rewrite process_vt_params_app.
  destruct (process_vt_params_frame b64decode_ok temp_vts_dict vtid before
              Hmem acc1) as (acc2 & -> & Hf2).
  cbn [ebind process_vt_params].
  assert (Hstep : exists acc3,
             process_vt_param b64decode_ok temp_vts_dict vtid vt_param_id
               value acc2 = inr acc3
             /\ Dict.get acc3 key
                = (if String.eqb value "1" then Some "yes"
                   else if String.eqb value "0" then Some "no"
                   else Dict.get acc2 key)).
  { destruct (String.eqb value "1") eqn:E1.
    - apply String.eqb_eq in E1. subst value. eexists. split.
      + apply checkbox_param_accepted. right. split; reflexivity.
      + apply dict_get_set.
    - destruct (String.eqb value "0") eqn:E0.
      + apply String.eqb_eq in E0. subst value. eexists. split.
        * apply checkbox_param_accepted. left. split; reflexivity.
        * apply dict_get_set.
      + apply String.eqb_neq in E0, E1. eexists. split.
        * apply checkbox_param_dropped; assumption.
        * reflexivity. }
  destruct Hstep as (acc3 & -> & Hacc3). cbn [ebind].
  destruct (process_vt_params_frame b64decode_ok temp_vts_dict vtid after
              Hmem acc3) as (acc4 & -> & Hf4).
  cbn [ebind].
  destruct (process_single_vts_frame b64decode_ok temp_vts_dict vts_after
              ((l1 ++ List.filter (Dict.mem temp_vts_dict)
                        (map fst vts_before)) ++ [vtid])%list acc4)
    as (acc5 & -> & Hf5).
  eexists _, acc5. split; [reflexivity|]. split.
  { apply in_or_app. left. apply in_or_app. right. left. reflexivity. }
  rewrite Hf5
    by (intros vtid' ps pid value' ty nm Hin Hp;
        apply (Hothers vtid' ps pid value' ty nm);
        [apply in_or_app; right; exact Hin|exact Hp]).
  rewrite Hf4
    by (intros pid value' ty nm Hin; apply (Hparams pid value' ty nm);
        apply in_or_app; right; exact Hin).
  rewrite Hacc3.
  rewrite Hf2
    by (intros pid value' ty nm Hin; apply (Hparams pid value' ty nm);
        apply in_or_app; left; exact Hin).
  rewrite Hf1
    by (intros vtid' ps pid value' ty nm Hin Hp;
        apply (Hothers vtid' ps pid value' ty nm);
        [apply in_or_app; left; exact Hin|exact Hp]).
  reflexivity.
Qed.

(** C4. For a parameter of a known VT whose effective type is checkbox
    (declared [checkbox], named, and not parameter ["0"]): the value
    ["1"] is written as [yes] and ["0"] as [no] under the key
    [vtid:id:checkbox:name]; any other value leaves [vts_params] as it
    was, and the parameters of the VT and the whole VT selection are
    processed exactly as if that parameter had not been given. So, for a
    selection that gives the parameter (the ids of its VTs and of the
    parameters of the VT free of colons, so that keys do not collide),
    [process_vts] returns, lists the VT, and what it returns holds [yes]
    under the key for ["1"], [no] for ["0"] and nothing for any other
    value. *)
Theorem process_vts_checkbox :
  (forall vts_params,
     process_vt_param b64decode_ok temp_vts_dict vtid vt_param_id "1"
       vts_params = inr (Dict.set vts_params key "yes"))
  /\ (forall vts_params,
        process_vt_param b64decode_ok temp_vts_dict vtid vt_param_id "0"
          vts_params = inr (Dict.set vts_params key "no"))
  /\ (forall value, value <> "0" -> value <> "1" ->
        (forall vts_params,
           process_vt_param b64decode_ok temp_vts_dict vtid vt_param_id
             value vts_params = inr vts_params)
        /\ (forall before after vts_params,
              process_vt_params b64decode_ok temp_vts_dict vtid
                (before ++ (vt_param_id, value) :: after)%list vts_params =
              process_vt_params b64decode_ok temp_vts_dict vtid
                (before ++ after)%list vts_params)
        /\ (forall groups vts_before vts_after before after,
              process_vts b64decode_ok temp_vts_dict
                {| vt_groups := groups;
                   single_vts :=
                     (vts_before
                        ++ (vtid,
                            (before ++ (vt_param_id, value) :: after)%list)
                             :: vts_after)%list |} =
              process_vts b64decode_ok temp_vts_dict
                {| vt_groups := groups;
                   single_vts :=
                     (vts_before ++ (vtid, (before ++ after)%list)
                        :: vts_after)%list |}))
  /\ (forall groups l0 vts_before vts_after before after value,
        get_vts_in_groups temp_vts_dict groups = inr l0 ->
        Dict.wf (vts_before
                   ++ (vtid, (before ++ (vt_param_id, value) :: after)%list)
                        :: vts_after)%list ->
        Dict.wf (before ++ (vt_param_id, value) :: after)%list ->
        Forall (fun it => colon_free (fst it) = true)
          (vts_before
             ++ (vtid, (before ++ (vt_param_id, value) :: after)%list)
                  :: vts_after)%list ->
        Forall (fun prm => colon_free (fst prm) = true)
          (before ++ (vt_param_id, value) :: after)%list ->
        exists vts_list vts_params,
          process_vts b64decode_ok temp_vts_dict
            {| vt_groups := groups;
               single_vts :=
                 (vts_before
                    ++ (vtid, (before ++ (vt_param_id, value) :: after)%list)
                         :: vts_after)%list |}
          = inr (vts_list, vts_params)
          /\ In vtid vts_list
          /\ Dict.get vts_params
               (vtid ++ ":" ++ vt_param_id ++ ":" ++ "checkbox" ++ ":"
                  ++ vp_name prm)
             = (if String.eqb value "1" then Some "yes"
                else if String.eqb value "0" then Some "no"
                else None)).
Proof.
  split; [intros; apply checkbox_param_accepted; auto|].
  split; [intros; apply checkbox_param_accepted; auto|].
  split.
  - intros value H0 H1.
    split; [intros; apply checkbox_param_dropped; assumption|].
    split; [intros; apply checkbox_params_dropped; assumption|].
    intros groups vts_before vts_after before after.
    unfold process_vts. simpl.
    destruct (match groups with
              | [] => ok []
              | _ :: _ => get_vts_in_groups temp_vts_dict groups
              end); simpl; [reflexivity|].
    apply checkbox_vts_dropped; assumption.
  - intros groups l0 vts_before vts_after before after value.
    apply checkbox_vts_result.
Qed.
End Checkbox.

(** A selection of two VTs that gives the checkbox ["1"] of the first the
    values ["1"], ["0"] or ["2"] next to an entry: the key of the checkbox
    holds [yes], [no] or nothing. *)
Lemma process_vts_checkbox_witness :
  let selection value :=
    {| vt_groups := ["family=Port scanners"];
       single_vts :=
         [("1.3.6.1.4.1.25623.1.0.100315", [("2", "eth0"); ("1", value)]);
          ("1.3.6.1.4.1.25623.1.0.999999", [])] |} in
  let key := "1.3.6.1.4.1.25623.1.0.100315:1:checkbox:Report dead hosts" in
  (exists vts_list vts_params,
     process_vts (fun _ => true) (vts demo_daemon) (selection "1")
     = inr (vts_list, vts_params)
     /\ In "1.3.6.1.4.1.25623.1.0.100315" vts_list
     /\ Dict.get vts_params key = Some "yes")
  /\ (exists vts_list vts_params,
        process_vts (fun _ => true) (vts demo_daemon) (selection "0")
        = inr (vts_list, vts_params)
        /\ In "1.3.6.1.4.1.25623.1.0.100315" vts_list
        /\ Dict.get vts_params key = Some "no")
  /\ (exists vts_list vts_params,
        process_vts (fun _ => true) (vts demo_daemon) (selection "2")
        = inr (vts_list, vts_params)
        /\ In "1.3.6.1.4.1.25623.1.0.100315" vts_list
        /\ Dict.get vts_params key = None).
Proof.
  intros selection key.
  pose proof
    (fun value =>
       proj2 (proj2 (proj2
         (process_vts_checkbox (fun _ => true) (vts demo_daemon)
            "1.3.6.1.4.1.25623.1.0.100315" "1" demo_vt
            {| vp_type := "checkbox"; vp_name := "Report dead hosts";
               vp_default := "0" |}
            eq_refl eq_refl eq_refl ltac:(discriminate) ltac:(discriminate))))
         ["family=Port scanners"]
         ["1.3.6.1.4.1.25623.1.0.100315"; "1.3.6.1.4.1.25623.1.0.999999"] []
         [("1.3.6.1.4.1.25623.1.0.999999", [])] [("2", "eth0")] []
         value eq_refl) as Hresult.
  split; [|split].
  - apply (Hresult "1").
    + apply (bool_decide_unpack _). vm_compute. reflexivity.
    + apply (bool_decide_unpack _). vm_compute. reflexivity.
    + repeat constructor.
    + repeat constructor.
  - apply (Hresult "0").
    + apply (bool_decide_unpack _). vm_compute. reflexivity.
    + apply (bool_decide_unpack _). vm_compute. reflexivity.
    + repeat constructor.
    + repeat constructor.
  - apply (Hresult "2").
    + apply (bool_decide_unpack _). vm_compute. reflexivity.
    + apply (bool_decide_unpack _). vm_compute. reflexivity.
    + repeat constructor.
    + repeat constructor.
Defined.

(** *** Feed staleness *)

Lemma read_plugin_set_skips (lines : list string) (date : pyval) :
  Forall no_plugin_set lines -> read_plugin_set lines date = inr date.
Proof.
  induction 1 as [|line lines Hline _ IH]; simpl; [reflexivity|].
  rewrite Hline. exact IH.
Qed.

Lemma read_plugin_set_five (head tail : list string) (date : pyval) :
  Forall no_plugin_set head -> Forall no_plugin_set tail ->
  read_plugin_set (head ++ plugin_set_line "5" :: tail) date
  = inr (PStr ("5" ++ newline)).
Proof.
  intros Hhead Htail. revert date.
  induction Hhead as [|line head Hline _ IH]; intros date.
  - change ([] ++ plugin_set_line "5" :: tail)%list
      with (plugin_set_line "5" :: tail).
    change (read_plugin_set (plugin_set_line "5" :: tail) date)
      with (read_plugin_set tail (PStr ("5" ++ newline))).
    apply read_plugin_set_skips. exact Htail.
  - simpl. rewrite Hline. apply IH.
Qed.

Lemma feed_is_outdated_with_marker {score : Type} (w : world)
    (d : daemon score) (plugins_folder current_feed : string)
    (lines : list string) (date : pyval) (current version : Z) :
  Dict.get (scan_only_params d) "plugins_folder" = Some (PStr plugins_folder) ->
  plugins_folder <> "" ->
  read_lines w plugins_folder "plugin_feed_info.inc" = Some lines ->
  read_plugin_set lines (PInt 0) = inr date ->
  int_of_string current_feed = Some current ->
  int date = inr version ->
  feed_is_outdated w d current_feed =
  inr (Some ((current <? version) || (version =? 0)), d).
Proof.
  intros Hfolder Hne Hlines Hdate Hcur Hver. unfold feed_is_outdated.
  rewrite Hfolder. apply String.eqb_neq in Hne. unfold str_truthy.
  rewrite Hne. simpl. rewrite Hlines, Hdate. simpl. rewrite Hcur. simpl.
  rewrite Hver. simpl.
  destruct ((current <? version) || (version =? 0)); reflexivity.
Qed.

Lemma feed_is_outdated_no_marker {score : Type} (w : world)
    (d d' : daemon score) (plugins_folder current_feed : string) :
  Dict.get (scan_only_params d) "plugins_folder" = Some (PStr plugins_folder) ->
  plugins_folder <> "" ->
  read_lines w plugins_folder "plugin_feed_info.inc" = None ->
  parse_param w d = inr d' ->
  feed_is_outdated w d current_feed = inr (None, d').
Proof.
  intros Hfolder Hne Hlines Hparse. unfold feed_is_outdated.
  rewrite Hfolder. apply String.eqb_neq in Hne. unfold str_truthy.
  rewrite Hne. simpl. rewrite Hlines, Hparse. reflexivity.
Qed.

(** C5. With a plugins folder configured: when the marker file assigns
    version 5, [feed_is_outdated] returns [True] for the cached version
    ["0"] and [False] for the cached version ["10"]; when the marker file
    does not exist (and the settings can be re-read) it returns [None], and
    [check_feed], for a cached version that is set, then sets the pending
    flag and returns without reloading. *)
Theorem feed_is_outdated_cases {score : Type}
    (nvti_get_feed_version : daemon score -> option string)
    (redis_nvticache_init load_vts : daemon score -> daemon score)
    (w : world) (d : daemon score) (plugins_folder : string) :
  Dict.get (scan_only_params d) "plugins_folder" = Some (PStr plugins_folder) ->
  plugins_folder <> "" ->
  (forall head tail,
     Forall no_plugin_set head -> Forall no_plugin_set tail ->
     read_lines w plugins_folder "plugin_feed_info.inc"
     = Some (head ++ plugin_set_line "5" :: tail)%list ->
     feed_is_outdated w d "0" = inr (Some true, d)
     /\ feed_is_outdated w d "10" = inr (Some false, d))
  /\ (forall d',
        read_lines w plugins_folder "plugin_feed_info.inc" = None ->
        parse_param w d = inr d' ->
        (forall current_feed,
           feed_is_outdated w d current_feed = inr (None, d'))
        /\ (forall current_feed,
              nvti_get_feed_version d = Some current_feed ->
              current_feed <> "" ->
              check_feed nvti_get_feed_version redis_nvticache_init load_vts
                w d = inr (with_pending_feed d' (Some true))
              /\ pending_feed (with_pending_feed d' (Some true))
                 = Some true)).
Proof.
  intros Hfolder Hne. split.
  - intros head tail Hhead Htail Hlines.
    pose proof (read_plugin_set_five head tail (PInt 0) Hhead Htail) as Hdate.
    split.
    + apply (feed_is_outdated_with_marker w d plugins_folder "0" _ _ 0 5
               Hfolder Hne Hlines Hdate); reflexivity.
    + apply (feed_is_outdated_with_marker w d plugins_folder "10" _ _ 10 5
               Hfolder Hne Hlines Hdate); reflexivity.
  - intros d' Hlines Hparse.
    assert (Hnone : forall cf, feed_is_outdated w d cf = inr (None, d')).
    { intros cf. eapply feed_is_outdated_no_marker; eassumption. }
    split; [exact Hnone|].
    intros cf Hcf Hcfne. split; [|reflexivity].
    unfold check_feed. rewrite Hcf.
    apply String.eqb_neq in Hcfne. unfold str_truthy. rewrite Hcfne. simpl.
    rewrite Hnone. reflexivity.
Qed.

Lemma feed_is_outdated_cases_witness :
  (let w := demo_world [] (Some [plugin_set_line "5"]) None (fun _ => None)
              (fun _ k => k) in
   feed_is_outdated w demo_daemon "0" = inr (Some true, demo_daemon)
   /\ feed_is_outdated w demo_daemon "10" = inr (Some false, demo_daemon))
  /\ (let w := demo_world [] None None (fun _ => None) (fun _ k => k) in
      exists d',
        check_feed (fun _ => Some "201910251234") (fun d => d) (fun d => d)
          w demo_daemon = inr d'
        /\ pending_feed d' = Some true).
Proof.
  split.
  - intros w.
    apply (proj1 (feed_is_outdated_cases (fun _ => None) (fun d => d)
                    (fun d => d) w demo_daemon "/var/lib/openvas/plugins"
                    eq_refl ltac:(discriminate)) [] []);
      [constructor|constructor|reflexivity].
  - intros w.
    destruct (proj2 (feed_is_outdated_cases (fun _ => Some "201910251234")
                       (fun d => d) (fun d => d) w demo_daemon
                       "/var/lib/openvas/plugins" eq_refl
                       ltac:(discriminate))
                _ eq_refl eq_refl) as [_ Hcheck].
    destruct (Hcheck "201910251234" eq_refl ltac:(discriminate)) as [H1 H2].
    eexists. split; [exact H1|exact H2].
Defined.

(** C10. When the marker file exists but no line of it mentions
    [PLUGIN_SET], [feed_is_outdated] returns [True] whatever the (numeric)
    cached version is; when the file does not exist it returns [None]. *)
Theorem feed_is_outdated_without_plugin_set {score : Type} (w w0 : world)
    (d d0 : daemon score) (plugins_folder current_feed : string)
    (lines : list string) (current : Z) :
  Dict.get (scan_only_params d) "plugins_folder" = Some (PStr plugins_folder) ->
  plugins_folder <> "" ->
  int_of_string current_feed = Some current ->
  read_lines w plugins_folder "plugin_feed_info.inc" = Some lines ->
  Forall no_plugin_set lines ->
  read_lines w0 plugins_folder "plugin_feed_info.inc" = None ->
  parse_param w0 d = inr d0 ->
  feed_is_outdated w d current_feed = inr (Some true, d)
  /\ feed_is_outdated w0 d current_feed = inr (None, d0).
Proof.
  intros Hfolder Hne Hcur Hlines Hno Hlines0 Hparse. split.
  - rewrite (feed_is_outdated_with_marker w d plugins_folder current_feed
               lines (PInt 0) current 0 Hfolder Hne Hlines
               (read_plugin_set_skips _ _ Hno) Hcur eq_refl).
    rewrite orb_true_r. reflexivity.
  - eapply feed_is_outdated_no_marker; eassumption.
Qed.

Lemma feed_is_outdated_without_plugin_set_witness :
  feed_is_outdated
    (demo_world [] (Some ["# OpenVAS feed" ++ newline]) None (fun _ => None)
       (fun _ k => k))
    demo_daemon "999999999999" = inr (Some true, demo_daemon).
Proof.
  refine (proj1 (feed_is_outdated_without_plugin_set
                   (demo_world [] (Some ["# OpenVAS feed" ++ newline]) None
                      (fun _ => None) (fun _ k => k))
                   (demo_world [] None None (fun _ => None) (fun _ k => k))
                   demo_daemon _ "/var/lib/openvas/plugins" "999999999999"
                   ["# OpenVAS feed" ++ newline] 999999999999
                   eq_refl _ eq_refl eq_refl _ eq_refl eq_refl)).
  - discriminate.
  - constructor; [reflexivity|constructor].
Defined.

(** *** Severity of alarms *)




(** The same record for a VT whose severity type is not supported is
    delivered with a null severity. *)
Example alarm_unsupported_severity :
  option_map (events (score := Z))
    (match
       translate_result demo_cvss [] demo_daemon (Some "192.168.0.7")
         "ALARM|||web|||80/tcp|||1.3.6.1.4.1.25623.1.0.999999|||It is open"
     with inr d' => Some d' | inl _ => None end)
  = Some [ScanAlarm (Some "192.168.0.7") "web" "Ping host" "It is open"
            "80/tcp" "1.3.6.1.4.1.25623.1.0.999999" None "80"].
Proof. reflexivity. Qed.

(** *** The store *)

Lemma items_at_write_at (k : KB.t) (i j : Z) (key key' : string)
    (l : list string) :
  KB.items_at (KB.write_at k i key l) j key' =
  if decide (i = j /\ key = key') then l else KB.items_at k j key'.
Proof.
  unfold KB.items_at, KB.part, KB.write_at. simpl.
  destruct (decide (i = j)) as [->|Hij].
  - rewrite lookup_insert_eq. simpl.
    destruct (decide (key = key')) as [->|Hk].
    + rewrite lookup_insert_eq. rewrite decide_True by auto. reflexivity.
    + rewrite lookup_insert_ne by assumption.
      rewrite decide_False by tauto. reflexivity.
  - rewrite lookup_insert_ne by assumption.
    rewrite decide_False by tauto. reflexivity.
Qed.



(** *** Exclusions of a resumed scan *)








(** *** The polling loop *)

Section PollLoop.
Context {score : Type}.
Variable cvss_base_v2_value : string -> score.
Variable QOD_TYPES : Dict.t string string.
Variables results_key status_key host_ip_key : string.
Variable float_of_string : string -> option float.

Local Abbreviation translate_result' := (translate_result cvss_base_v2_value QOD_TYPES).
Local Abbreviation poll_tick' :=
  (poll_tick cvss_base_v2_value QOD_TYPES results_key status_key host_ip_key
    float_of_string).
Local Abbreviation poll_loop' :=
  (poll_loop cvss_base_v2_value QOD_TYPES results_key status_key host_ip_key
    float_of_string).
Local Abbreviation harvest_host' :=
  (harvest_host cvss_base_v2_value QOD_TYPES results_key status_key
     host_ip_key float_of_string).
Local Abbreviation harvest_hosts' :=
  (harvest_hosts cvss_base_v2_value QOD_TYPES results_key status_key
     host_ip_key float_of_string).

Lemma translate_result_frame (d d' : daemon score) (host : option string)
    (res : string) :
  translate_result' d host res = inr d' -> same_but_events d d'.
Proof.
  unfold translate_result, same_but_events.
  destruct (split "|||" res) as [|m0 [|m1 [|m2 [|m3 [|m4 rest]]]]];
    try discriminate.
  match goal with
  | |- ebind ?q _ = _ -> _ => destruct q as [e|rqod]
  end; simpl; [discriminate|].
  intros [= <-].
  destruct (String.eqb m0 "ERRMSG"), (String.eqb m0 "LOG"),
    (String.eqb m0 "HOST_DETAIL"), (String.eqb m0 "ALARM"); simpl; auto.
Qed.

(** Harvesting the selected index touches its result queue only, and
    empties it of records that translate. *)
Lemma get_openvas_result_loop_frame (vts0 : vts_dict) (m : Z) (turns : nat) :
  forall (d : daemon score) (host : option string),
    KB.selected (openvas_db d) = m ->
    vts d = vts0 ->
    Forall (record_translates cvss_base_v2_value QOD_TYPES vts0)
      (KB.items_at (openvas_db d) m results_key) ->
    exists d',
      get_openvas_result_loop cvss_base_v2_value QOD_TYPES results_key turns
        host d = inr d'
      /\ main_kbindex d' = main_kbindex d
      /\ vts d' = vts d
      /\ KB.selected (openvas_db d') = m
      /\ (forall j key, ~ (j = m /\ key = results_key) ->
            KB.items_at (openvas_db d') j key
            = KB.items_at (openvas_db d) j key)
      /\ Forall (record_translates cvss_base_v2_value QOD_TYPES vts0)
           (KB.items_at (openvas_db d') m results_key).
Proof.
  induction turns as [|turns IH]; intros d host Hsel Hvts Hq; simpl.
  - exists d. repeat split; auto.
  - unfold KB.pop, KB.enumerate. rewrite Hsel.
    destruct (KB.items_at (openvas_db d) m results_key) as [|r q] eqn:Eq.
    + simpl. eexists. split; [reflexivity|]. simpl. rewrite Eq.
      repeat split; auto.
    + pose proof (Forall_inv Hq) as Hr.
      pose proof (Forall_inv_tail Hq) as Hrest.
      assert (Hframe : forall j key, ~ (j = m /\ key = results_key) ->
                KB.items_at (KB.write_at (openvas_db d) m results_key q) j key
                = KB.items_at (openvas_db d) j key).
      { intros j key Hne. rewrite items_at_write_at.
        destruct (decide _) as [[<- <-]|_]; [exfalso; apply Hne; auto|].
        reflexivity. }
      assert (Hnew : KB.items_at (KB.write_at (openvas_db d) m results_key q)
                       m results_key = q).
      { rewrite items_at_write_at. rewrite decide_True by auto. reflexivity. }
      cbn [opt_truthy default id].
      destruct (str_truthy r).
      * destruct (Hr (with_db d (KB.write_at (openvas_db d) m results_key q))
                    host Hvts) as [d1 Hd1].
        rewrite Hd1. simpl.
        destruct (translate_result_frame _ _ _ _ Hd1) as (Hdb & Hmk & Hv).
        simpl in Hdb, Hmk, Hv.
        destruct (IH d1 host) as (d' & Hloop & Hmk' & Hv' & Hsel' & Hfr & Hq').
        { rewrite Hdb. exact Hsel. }
        { rewrite Hv. exact Hvts. }
        { rewrite Hdb, Hnew. exact Hrest. }
        exists d'. split; [exact Hloop|].
        split; [congruence|]. split; [congruence|]. split; [exact Hsel'|].
        split; [|exact Hq'].
        intros j key Hne. rewrite (Hfr j key Hne), Hdb. apply Hframe, Hne.
      * eexists. split; [reflexivity|]. simpl.
        split; [reflexivity|]. split; [reflexivity|]. split; [exact Hsel|].
        split; [exact Hframe|]. rewrite Hnew. exact Hrest.
Qed.

(** [no_id_found] survives the loop over the host indices only if it held
    before and no host index was harvested. *)
Lemma harvest_host_flag (target openvas_scan_id i : string)
    (b b' : bool) (hv hv' : list string) (d d' : daemon score) :
  harvest_host' target openvas_scan_id i (b, hv, d) = inr (b', hv', d') ->
  b' = true -> b = true /\ hv' = hv.
Proof.
  unfold harvest_host.
  destruct (kb_index_of i) as [e|kbi]; cbn [ebind]; [discriminate|].
  destruct (negb (opt_truthy _)); [intros [= <- <- <-]; auto|].
  destruct (bool_decide _); [|intros [= <- <- <-]; auto].
  destruct (get_openvas_result _ _ _ _ _) as [e|d1]; cbn [ebind];
    [discriminate|].
  destruct (get_openvas_status _ _ _ _ _) as [e|d2]; cbn [ebind];
    [discriminate|].
  destruct (host_is_finished _ _); [|intros [= <- <- <-]; discriminate].
  destruct (get_openvas_status _ _ _ _ _) as [e|d3]; cbn [ebind];
    [discriminate|].
  intros [= <- <- <-]; discriminate.
Qed.

Lemma harvest_hosts_flag (target openvas_scan_id : string)
    (dbs : list string) :
  forall (b b' : bool) (hv hv' : list string) (d d' : daemon score),
    harvest_hosts' target openvas_scan_id dbs (b, hv, d) = inr (b', hv', d') ->
    b' = true -> b = true /\ hv' = hv.
Proof.
  induction dbs as [|i dbs IH]; intros b b' hv hv' d d';
    cbn [harvest_hosts].
  - intros [= <- <- <-]. auto.
  - destruct (harvest_host' target openvas_scan_id i (b, hv, d))
      as [e|[[b1 hv1] d1]] eqn:Eh; cbn [ebind]; [discriminate|].
    intros Hrest Hb'.
    destruct (IH _ _ _ _ _ _ Hrest Hb') as [-> ->].
    apply (harvest_host_flag _ _ _ _ _ _ _ _ _ Eh). reflexivity.
Qed.

(** A host index that leaves [no_id_found] set was passed over: it carries
    no scan id or another one, and only the selection has moved. *)
Lemma harvest_host_quiet (target openvas_scan_id i : string)
    (b : bool) (hv hv' : list string) (d d' : daemon score) :
  harvest_host' target openvas_scan_id i (b, hv, d) = inr (true, hv', d') ->
  (exists kbi,
     kb_index_of i = inr kbi
     /\ (opt_truthy (KB.get_at (openvas_db d) kbi "internal/scan_id") = false
         \/ KB.get_at (openvas_db d) kbi "internal/scan_id"
            <> Some openvas_scan_id))
  /\ KB.dbs (openvas_db d') = KB.dbs (openvas_db d)
  /\ main_kbindex d' = main_kbindex d.
Proof.
  unfold harvest_host.
  destruct (kb_index_of i) as [e|kbi]; cbn [ebind]; [discriminate|].
  cbn [openvas_db with_db].
  change (KB.get (KB.select (openvas_db d) kbi) "internal/scan_id")
    with (KB.get_at (openvas_db d) kbi "internal/scan_id").
  destruct (opt_truthy (KB.get_at (openvas_db d) kbi "internal/scan_id"))
    eqn:Eid; cbn [negb].
  - destruct (bool_decide _) eqn:Edec.
    + destruct (get_openvas_result _ _ _ _ _) as [e|d1]; cbn [ebind];
        [discriminate|].
      destruct (get_openvas_status _ _ _ _ _) as [e|d2]; cbn [ebind];
        [discriminate|].
      destruct (host_is_finished _ _); [|discriminate].
      destruct (get_openvas_status _ _ _ _ _) as [e|d3]; cbn [ebind];
        discriminate.
    + apply bool_decide_eq_false in Edec. intros [= _ _ <-].
      split; [|split; reflexivity].
      exists kbi. split; [reflexivity|]. right. exact Edec.
  - intros [= _ _ <-]. split; [|split; reflexivity].
    exists kbi. split; [reflexivity|]. left. exact Eid.
Qed.

Lemma harvest_hosts_quiet (target openvas_scan_id : string)
    (dbs : list string) :
  forall (b : bool) (hv hv' : list string) (d d' : daemon score),
    harvest_hosts' target openvas_scan_id dbs (b, hv, d)
    = inr (true, hv', d') ->
    Forall
      (fun i =>
         exists kbi,
           kb_index_of i = inr kbi
           /\ (opt_truthy (KB.get_at (openvas_db d) kbi "internal/scan_id")
               = false
               \/ KB.get_at (openvas_db d) kbi "internal/scan_id"
                  <> Some openvas_scan_id)) dbs
    /\ KB.dbs (openvas_db d') = KB.dbs (openvas_db d)
    /\ main_kbindex d' = main_kbindex d.
Proof.
  induction dbs as [|i dbs IH]; intros b hv hv' d d'; cbn [harvest_hosts].
  - intros [= _ _ <-]. split; [constructor|split; reflexivity].
  - destruct (harvest_host' target openvas_scan_id i (b, hv, d))
      as [e|[[b1 hv1] d1]] eqn:Eh; cbn [ebind]; [discriminate|].
    intros Hrest.
    destruct (harvest_hosts_flag _ _ _ _ _ _ _ _ _ Hrest eq_refl) as [-> _].
    destruct (harvest_host_quiet _ _ _ _ _ _ _ _ Eh) as (Hi & Hdbs1 & Hmk1).
    destruct (IH _ _ _ _ _ Hrest) as (Hall & Hdbs & Hmk).
    split; [|split; congruence].
    constructor; [exact Hi|].
    unfold KB.get_at, KB.items_at, KB.part in Hall |- *.
    rewrite Hdbs1 in Hall. exact Hall.
Qed.

(** Reading the results keeps the selection and the main index, and
    leaves every list but the result queue as it was. *)
Lemma get_openvas_result_loop_selected (turns : nat) :
  forall (d d' : daemon score) (host : option string),
    get_openvas_result_loop cvss_base_v2_value QOD_TYPES results_key turns
      host d = inr d' ->
    KB.selected (openvas_db d') = KB.selected (openvas_db d)
    /\ main_kbindex d' = main_kbindex d.
Proof.
  induction turns as [|turns IH]; intros d d' host;
    cbn [get_openvas_result_loop].
  - intros [= <-]. split; reflexivity.
  - assert (Hpop : KB.selected (KB.pop (openvas_db d) results_key).2
                   = KB.selected (openvas_db d)).
    { unfold KB.pop. destruct (KB.enumerate _ _); reflexivity. }
    destruct (KB.pop (openvas_db d) results_key) as [res k].
    cbn [snd] in Hpop.
    destruct (opt_truthy res).
    + destruct (translate_result _ _ _ _ _) as [e|d1] eqn:Etr; cbn [ebind];
        [discriminate|].
      intros Hloop. apply IH in Hloop as [Hsel Hmk].
      destruct (translate_result_frame _ _ _ _ Etr) as (Hdb & Hmk1 & _).
      cbn [openvas_db main_kbindex with_db] in Hdb, Hmk1.
      rewrite Hdb in Hsel. split; congruence.
    + intros [= <-]. split; [exact Hpop|reflexivity].
Qed.

(** The loop is left through [break] only on a quiet turn that found
    [no_id_found] set: no entry of the registry is a host index of the
    scan and the completion marker reads finished or is absent. *)
Lemma poll_tick_break (scan_id target openvas_scan_id : string) (b : bool)
    (d d' : daemon score) (obs : tick_obs) :
  poll_tick' scan_id target openvas_scan_id b d = (obs, TickBreak d') ->
  b = true /\ quiet obs
  /\ no_host_of_scan openvas_scan_id (main_index d') (openvas_db d')
  /\ target_is_finished d' scan_id = true.
Proof.
  unfold poll_tick.
  destruct (scan_is_stopped d openvas_scan_id) as [stopped d0].
  destruct stopped; [discriminate|].
  destruct (get_openvas_result _ _ _ _ _) as [e|d1] eqn:Eres; [discriminate|].
  apply get_openvas_result_loop_selected in Eres as [Hsel1 Hmk1].
  cbn [openvas_db main_kbindex with_db KB.selected KB.select] in Hsel1, Hmk1.
  destruct (harvest_hosts' _ _ _ _) as [e|[[b1 hv1] d2]] eqn:Eh;
    [discriminate|].
  destruct (b1 && target_is_finished d2 scan_id) eqn:Ec; [|discriminate].
  intros [= <- <-]. apply andb_true_iff in Ec as [-> Hfin].
  destruct (harvest_hosts_flag _ _ _ _ _ _ _ _ _ Eh eq_refl) as [-> ->].
  destruct (harvest_hosts_quiet _ _ _ _ _ _ _ _ Eh) as (Hall & Hdbs & Hmk2).
  split; [reflexivity|]. split; [split; [reflexivity|exact Hfin]|].
  split; [|exact Hfin].
  unfold no_host_of_scan.
  assert (Hmain : main_index d2 = KB.selected (openvas_db d1)).
  { rewrite Hsel1. unfold main_index. rewrite Hmk2, Hmk1. reflexivity. }
  rewrite Hmain.
  unfold KB.enumerate in Hall.
  unfold KB.get_at, KB.items_at, KB.part in Hall |- *.
  rewrite Hdbs. exact Hall.
Qed.

Lemma poll_loop_completed (w : world) (scan_id target : string) (fuel : nat) :
  forall (b : bool) (trace trace' : list tick_obs) (d d' : daemon score),
    poll_loop' fuel w scan_id target b trace d
    = (trace', Returned Completed d') ->
    exists mid o d1,
      trace' = (trace ++ mid ++ [o])%list
      /\ (b = false -> mid <> [])
      /\ quiet o
      /\ d' = with_db d1 (KB.release (openvas_db d1) (main_index d1))
      /\ no_host_of_scan (new_uuid w) (main_index d1) (openvas_db d1)
      /\ target_is_finished d1 scan_id = true.
Proof.
  induction fuel as [|fuel IH]; intros b trace trace' d d';
    cbn [poll_loop]; [discriminate|].
  destruct (poll_tick' scan_id target (new_uuid w) b (sleep w d))
    as [obs r] eqn:Etick.
  destruct r as [d1|d1|d1|e]; try discriminate.
  - intros [= <- <-].
    destruct (poll_tick_break _ _ _ _ _ _ _ Etick) as (-> & Hq & Hno & Hfin).
    exists [], obs, d1. split; [reflexivity|]. split; [discriminate|].
    split; [exact Hq|]. split; [reflexivity|]. split; assumption.
  - intros Hloop.
    apply IH in Hloop as (mid & o & d2 & -> & _ & Hq & Hd' & Hno & Hfin).
    exists (obs :: mid), o, d2. rewrite <- app_assoc. simpl.
    split; [reflexivity|]. split; [discriminate|]. split; [exact Hq|].
    split; [exact Hd'|]. split; assumption.
Qed.

End PollLoop.

Section QuietScan.
Context {score : Type}.
Variable cvss_base_v2_value : string -> score.
Variable QOD_TYPES : Dict.t string string.
Variables results_key status_key host_ip_key : string.
Variable float_of_string : string -> option float.
Variable vts0 : vts_dict.
Variables scan_id target openvas_scan_id : string.
Variable m : Z.

(** The result queue is a key of its own. *)
Hypothesis results_not_registry : results_key <> "internal/dbindex".
Hypothesis results_not_mapping :
  results_key <> "internal/" ++ scan_id ++ "/globalscanid".
Hypothesis results_not_marker : results_key <> "internal/" ++ openvas_scan_id.

Local Abbreviation quiet_store' :=
  (quiet_store cvss_base_v2_value QOD_TYPES results_key vts0 scan_id
     openvas_scan_id m).

Lemma quiet_store_frame (k k' : KB.t) :
  (forall j key, ~ (j = m /\ key = results_key) ->
     KB.items_at k' j key = KB.items_at k j key) ->
  Forall (record_translates cvss_base_v2_value QOD_TYPES vts0)
    (KB.items_at k' m results_key) ->
  quiet_store' k -> quiet_store' k'.
Proof.
  intros Hfr Hq (Hreg & Hmap & Hmark & _). unfold quiet_store, KB.get_at in *.
  rewrite !Hfr by (intros [_ Heq]; congruence).
  repeat split; assumption.
Qed.

(** A turn on a quiet store harvests nothing, reads the marker as done
    and leaves the store quiet. *)
Lemma poll_tick_quiet (b : bool) (d : daemon score) :
  main_kbindex d = Some m ->
  vts d = vts0 ->
  quiet_store' (openvas_db d) ->
  exists d',
    poll_tick cvss_base_v2_value QOD_TYPES results_key status_key host_ip_key
      float_of_string
      scan_id target openvas_scan_id b d
    = ({| obs_harvested := []; obs_finished := true |},
       if b then TickBreak d' else TickContinue d')
    /\ main_kbindex d' = Some m
    /\ vts d' = vts0
    /\ quiet_store' (openvas_db d').
Proof.
  intros Hmain Hvts Hquiet.
  pose proof Hquiet as (Hreg & Hmap & Hmark & Hres).
  unfold poll_tick, scan_is_stopped.
  assert (Hm : main_index d = m) by (unfold main_index; rewrite Hmain; auto).
  rewrite Hm. cbn [openvas_db with_db].
  assert (Hstop : bool_decide
                    (KB.get (KB.select (openvas_db d) m)
                       ("internal/" ++ openvas_scan_id) = Some "stop_all")
                  = false).
  { apply bool_decide_eq_false.
    change (KB.get (KB.select (openvas_db d) m)
              ("internal/" ++ openvas_scan_id))
      with (KB.get_at (openvas_db d) m ("internal/" ++ openvas_scan_id)).
    destruct Hmark as [-> | ->]; discriminate. }
  rewrite Hstop.
  match goal with
  | |- context [get_openvas_result _ _ _ ?x _] => set (d0 := x)
  end.
  destruct (get_openvas_result_loop_frame cvss_base_v2_value QOD_TYPES
              results_key vts0 m
              (S (length (KB.enumerate (openvas_db d0) results_key)))
              d0 (Some ""))
    as (d1 & Hloop & Hmk1 & Hv1 & Hsel1 & Hfr & Hq1).
  { exact Hm. }
  { exact Hvts. }
  { exact Hres. }
  unfold get_openvas_result. rewrite Hloop.
  assert (Hm1 : main_index d1 = m).
  { unfold main_index. rewrite Hmk1. exact Hm. }
  assert (Hquiet1 : quiet_store' (openvas_db d1)).
  { apply (quiet_store_frame (openvas_db d)); [|exact Hq1|exact Hquiet].
    intros j key Hne. rewrite (Hfr j key Hne). reflexivity. }
  pose proof Hquiet1 as (Hreg1 & Hmap1 & Hmark1 & _).
  unfold KB.enumerate. rewrite Hsel1, Hreg1. cbn [harvest_hosts].
  unfold ok. cbv beta iota.
  assert (Hfin : target_is_finished d1 scan_id = true).
  { unfold target_is_finished. rewrite Hm1, Hmap1. cbn [fmt default id].
    destruct Hmark1 as [-> | ->]; reflexivity. }
  rewrite Hfin. exists d1.
  split; [destruct b; reflexivity|].
  split; [rewrite Hmk1; exact Hmain|].
  split; [rewrite Hv1; exact Hvts|exact Hquiet1].
Qed.

(** C9 (as the code has it). On a store that stays quiet (the registry of
    the main index empty, marker finished or absent, pending records
    translatable) the polling loop ends at its second turn, by completion,
    without harvesting any host index and with the main index released.
    And whenever the loop ends by completion, its last turn was not the
    first and harvested no host index; in the store as that turn left it,
    before the main index is released, no entry of the registry is a host
    index of the scan and the main completion marker reads finished or is
    absent. The turn before is not constrained. *)
Theorem polling_loop_termination (w : world) :
  (forall (d : daemon score) (fuel : nat),
     new_uuid w = openvas_scan_id ->
     main_kbindex d = Some m ->
     vts d = vts0 ->
     quiet_store' (openvas_db d) ->
     (forall n k, quiet_store' k -> quiet_store' (engine w n k)) ->
     (2 <= fuel)%nat ->
     exists d',
       poll_loop cvss_base_v2_value QOD_TYPES results_key status_key
         host_ip_key float_of_string fuel w scan_id target false [] d
       = ([ {| obs_harvested := []; obs_finished := true |};
            {| obs_harvested := []; obs_finished := true |} ],
          Returned Completed d')
       /\ KB.released (openvas_db d') m)
  /\ (forall (d d' : daemon score) (fuel : nat) (trace : list tick_obs),
        poll_loop cvss_base_v2_value QOD_TYPES results_key status_key
          host_ip_key float_of_string fuel w scan_id target false [] d
        = (trace, Returned Completed d') ->
        ends_after_quiet_turn trace
        /\ exists d1 : daemon score,
             d' = with_db d1 (KB.release (openvas_db d1) (main_index d1))
             /\ no_host_of_scan (new_uuid w) (main_index d1) (openvas_db d1)
             /\ marker_done scan_id (main_index d1) (openvas_db d1)).
Proof.
  split.
  - intros d fuel Huuid Hmain Hvts Hquiet Hengine Hfuel.
    destruct fuel as [|[|fuel]]; try lia. clear Hfuel.
    assert (Hsleep : forall d0 : daemon score,
               main_kbindex d0 = Some m -> vts d0 = vts0 ->
               quiet_store' (openvas_db d0) ->
               main_kbindex (sleep w d0) = Some m /\ vts (sleep w d0) = vts0
               /\ quiet_store' (openvas_db (sleep w d0))).
    { intros d0 H1 H2 H3. split; [exact H1|]. split; [exact H2|].
      exact (Hengine (clock d0) _ H3). }
    destruct (Hsleep d Hmain Hvts Hquiet) as (Ha & Hb & Hc).
    destruct (poll_tick_quiet false _ Ha Hb Hc) as (d1 & Ht1 & Ha1 & Hb1 & Hc1).
    destruct (Hsleep d1 Ha1 Hb1 Hc1) as (Ha' & Hb' & Hc').
    destruct (poll_tick_quiet true _ Ha' Hb' Hc') as (d2 & Ht2 & Ha2 & _ & _).
    cbn [poll_loop]. rewrite Huuid, Ht1. cbn [app]. rewrite Ht2.
    eexists. split; [reflexivity|].
    unfold KB.released, main_index. rewrite Ha2. simpl. split.
    + set_solver.
    + apply lookup_delete_eq.
  - intros d d' fuel trace Hloop.
    apply poll_loop_completed in Hloop
      as (mid & o & d1 & -> & Hmid & Hq & Hd' & Hno & Hfin).
    split.
    + exists mid, o. split; [reflexivity|]. split; [auto|exact Hq].
    + exists d1. split; [exact Hd'|]. split; [exact Hno|].
      unfold target_is_finished in Hfin. unfold marker_done.
      apply orb_true_iff in Hfin as [Hfin|Hfin];
        apply bool_decide_eq_true in Hfin; [left|right]; exact Hfin.
Qed.

End QuietScan.

Lemma polling_loop_termination_witness :
  exists d',
    poll_loop demo_cvss [] "internal/results" "internal/status" "internal/ip"
      demo_float
      2 (demo_world [] None (Some 4242) (fun _ => None) (fun _ k => k))
      "scan-1" "192.168.0.0/24" false [] demo_quiet_daemon
    = ([ {| obs_harvested := []; obs_finished := true |};
         {| obs_harvested := []; obs_finished := true |} ],
       Returned Completed d')
    /\ KB.released (openvas_db d') 1.
Proof.
  apply (proj1 (polling_loop_termination demo_cvss [] "internal/results"
                  "internal/status" "internal/ip" demo_float (vts demo_daemon)
                  "scan-1" "192.168.0.0/24" demo_uuid 1
                  ltac:(discriminate) ltac:(discriminate) ltac:(discriminate)
                  (demo_world [] None (Some 4242) (fun _ => None)
                     (fun _ k => k)))).
  - reflexivity.
  - reflexivity.
  - reflexivity.
  - unfold quiet_store.
    split; [vm_compute; constructor|].
    split; [vm_compute; reflexivity|].
    split; [left; vm_compute; reflexivity|].
    replace (KB.items_at (openvas_db demo_quiet_daemon) 1 "internal/results")
      with (@nil string) by (vm_compute; reflexivity).
    constructor.
  - intros n k Hk. exact Hk.
  - lia.
Defined.

(** C9 (as stated) fails: with an engine that marks the scan finished only
    during the third sleep, the loop ends at its second turn although the
    marker did not read finished at the first one. The two last turns were
    not both quiet. *)
Lemma loop_ends_after_one_quiet_turn :
  let run :=
    demo_exec_scan
      (demo_world [] None (Some 4242) (fun _ => None) engine_late_finish) 5 in
  fst run = [ {| obs_harvested := []; obs_finished := false |};
              {| obs_harvested := []; obs_finished := true |} ]
  /\ run_summary run = Some (Completed, [0])
  /\ ~ ends_after_two_quiet_turns (fst run).
Proof.
  intros run.
  assert (Htrace : fst run = [ {| obs_harvested := []; obs_finished := false |};
                               {| obs_harvested := []; obs_finished := true |} ])
    by (vm_compute; reflexivity).
  split; [exact Htrace|]. split; [vm_compute; reflexivity|].
  rewrite Htrace. intros (pre & o1 & o2 & Heq & [_ Hfin] & _).
  destruct pre as [|x [|y [|z pre]]]; try discriminate Heq.
  injection Heq as <- _. discriminate Hfin.
Qed.

(** *** What a scan keeps: the main index and the index space *)

Section Frame.
Context {score : Type}.
Variable cvss_base_v2_value : string -> score.
Variable QOD_TYPES : Dict.t string string.
Variables results_key status_key host_ip_key : string.
Variable float_of_string : string -> option float.

Lemma same_frame_refl (d : daemon score) : same_frame d d.
Proof. split; reflexivity. Qed.

Lemma same_frame_trans (d1 d2 d3 : daemon score) :
  same_frame d1 d2 -> same_frame d2 d3 -> same_frame d1 d3.
Proof. intros [H1 H2] [H3 H4]. split; congruence. Qed.

Lemma pop_max_dbindex (k k' : KB.t) (key : string) (res : option string) :
  KB.pop k key = (res, k') -> KB.max_dbindex k' = KB.max_dbindex k.
Proof.
  unfold KB.pop. destruct (KB.enumerate k key); intros [= _ <-]; reflexivity.
Qed.

Lemma get_openvas_result_loop_same_frame (turns : nat) :
  forall (d d' : daemon score) (host : option string),
    get_openvas_result_loop cvss_base_v2_value QOD_TYPES results_key turns
      host d = inr d' ->
    same_frame d d'.
Proof.
  induction turns as [|turns IH]; intros d d' host;
    cbn [get_openvas_result_loop].
  - intros [= <-]. apply same_frame_refl.
  - destruct (KB.pop (openvas_db d) results_key) as [res k] eqn:Epop.
    apply pop_max_dbindex in Epop.
    destruct (opt_truthy res).
    + destruct (translate_result _ _ _ _ _) as [e|d1] eqn:Etr; cbn [ebind];
        [discriminate|].
      intros Hloop. apply IH in Hloop.
      destruct (translate_result_frame _ _ _ _ _ _ Etr) as (Hdb & Hmk & _).
      eapply same_frame_trans; [|exact Hloop].
      split; [exact Hmk|]. rewrite Hdb. exact Epop.
    + intros [= <-]. split; [reflexivity|exact Epop].
Qed.

Lemma update_progress_cases (d d' : daemon score) (target : string)
    (host : option string) (msg : string) :
  update_progress float_of_string d target host msg = inr d' ->
  d' = d \/ exists host_prog, d' = emit d (HostProgress target host host_prog).
Proof.
  unfold update_progress.
  destruct (split "/" msg) as [|launched [|total [|x rest]]];
    try (intros [= <-]; left; reflexivity).
  destruct (float_of_string total) as [t|]; [|discriminate].
  destruct (PrimFloat.eqb t 0); [intros [= <-]; left; reflexivity|].
  destruct (PrimFloat.eqb t (-1));
    [intros [= <-]; right; eexists; reflexivity|].
  destruct (float_of_string launched) as [l|]; [|discriminate].
  intros [= <-]. right. eexists. reflexivity.
Qed.

Lemma update_progress_same_frame (d d' : daemon score) (target : string)
    (host : option string) (msg : string) :
  update_progress float_of_string d target host msg = inr d' ->
  same_frame d d'.
Proof.
  intros Hup. apply update_progress_cases in Hup as [->|[host_prog ->]];
    split; reflexivity.
Qed.

Lemma get_openvas_status_loop_same_frame (turns : nat) :
  forall (d d' : daemon score) (target : string) (host : option string),
    get_openvas_status_loop status_key float_of_string turns target host d
    = inr d' ->
    same_frame d d'.
Proof.
  induction turns as [|turns IH]; intros d d' target host;
    cbn [get_openvas_status_loop].
  - intros [= <-]. apply same_frame_refl.
  - destruct (KB.pop (openvas_db d) status_key) as [res k] eqn:Epop.
    apply pop_max_dbindex in Epop.
    destruct (opt_truthy res).
    + destruct (update_progress _ _ _ _ _) as [e|d1] eqn:Eup; cbn [ebind];
        [discriminate|].
      intros Hloop. apply IH in Hloop.
      apply update_progress_same_frame in Eup.
      eapply same_frame_trans; [|exact Hloop].
      eapply same_frame_trans; [|exact Eup].
      split; [reflexivity|exact Epop].
    + intros [= <-]. split; [reflexivity|exact Epop].
Qed.

Lemma get_openvas_timestamp_same_frame (d : daemon score)
    (host : option string) :
  same_frame d (get_openvas_timestamp_scan_host d host).
Proof.
  unfold get_openvas_timestamp_scan_host.
  destruct (opt_truthy _); [split; reflexivity|].
  destruct (opt_truthy _); split; reflexivity.
Qed.

Lemma host_status_same_frame (d d' : daemon score) (target : string)
    (host : option string) :
  get_openvas_status status_key float_of_string d target host = inr d' ->
  same_frame d (get_openvas_timestamp_scan_host d' host).
Proof.
  intros Hst. apply get_openvas_status_loop_same_frame in Hst.
  eapply same_frame_trans; [exact Hst|].
  apply get_openvas_timestamp_same_frame.
Qed.

Lemma harvest_host_same_frame (target openvas_scan_id i : string)
    (st st' : bool * list string * daemon score) :
  harvest_host cvss_base_v2_value QOD_TYPES results_key status_key
    host_ip_key float_of_string target openvas_scan_id i st = inr st' ->
  same_frame (snd st) (snd st').
Proof.
  destruct st as [[b hv] d]. destruct st' as [[b' hv'] d']. cbn [snd].
  unfold harvest_host.
  destruct (kb_index_of i) as [e|kbi]; cbn [ebind]; [discriminate|].
  destruct (negb (opt_truthy _)); [intros [= _ _ <-]; split; reflexivity|].
  destruct (bool_decide _); [|intros [= _ _ <-]; split; reflexivity].
  destruct (get_openvas_result _ _ _ _ _) as [e|d1] eqn:Eres; cbn [ebind];
    [discriminate|].
  apply get_openvas_result_loop_same_frame in Eres.
  destruct (get_openvas_status _ _ d1 _ _) as [e|d2] eqn:Est; cbn [ebind];
    [discriminate|].
  apply host_status_same_frame in Est.
  assert (H1 : same_frame d (get_openvas_timestamp_scan_host d2
                              (KB.get (KB.select (openvas_db d) kbi)
                                 host_ip_key))).
  { eapply same_frame_trans; [|exact Est].
    eapply same_frame_trans; [|exact Eres]. split; reflexivity. }
  destruct (host_is_finished _ _); [|intros [= _ _ <-]; exact H1].
  destruct (get_openvas_status _ _ _ _ _) as [e|d3] eqn:Est2; cbn [ebind];
    [discriminate|].
  apply host_status_same_frame in Est2.
  intros [= _ _ <-].
  eapply same_frame_trans; [exact H1|].
  destruct Est2 as [Hy1 Hy2]. split; [exact Hy1|exact Hy2].
Qed.

Lemma harvest_hosts_same_frame (target openvas_scan_id : string)
    (dbs : list string) :
  forall (st st' : bool * list string * daemon score),
    harvest_hosts cvss_base_v2_value QOD_TYPES results_key status_key
      host_ip_key float_of_string target openvas_scan_id dbs st = inr st' ->
    same_frame (snd st) (snd st').
Proof.
  induction dbs as [|i dbs IH]; intros st st'; cbn [harvest_hosts].
  - intros [= <-]. apply same_frame_refl.
  - destruct (harvest_host _ _ _ _ _ _ _ _ _ _) as [e|st1] eqn:Eh;
      cbn [ebind]; [discriminate|].
    intros Hrest. apply harvest_host_same_frame in Eh. apply IH in Hrest.
    eapply same_frame_trans; eassumption.
Qed.

(** A turn keeps the frame; a turn that sees the stop request leaves the
    contents of the store and the indices in use as it found them. *)
Lemma poll_tick_same_frame (scan_id target openvas_scan_id : string) (b : bool)
    (d : daemon score) :
  match snd (poll_tick cvss_base_v2_value QOD_TYPES results_key status_key
               host_ip_key
                 float_of_string scan_id target openvas_scan_id b d) with
  | TickStop d' =>
      same_frame d d'
      /\ KB.dbs (openvas_db d') = KB.dbs (openvas_db d)
      /\ KB.in_use (openvas_db d') = KB.in_use (openvas_db d)
  | TickBreak d' | TickContinue d' => same_frame d d'
  | TickRaise _ => True
  end.
Proof.
  unfold poll_tick.
  destruct (scan_is_stopped d openvas_scan_id) as [stopped d0] eqn:Es.
  unfold scan_is_stopped in Es. injection Es as _ Hd0.
  assert (H0 : same_frame d d0) by (subst d0; split; reflexivity).
  destruct stopped.
  - cbn [snd]. split; [exact H0|]. subst d0. split; reflexivity.
  - destruct (get_openvas_result _ _ _ _ _) as [e|d1] eqn:Eres;
      [exact I|].
    apply get_openvas_result_loop_same_frame in Eres.
    destruct (harvest_hosts _ _ _ _ _ _ _ _ _ _) as [e|[[b1 hv1] d2]] eqn:Eh;
      [exact I|].
    apply harvest_hosts_same_frame in Eh. cbn [snd] in Eh.
    assert (Hf : same_frame d d2).
    { eapply same_frame_trans; [exact H0|].
      eapply same_frame_trans; [|exact Eh].
      eapply same_frame_trans; [|exact Eres]. split; reflexivity. }
    destruct (b1 && target_is_finished d2 scan_id); exact Hf.
Qed.

Lemma sleep_same_frame (w : world) (d : daemon score) :
  same_frame d (sleep w d).
Proof. split; reflexivity. Qed.

(** How the polling loop can end: by completion, the main index released,
    or on a stop request, the store left as the last sleep found it. *)
Lemma poll_loop_cases (w : world) (scan_id target : string) (fuel : nat) :
  forall (b : bool) (trace : list tick_obs) (d : daemon score),
    match snd (poll_loop cvss_base_v2_value QOD_TYPES results_key status_key
                 host_ip_key
                   float_of_string fuel w scan_id target b trace d) with
    | Returned Completed d' =>
        same_frame d d' /\ KB.released (openvas_db d') (main_index d')
    | Returned Stopped d' =>
        same_frame d d'
        /\ exists d0,
             same_frame d d0
             /\ KB.dbs (openvas_db d')
                = KB.dbs (engine w (clock d0) (openvas_db d0))
             /\ KB.in_use (openvas_db d')
                = KB.in_use (engine w (clock d0) (openvas_db d0))
    | Returned _ _ => False
    | Raised _ | Running _ => True
    end.
Proof.
  induction fuel as [|fuel IH]; intros b trace d; cbn [poll_loop];
    [exact I|].
  pose proof (poll_tick_same_frame scan_id target (new_uuid w) b (sleep w d))
    as Ht.
  destruct (poll_tick _ _ _ _ _ _ _ _ _ _ _) as [obs r].
  cbn [snd] in Ht. destruct r as [d1|d1|d1|e]; cbn [snd].
  - destruct Ht as (Hf & Hdbs & Huse). split.
    + eapply same_frame_trans; [apply sleep_same_frame|exact Hf].
    + exists d. split; [apply same_frame_refl|]. split; assumption.
  - split.
    + eapply same_frame_trans; [apply sleep_same_frame|].
      eapply same_frame_trans; [exact Ht|]. split; reflexivity.
    + unfold KB.released, main_index. cbn. split.
      * set_solver.
      * apply lookup_delete_eq.
  - specialize (IH true (trace ++ [obs])%list d1).
    destruct (snd (poll_loop _ _ _ _ _ _ _ _ _ _ _ _ _)) as [e d'| |];
      [|exact I|exact I].
    assert (Hd1 : same_frame d d1).
    { eapply same_frame_trans; [apply sleep_same_frame|exact Ht]. }
    destruct e; try exact IH.
    + destruct IH as (Hf & d0 & Hf0 & Hdbs & Huse). split.
      * eapply same_frame_trans; eassumption.
      * exists d0. split; [eapply same_frame_trans; eassumption|].
        split; assumption.
    + destruct IH as (Hf & Hrel). split; [|exact Hrel].
      eapply same_frame_trans; eassumption.
  - exact I.
Qed.

End Frame.

(** *** [stop_scan_cleanup] *)

Lemma released_release (k : KB.t) (i j : Z) :
  KB.released k i \/ i = j -> KB.released (KB.release k j) i.
Proof.
  unfold KB.released, KB.release. cbn. intros [[Huse Hdbs]| ->].
  - split; [set_solver|].
    destruct (decide (j = i)) as [->|Hne];
      [apply lookup_delete_eq|rewrite lookup_delete_ne; assumption].
  - split; [set_solver|apply lookup_delete_eq].
Qed.

Lemma released_write_at (k : KB.t) (i j : Z) (key : string)
    (l : list string) :
  i <> j -> KB.released k i -> KB.released (KB.write_at k j key l) i.
Proof.
  unfold KB.released, KB.write_at. cbn. intros Hne [Huse Hdbs].
  split; [exact Huse|]. rewrite lookup_insert_ne by congruence. exact Hdbs.
Qed.

Lemma released_get_at (k : KB.t) (i : Z) (key : string) :
  KB.released k i -> KB.get_at k i key = None.
Proof.
  unfold KB.released, KB.get_at, KB.items_at, KB.part.
  intros [_ ->]. reflexivity.
Qed.

Lemma get_at_release_ne (k : KB.t) (i j : Z) (key : string) :
  i <> j -> KB.get_at (KB.release k j) i key = KB.get_at k i key.
Proof.
  intros Hne. unfold KB.get_at, KB.items_at, KB.part, KB.release. cbn.
  rewrite lookup_delete_ne by congruence. reflexivity.
Qed.

Lemma get_at_write_at_ne (k : KB.t) (i j : Z) (key key' : string)
    (l : list string) :
  i <> j -> KB.get_at (KB.write_at k j key l) i key' = KB.get_at k i key'.
Proof.
  intros Hne. unfold KB.get_at. rewrite items_at_write_at.
  rewrite decide_False by (intros [Heq _]; congruence). reflexivity.
Qed.

(** The loop over the host indices releases indices and touches nothing
    else. *)
Lemma release_host_kbs_index (scan_id : string) (i : Z)
    (host_kbs : list Z) :
  forall k : KB.t,
    let k' := release_host_kbs scan_id host_kbs k in
    KB.max_dbindex k' = KB.max_dbindex k
    /\ (KB.released k i -> KB.released k' i)
    /\ (KB.released k' i \/ forall key, KB.get_at k' i key = KB.get_at k i key).
Proof.
  induction host_kbs as [|j host_kbs IH]; intros k; cbn [release_host_kbs].
  - cbn zeta. split; [reflexivity|]. split; [auto|]. right. reflexivity.
  - destruct (opt_truthy _).
    + destruct (IH (KB.release (KB.select k j) j)) as (Hmax & Hrel & Hkeep).
      cbn zeta in *. split; [exact Hmax|]. split.
      * intros Hk. apply Hrel. apply released_release. left. exact Hk.
      * destruct Hkeep as [Hr|Hsame]; [left; exact Hr|].
        destruct (decide (i = j)) as [->|Hne].
        -- left. apply Hrel. apply released_release. right. reflexivity.
        -- right. intros key. rewrite Hsame.
           rewrite get_at_release_ne by exact Hne. reflexivity.
    + destruct (IH (KB.select k j)) as (Hmax & Hrel & Hkeep).
      cbn zeta in *. split; [exact Hmax|]. split; [exact Hrel|exact Hkeep].
Qed.

Section Cleanup.
Context {score : Type}.
Variable w : world.
Variable global_scan_id : string.

Lemma wait_until_gone_db (turns : nat) (pid : Z) :
  forall d : daemon score,
    openvas_db (wait_until_gone turns w pid d) = openvas_db d
    /\ main_kbindex (wait_until_gone turns w pid d) = main_kbindex d.
Proof.
  induction turns as [|turns IH]; intros d; cbn [wait_until_gone];
    [split; reflexivity|].
  destruct (_ <? _)%nat; [|split; reflexivity].
  destruct (IH (tick_ps d)) as [H1 H2]. split; [exact H1|exact H2].
Qed.

Lemma find_process_db (d d' : daemon score) (ovas_pid : option string)
    (parent : bool) :
  find_process w d ovas_pid = inr (parent, d') ->
  openvas_db d' = openvas_db d /\ main_kbindex d' = main_kbindex d.
Proof.
  unfold find_process. destruct ovas_pid as [s|];
    [|intros [= _ <-]; split; reflexivity].
  destruct (int_of_string s); [|discriminate].
  intros [= _ <-]. split; reflexivity.
Qed.

(** One index of the loop of [stop_scan_cleanup], when the function goes
    on to the next one: the new store. *)
Lemma stop_scan_cleanup_loop_cons (current_kbi : Z) (rest : list Z)
    (d d' : daemon score) (r : option bool) :
  stop_scan_cleanup_loop w global_scan_id (current_kbi :: rest) d
  = inr (r, d') ->
  (r = Some false
   /\ holds_mapping (openvas_db d) current_kbi global_scan_id
   /\ main_kbindex d' = main_kbindex d
   /\ ~ KB.released (openvas_db d') current_kbi)
  \/ exists d1 : daemon score,
       stop_scan_cleanup_loop w global_scan_id rest d1 = inr (r, d')
       /\ main_kbindex d1 = main_kbindex d
       /\ ((~ holds_mapping (openvas_db d) current_kbi global_scan_id
            /\ openvas_db d1 = KB.select (openvas_db d) current_kbi)
           \/ (holds_mapping (openvas_db d) current_kbi global_scan_id
               /\ exists scan_id,
                    scan_id
                    = default ""
                        (KB.get_at (openvas_db d) current_kbi
                           ("internal/" ++ global_scan_id ++ "/globalscanid"))
                    /\ openvas_db d1 =
                       release_host_kbs scan_id
                         (seqZ 0 (KB.max_dbindex (openvas_db d)))
                         (KB.release
                            (KB.set (KB.select (openvas_db d) current_kbi)
                               ("internal/" ++ scan_id) ["stop_all"])
                            current_kbi))).
Proof.
  cbn [stop_scan_cleanup_loop]. unfold holds_mapping.
  change (KB.get (KB.select (openvas_db d) current_kbi)
            ("internal/" ++ global_scan_id ++ "/globalscanid"))
    with (KB.get_at (openvas_db d) current_kbi
            ("internal/" ++ global_scan_id ++ "/globalscanid")).
  destruct (opt_truthy (KB.get_at (openvas_db d) current_kbi _)) eqn:Emap.
  - destruct (find_process _ _ _) as [e|[parent d0]] eqn:Efind; cbn [ebind];
      [discriminate|].
    apply find_process_db in Efind as [Hdb0 Hmk0]. cbn in Hdb0, Hmk0.
    destruct parent.
    + destruct (popen w _) as [pid|].
      * intros Hloop. right. eexists. split; [exact Hloop|].
        destruct (wait_until_gone_db
                    (S (process_life w
                          (default 0
                             (int_of_string
                                (default ""
                                   (KB.get
                                      (KB.set
                                         (KB.select (openvas_db d) current_kbi)
                                         ("internal/" ++
                                            default ""
                                              (KB.get_at (openvas_db d)
                                                 current_kbi
                                                 ("internal/" ++ global_scan_id
                                                    ++ "/globalscanid")))
                                         ["stop_all"])
                                      "internal/ovas_pid"))))))
                    (default 0
                       (int_of_string
                          (default ""
                             (KB.get
                                (KB.set
                                   (KB.select (openvas_db d) current_kbi)
                                   ("internal/" ++
                                      default ""
                                        (KB.get_at (openvas_db d) current_kbi
                                           ("internal/" ++ global_scan_id
                                              ++ "/globalscanid")))
                                   ["stop_all"])
                                "internal/ovas_pid"))))
                    d0) as [Hdbw Hmkw].
        cbn [main_kbindex with_db openvas_db].
        split; [rewrite Hmkw; exact Hmk0|].
        right. split; [reflexivity|]. eexists. split; [reflexivity|].
        rewrite Hdbw, Hdb0. reflexivity.
      * intros [= <- <-]. left. split; [reflexivity|]. split; [reflexivity|].
        split; [exact Hmk0|]. rewrite Hdb0.
        unfold KB.released, KB.set, KB.write_at. cbn.
        rewrite lookup_insert_eq. intros [_ Hnone]. discriminate Hnone.
    + intros Hloop. right. eexists. split; [exact Hloop|].
      cbn [main_kbindex with_db openvas_db].
      split; [exact Hmk0|]. right. split; [reflexivity|]. eexists.
      split; [reflexivity|]. rewrite Hdb0. reflexivity.
  - intros Hloop. right. eexists. split; [exact Hloop|].
    split; [reflexivity|]. left. split; [congruence|reflexivity].
Qed.

End Cleanup.

Section CleanupPost.
Context {score : Type}.
Variable w : world.
Variable global_scan_id : string.

Lemma stop_scan_cleanup_loop_main (kbs : list Z) :
  forall (d d' : daemon score) (r : option bool),
    stop_scan_cleanup_loop w global_scan_id kbs d = inr (r, d') ->
    main_kbindex d' = main_kbindex d.
Proof.
  induction kbs as [|current_kbi rest IH]; intros d d' r Hloop.
  - cbn in Hloop. injection Hloop as _ <-. reflexivity.
  - apply stop_scan_cleanup_loop_cons in Hloop
      as [(_ & _ & Hmk & _)|(d1 & Hloop & Hmk & _)]; [exact Hmk|].
    rewrite (IH _ _ _ Hloop). exact Hmk.
Qed.

Lemma stop_scan_cleanup_loop_releases (i : Z) (kbs : list Z) :
  forall (d d' : daemon score),
    stop_scan_cleanup_loop w global_scan_id kbs d = inr (None, d') ->
    KB.released (openvas_db d) i
    \/ (In i kbs /\ holds_mapping (openvas_db d) i global_scan_id) ->
    KB.released (openvas_db d') i.
Proof.
  induction kbs as [|current_kbi rest IH]; intros d d' Hloop Hq.
  - cbn in Hloop. injection Hloop as <-.
    destruct Hq as [Hrel|[[] _]]. exact Hrel.
  - apply stop_scan_cleanup_loop_cons in Hloop
      as [(Hr & _)|(d1 & Hloop & _ & Hcase)]; [discriminate Hr|].
    apply (IH _ _ Hloop). clear IH Hloop.
    destruct Hcase as [[Hno ->]|[Hyes (scan_id & _ & ->)]].
    + destruct Hq as [Hrel|[[<-|Hin] Hmap]].
      * left. exact Hrel.
      * contradiction.
      * right. split; [exact Hin|exact Hmap].
    + destruct (release_host_kbs_index scan_id i
                  (seqZ 0 (KB.max_dbindex (openvas_db d)))
                  (KB.release
                     (KB.set (KB.select (openvas_db d) current_kbi)
                        ("internal/" ++ scan_id) ["stop_all"]) current_kbi))
        as (_ & Hrel' & Hkeep).
      cbn zeta in Hrel', Hkeep.
      destruct (decide (i = current_kbi)) as [->|Hne].
      * left. apply Hrel'. apply released_release. right. reflexivity.
      * destruct Hq as [Hrel|[[Heq|Hin] Hmap]].
        -- left. apply Hrel'. apply released_release. left.
           apply released_write_at; [exact Hne|exact Hrel].
        -- congruence.
        -- destruct Hkeep as [Hr|Hsame]; [left; exact Hr|].
           right. split; [exact Hin|].
           unfold holds_mapping. rewrite Hsame.
           rewrite get_at_release_ne by exact Hne.
           unfold KB.set.
           rewrite get_at_write_at_ne by exact Hne.
           exact Hmap.
Qed.

(** X1. When [stop_scan_cleanup] runs to its end (it returns [None], not
    [False]), every index of the store that held the mapping of the client
    scan id when it started has been released. *)
Theorem stop_scan_cleanup_releases (d d' : daemon score) (i : Z) :
  stop_scan_cleanup w d global_scan_id = inr (None, d') ->
  0 <= i < KB.max_dbindex (openvas_db d) ->
  holds_mapping (openvas_db d) i global_scan_id ->
  KB.released (openvas_db d') i.
Proof.
  intros Hstop Hrange Hmap.
  apply (stop_scan_cleanup_loop_releases i _ _ _ Hstop).
  right. split; [|exact Hmap].
  apply list_elem_of_In, elem_of_seqZ. lia.
Qed.

Lemma stop_scan_cleanup_loop_idle (kbs : list Z) :
  forall d : daemon score,
    (forall i, In i kbs -> ~ holds_mapping (openvas_db d) i global_scan_id) ->
    exists d',
      stop_scan_cleanup_loop w global_scan_id kbs d = inr (None, d')
      /\ KB.dbs (openvas_db d') = KB.dbs (openvas_db d)
      /\ KB.in_use (openvas_db d') = KB.in_use (openvas_db d)
      /\ events d' = events d.
Proof.
  induction kbs as [|current_kbi rest IH]; intros d Hno.
  - exists d. repeat split.
  - cbn [stop_scan_cleanup_loop].
    change (KB.get (KB.select (openvas_db d) current_kbi)
              ("internal/" ++ global_scan_id ++ "/globalscanid"))
      with (KB.get_at (openvas_db d) current_kbi
              ("internal/" ++ global_scan_id ++ "/globalscanid")).
    pose proof (Hno current_kbi (or_introl eq_refl)) as Hcur.
    unfold holds_mapping in Hcur. apply not_true_is_false in Hcur.
    rewrite Hcur.
    destruct (IH (with_db d (KB.select (openvas_db d) current_kbi)))
      as (d' & Hloop & Hdbs & Huse & Hev).
    { intros i Hin. apply (Hno i). right. exact Hin. }
    exists d'. split; [exact Hloop|]. repeat split; assumption.
Qed.

(** X2. When no index of the store holds the mapping of the client scan
    id, [stop_scan_cleanup] changes nothing but the selected index: no key
    is written, no index released, no event reported. *)
Theorem stop_scan_cleanup_without_scan (d : daemon score) :
  (forall i, 0 <= i < KB.max_dbindex (openvas_db d) ->
             ~ holds_mapping (openvas_db d) i global_scan_id) ->
  exists d',
    stop_scan_cleanup w d global_scan_id = inr (None, d')
    /\ KB.dbs (openvas_db d') = KB.dbs (openvas_db d)
    /\ KB.in_use (openvas_db d') = KB.in_use (openvas_db d)
    /\ events d' = events d.
Proof.
  intros Hno. apply stop_scan_cleanup_loop_idle.
  intros i Hin. apply Hno.
  apply list_elem_of_In, elem_of_seqZ in Hin. lia.
Qed.

End CleanupPost.

(** *** The exits of [exec_scan] *)

Lemma allocate_spec (k k' : KB.t) (i : Z) :
  KB.allocate k = Some (i, k') ->
  0 <= i < KB.max_dbindex k
  /\ (i ∉ KB.in_use k)
  /\ KB.selected k' = i
  /\ i ∈ KB.in_use k'
  /\ KB.max_dbindex k' = KB.max_dbindex k
  /\ KB.dbs k' = KB.dbs k.
Proof.
  unfold KB.allocate.
  destruct (find _ _) as [j|] eqn:Efind; [|discriminate].
  intros [= -> <-]. apply find_some in Efind as [Hin Hfree].
  apply list_elem_of_In, elem_of_seqZ in Hin.
  apply bool_decide_eq_true in Hfree. cbn.
  split; [lia|]. split; [exact Hfree|]. split; [reflexivity|].
  split; [apply elem_of_union; right; apply elem_of_singleton; reflexivity|].
  split; reflexivity.
Qed.

Section Prepared.
Context {score : Type}.
Variables i mx : Z.

Lemma prepared_add (key : string) (l : list string) (d : daemon score) :
  prepared i mx d -> prepared i mx (add_single_item d key l).
Proof. intros (H1 & H2 & H3 & H4). repeat split; assumption. Qed.

Lemma prepared_set_credentials (w : world) (d d' : daemon score)
    (target id : string) (b : bool) :
  set_credentials w d target id = inr (d', b) ->
  prepared i mx d -> prepared i mx d'.
Proof.
  unfold set_credentials. intros Hset Hp.
  destruct (scan_credentials w) as [|c cs]; [injection Hset as <- _; exact Hp|].
  destruct (build_credentials_as_prefs (c :: cs)) as [e|[|l ls]];
    cbn [ebind] in Hset; try discriminate; injection Hset as <- _.
  - exact Hp.
  - apply prepared_add. exact Hp.
Qed.

Lemma prepared_fold (key : string) (items : list (string * string)) :
  forall d : daemon score,
    prepared i mx d ->
    prepared i mx
      (fold_left (fun d '(k, v) => add_single_item d key [k ++ "|||" ++ v])
         items d).
Proof.
  induction items as [|[k v] items IH]; intros d Hp; cbn [fold_left].
  - exact Hp.
  - apply IH. apply prepared_add. exact Hp.
Qed.

Lemma prepared_set_plugins (b64decode_ok : string -> bool) (w : world)
    (d d' : daemon score) (target id : string) (b : bool) :
  set_plugins b64decode_ok w d target id = inr (d', b) ->
  prepared i mx d -> prepared i mx d'.
Proof.
  unfold set_plugins. intros Hset Hp.
  destruct (scan_vts w) as [nvts|]; [|injection Hset as <- _; exact Hp].
  cbn [vts with_temp_vts_dict] in Hset.
  destruct (process_vts b64decode_ok (vts d) nvts) as [e|[nvts_list params]];
    cbn [ebind] in Hset; [discriminate|].
  match type of Hset with
  | ebind ?m _ = _ => destruct m as [e|params']
  end; cbn [ebind] in Hset; [discriminate|].
  injection Hset as <- _.
  match goal with
  | |- prepared _ _ (with_temp_vts_dict ?x None) =>
      assert (Hx : prepared i mx x)
  end.
  { apply prepared_fold. apply prepared_add. exact Hp. }
  exact Hx.
Qed.

End Prepared.

Section ExecScan.
Context {score : Type}.
Variable cvss_base_v2_value : string -> score.
Variable QOD_TYPES : Dict.t string string.
Variables results_key status_key host_ip_key : string.
Variable float_of_string : string -> option float.
Variable b64decode_ok : string -> bool.
Variable w : world.
Variables scan_id target : string.

(** The ways out of the preparation: refused before any index is taken,
    refused with the index released, or ready to launch. *)
Lemma prepare_scan_cases (d : daemon score) :
  match prepare_scan b64decode_ok w d scan_id target with
  | inr d' =>
      exists i k, KB.allocate (openvas_db d) = Some (i, k)
                  /\ prepared i (KB.max_dbindex (openvas_db d)) d'
  | inl (Returned NotLaunched d') =>
      exists i k, KB.allocate (openvas_db d) = Some (i, k)
                  /\ main_kbindex d' = Some i
                  /\ KB.released (openvas_db d') i
  | inl (Returned PendingFeed d') =>
      is_true (pending_feed d) = true
      /\ openvas_db d' = openvas_db d /\ main_kbindex d' = main_kbindex d
      /\ exists msg,
           events d' = (events d ++ [ScanError (Some target) "" "" msg ""])%list
  | inl (Returned NoPorts d') =>
      opt_truthy (scan_ports w) = false
      /\ openvas_db d' = openvas_db d /\ main_kbindex d' = main_kbindex d
      /\ events d' =
         (events d
            ++ [ScanError (Some target) "" "" "No port list defined." ""])%list
  | inl (Returned _ _) => False
  | inl (Raised _) => True
  | inl (Running _) => False
  end.
Proof.
  unfold prepare_scan.
  destruct (is_true (pending_feed d)) eqn:Epf.
  { split; [reflexivity|]. split; [reflexivity|]. split; [reflexivity|].
    eexists. reflexivity. }
  destruct (opt_truthy (scan_ports w)) eqn:Eports; cbn [negb];
    [|repeat split].
  destruct (KB.allocate (openvas_db d)) as [[db_index k]|] eqn:Ealloc;
    [|exact I].
  pose proof (allocate_spec _ _ _ Ealloc)
    as (Hrange & Hfree & Hsel & Huse & Hmax & Hdbs).
  match goal with
  | |- match match set_credentials w ?dd _ _ with _ => _ end with _ => _ end =>
      assert (Hp : prepared db_index (KB.max_dbindex (openvas_db d)) dd);
      [|destruct (set_credentials w dd target (new_uuid w))
          as [e|[d1 b1]] eqn:Ecred; [exact I|]]
  end.
  { do 7 apply prepared_add. repeat split; assumption. }
  apply (prepared_set_credentials _ _ _ _ _ _ _ _ Ecred) in Hp.
  destruct (set_plugins b64decode_ok w d1 target (new_uuid w))
    as [e|[d2 b2]] eqn:Eplug; [exact I|].
  apply (prepared_set_plugins _ _ _ _ _ _ _ _ _ Eplug) in Hp.
  destruct (b1 || b2).
  - exists db_index, k. split; [reflexivity|].
    destruct Hp as (Hmk & _). split; [exact Hmk|].
    unfold main_index. rewrite Hmk. apply released_release. right. reflexivity.
  - exists db_index, k. split; [reflexivity|exact Hp].
Qed.

(** The ways out of the wait for the engine: on, or through the cleanup
    after a negative exit code. *)
Lemma wait_for_engine_cases (fuel : nat) :
  forall d : daemon score,
    match wait_for_engine fuel w scan_id d with
    | inr d' => same_frame d d'
    | inl (Returned SpawnFailed d') =>
        exists dc r,
          same_frame d dc /\ stop_scan_cleanup w dc scan_id = inr (r, d')
    | inl (Returned _ _) => False
    | inl (Raised _) | inl (Running _) => True
    end.
Proof.
  induction fuel as [|fuel IH]; intros d; cbn [wait_for_engine]; [exact I|].
  destruct (bool_decide _); [|apply same_frame_refl].
  assert (Hnext : match wait_for_engine fuel w scan_id (sleep w d) with
                  | inr d' => same_frame d d'
                  | inl (Returned SpawnFailed d') =>
                      exists dc r,
                        same_frame d dc
                        /\ stop_scan_cleanup w dc scan_id = inr (r, d')
                  | inl (Returned _ _) => False
                  | inl (Raised _) | inl (Running _) => True
                  end).
  { specialize (IH (sleep w d)).
    destruct (wait_for_engine fuel w scan_id (sleep w d)) as [[e d'| |]|d'].
    - destruct e; exact IH.
    - exact I.
    - exact I.
    - exact IH. }
  destruct (poll w (clock d)) as [res|]; [|exact Hnext].
  destruct (res <? 0); [|exact Hnext].
  destruct (stop_scan_cleanup w d scan_id) as [e|[r d']] eqn:Estop; [exact I|].
  exists d, r. split; [apply same_frame_refl|exact Estop].
Qed.

(** Every exit of [exec_scan] and what it leaves of the main index. *)
Lemma exec_scan_cases (fuel : nat) (d : daemon score) :
  match snd (exec_scan cvss_base_v2_value QOD_TYPES results_key status_key
               host_ip_key
                 float_of_string b64decode_ok w fuel d scan_id target) with
  | Returned e d' =>
      match e with
      | PendingFeed | NoPorts =>
          openvas_db d' = openvas_db d /\ main_kbindex d' = main_kbindex d
      | NotLaunched | Completed =>
          exists i k, KB.allocate (openvas_db d) = Some (i, k)
                      /\ main_kbindex d' = Some i
                      /\ KB.released (openvas_db d') i
      | SpawnOSError =>
          exists i k, KB.allocate (openvas_db d) = Some (i, k)
                      /\ prepared i (KB.max_dbindex (openvas_db d)) d'
      | SpawnFailed =>
          exists i k (dc : daemon score) r,
            KB.allocate (openvas_db d) = Some (i, k)
            /\ main_kbindex dc = Some i
            /\ KB.max_dbindex (openvas_db dc) = KB.max_dbindex (openvas_db d)
            /\ stop_scan_cleanup w dc scan_id = inr (r, d')
      | Stopped =>
          exists i k (d0 : daemon score),
            KB.allocate (openvas_db d) = Some (i, k)
            /\ main_kbindex d' = Some i
            /\ KB.dbs (openvas_db d')
               = KB.dbs (engine w (clock d0) (openvas_db d0))
            /\ KB.in_use (openvas_db d')
               = KB.in_use (engine w (clock d0) (openvas_db d0))
      end
  | Raised _ | Running _ => True
  end.
Proof.
  unfold exec_scan.
  pose proof (prepare_scan_cases d) as Hprep.
  destruct (prepare_scan b64decode_ok w d scan_id target) as [o|d1].
  { cbn [snd]. destruct o as [e d'| |]; [|exact I|exact I].
    destruct e; try contradiction.
    - destruct Hprep as (_ & H1 & H2 & _). split; assumption.
    - destruct Hprep as (_ & H1 & H2 & _). split; assumption.
    - exact Hprep. }
  destruct Hprep as (i & k & Halloc & Hp).
  destruct (popen w _) as [ovas_pid|]; cbn [snd];
    [|exists i, k; split; [exact Halloc|exact Hp]].
  apply (prepared_add _ _ "internal/ovas_pid" [str_of_Z ovas_pid]) in Hp.
  destruct Hp as (Hmk & _ & _ & Hmax).
  pose proof (wait_for_engine_cases fuel
                (add_single_item d1 "internal/ovas_pid" [str_of_Z ovas_pid]))
    as Hwait.
  destruct (wait_for_engine fuel w scan_id _) as [o|d2].
  { cbn [snd]. destruct o as [e d'| |]; [|exact I|exact I].
    destruct e; try contradiction.
    destruct Hwait as (dc & r & [Hf1 Hf2] & Hstop).
    exists i, k, dc, r. split; [exact Halloc|].
    split; [congruence|]. split; [congruence|exact Hstop]. }
  destruct Hwait as [Hw1 Hw2].
  pose proof (poll_loop_cases cvss_base_v2_value QOD_TYPES results_key
                status_key host_ip_key
                  float_of_string w scan_id target fuel false [] d2)
    as Hloop.
  destruct (snd (poll_loop _ _ _ _ _ _ _ _ _ _ _ _ _)) as [e d'| |];
    [|exact I|exact I].
  destruct e; try contradiction.
  - destruct Hloop as ([Hf1 _] & d0 & _ & Hdbs & Huse).
    exists i, k, d0. split; [exact Halloc|]. split; [congruence|].
    split; assumption.
  - destruct Hloop as ([Hf1 _] & Hrel).
    exists i, k. split; [exact Halloc|].
    assert (Hmk' : main_kbindex d' = Some i) by congruence.
    split; [exact Hmk'|]. unfold main_index in Hrel. rewrite Hmk' in Hrel.
    exact Hrel.
Qed.

End ExecScan.

Section ExecScanExits.
Context {score : Type}.
Variable cvss_base_v2_value : string -> score.
Variable QOD_TYPES : Dict.t string string.
Variables results_key status_key host_ip_key : string.
Variable float_of_string : string -> option float.
Variable b64decode_ok : string -> bool.
Variable w : world.
Variables scan_id target : string.

Lemma poll_tick_stop (openvas_scan_id : string) (b : bool)
    (d d' : daemon score) :
  snd (poll_tick cvss_base_v2_value QOD_TYPES results_key status_key
         host_ip_key
           float_of_string scan_id target openvas_scan_id b d) = TickStop d' ->
  KB.get_at (openvas_db d') (main_index d') ("internal/" ++ openvas_scan_id)
  = Some "stop_all".
Proof.
  unfold poll_tick, scan_is_stopped.
  destruct (bool_decide _) eqn:Estop.
  - cbn [snd]. intros [= <-]. apply bool_decide_eq_true in Estop. exact Estop.
  - destruct (get_openvas_result _ _ _ _ _) as [e|d1]; [discriminate|].
    destruct (harvest_hosts _ _ _ _ _ _ _ _ _ _) as [e|[[b1 hv1] d2]];
      [discriminate|].
    destruct (b1 && _); discriminate.
Qed.

Lemma poll_loop_stopped_marker (fuel : nat) :
  forall (b : bool) (trace : list tick_obs) (d d' : daemon score),
    snd (poll_loop cvss_base_v2_value QOD_TYPES results_key status_key
           host_ip_key float_of_string fuel w scan_id target b trace d)
    = Returned Stopped d' ->
    KB.get_at (openvas_db d') (main_index d') ("internal/" ++ new_uuid w)
    = Some "stop_all".
Proof.
  induction fuel as [|fuel IH]; intros b trace d d'; cbn [poll_loop];
    [discriminate|].
  pose proof (poll_tick_stop (new_uuid w) b (sleep w d)) as Ht.
  destruct (poll_tick _ _ _ _ _ _ _ _ _ _ _) as [obs r].
  cbn [snd] in Ht. destruct r as [d1|d1|d1|e]; cbn [snd].
  - intros [= <-]. apply Ht. reflexivity.
  - discriminate.
  - apply IH.
  - discriminate.
Qed.

Lemma exec_scan_stopped_marker (fuel : nat) (d d' : daemon score) :
  snd (exec_scan cvss_base_v2_value QOD_TYPES results_key status_key
         host_ip_key float_of_string b64decode_ok w fuel d scan_id target)
  = Returned Stopped d' ->
  KB.get_at (openvas_db d') (main_index d') ("internal/" ++ new_uuid w)
  = Some "stop_all".
Proof.
  unfold exec_scan.
  pose proof (prepare_scan_cases b64decode_ok w scan_id target d) as Hprep.
  destruct (prepare_scan b64decode_ok w d scan_id target) as [o|d1].
  { cbn [snd]. intros ->. contradiction. }
  destruct (popen w _) as [ovas_pid|]; cbn [snd]; [|discriminate].
  pose proof (wait_for_engine_cases w scan_id fuel
                (add_single_item d1 "internal/ovas_pid" [str_of_Z ovas_pid]))
    as Hwait.
  destruct (wait_for_engine fuel w scan_id _) as [o|d2].
  { cbn [snd]. intros ->. contradiction. }
  apply poll_loop_stopped_marker.
Qed.

Lemma get_at_not_released (k : KB.t) (i : Z) (key v : string) :
  KB.get_at k i key = Some v -> ~ KB.released k i.
Proof.
  unfold KB.get_at, KB.items_at, KB.part. intros Hget [_ Hnone].
  rewrite Hnone in Hget. cbn in Hget. rewrite lookup_empty in Hget.
  discriminate.
Qed.

(** X3. When [exec_scan] runs to its end, or gives up because a
    credential is malformed or no VT is selected, the index it allocated
    as main index is released: free again and without any key. *)
Theorem exec_scan_releases_main_index (fuel : nat) (d d' : daemon score)
    (e : exit) :
  snd (exec_scan cvss_base_v2_value QOD_TYPES results_key status_key
         host_ip_key float_of_string b64decode_ok w fuel d scan_id target)
  = Returned e d' ->
  e = Completed \/ e = NotLaunched ->
  exists i k,
    KB.allocate (openvas_db d) = Some (i, k)
    /\ main_kbindex d' = Some i
    /\ KB.released (openvas_db d') i.
Proof.
  intros Hrun He.
  pose proof (exec_scan_cases cvss_base_v2_value QOD_TYPES results_key
                status_key host_ip_key
                  float_of_string b64decode_ok w scan_id target fuel d)
    as Hcases.
  rewrite Hrun in Hcases. destruct He as [-> | ->]; exact Hcases.
Qed.

(** X4. When the engine process cannot be created ([OSError], the return
    value is [False]), [exec_scan] returns with the index it allocated
    still in use: it is not released. *)
Theorem exec_scan_oserror_keeps_index (fuel : nat) (d d' : daemon score) :
  snd (exec_scan cvss_base_v2_value QOD_TYPES results_key status_key
         host_ip_key float_of_string b64decode_ok w fuel d scan_id target)
  = Returned SpawnOSError d' ->
  exists i k,
    KB.allocate (openvas_db d) = Some (i, k)
    /\ main_kbindex d' = Some i
    /\ i ∈ KB.in_use (openvas_db d')
    /\ ~ KB.released (openvas_db d') i.
Proof.
  intros Hrun.
  pose proof (exec_scan_cases cvss_base_v2_value QOD_TYPES results_key
                status_key host_ip_key
                  float_of_string b64decode_ok w scan_id target fuel d)
    as Hcases.
  rewrite Hrun in Hcases. destruct Hcases as (i & k & Halloc & Hp).
  destruct Hp as (Hmk & _ & Huse & _).
  exists i, k. split; [exact Halloc|]. split; [exact Hmk|].
  split; [exact Huse|]. intros [Hfree _]. exact (Hfree Huse).
Qed.

(** X5. When the client stops the scan (the return value is 1),
    [exec_scan] returns without releasing the index it allocated: the stop
    request is still to be read there. *)
Theorem exec_scan_stopped_keeps_index (fuel : nat) (d d' : daemon score) :
  snd (exec_scan cvss_base_v2_value QOD_TYPES results_key status_key
         host_ip_key float_of_string b64decode_ok w fuel d scan_id target)
  = Returned Stopped d' ->
  exists i k,
    KB.allocate (openvas_db d) = Some (i, k)
    /\ main_kbindex d' = Some i
    /\ KB.get_at (openvas_db d') i ("internal/" ++ new_uuid w)
       = Some "stop_all"
    /\ ~ KB.released (openvas_db d') i.
Proof.
  intros Hrun.
  pose proof (exec_scan_cases cvss_base_v2_value QOD_TYPES results_key
                status_key host_ip_key
                  float_of_string b64decode_ok w scan_id target fuel d)
    as Hcases.
  pose proof (exec_scan_stopped_marker _ _ _ Hrun) as Hmark.
  rewrite Hrun in Hcases. destruct Hcases as (i & k & _ & Halloc & Hmk & _).
  unfold main_index in Hmark. rewrite Hmk in Hmark. cbn [default] in Hmark.
  exists i, k. split; [exact Halloc|]. split; [exact Hmk|].
  split; [exact Hmark|]. exact (get_at_not_released _ _ _ _ Hmark).
Qed.

(** X6. With a feed update pending, or without a port list, [exec_scan]
    returns 2 before anything is allocated or written: the state is the
    one it was given but for one error reported for the target. *)
Theorem exec_scan_refused (fuel : nat) (d : daemon score) :
  is_true (pending_feed d) = true \/ opt_truthy (scan_ports w) = false ->
  exists e msg,
    exec_scan cvss_base_v2_value QOD_TYPES results_key status_key
      host_ip_key float_of_string b64decode_ok w fuel d scan_id target
    = ([], Returned e (emit d (ScanError (Some target) "" "" msg "")))
    /\ return_value e = RInt 2.
Proof.
  intros Hwhy. unfold exec_scan, prepare_scan.
  destruct (is_true (pending_feed d)) eqn:Epf.
  - exists PendingFeed. eexists. split; reflexivity.
  - destruct Hwhy as [Hpf|Hports]; [discriminate|].
    rewrite Hports. cbn [negb].
    exists NoPorts. eexists. split; reflexivity.
Qed.

(** X7. The wait of [exec_scan] for the engine has no time limit: as long
    as the marker of the scan reads [new] and the engine process has not
    ended with a negative code, the loop keeps waiting, however long it
    is observed. *)
Theorem wait_for_engine_no_timeout (d : daemon score) :
  KB.get (openvas_db d) ("internal/" ++ new_uuid w) = Some "new" ->
  (forall n k j,
     KB.get_at k j ("internal/" ++ new_uuid w) = Some "new" ->
     KB.get_at (engine w n k) j ("internal/" ++ new_uuid w) = Some "new") ->
  (forall n res, poll w n = Some res -> 0 <= res) ->
  forall fuel, exists d', wait_for_engine fuel w scan_id d = inl (Running d').
Proof.
  intros Hnew Hengine Hpoll fuel. revert d Hnew.
  induction fuel as [|fuel IH]; intros d Hnew; cbn [wait_for_engine].
  - exists d. reflexivity.
  - rewrite bool_decide_eq_true_2 by exact Hnew.
    assert (Hnext : exists d',
               wait_for_engine fuel w scan_id (sleep w d) = inl (Running d')).
    { apply IH. apply (Hengine (clock d) (openvas_db d)). exact Hnew. }
    destruct (poll w (clock d)) as [res|] eqn:Epoll; [|exact Hnext].
    apply Hpoll in Epoll. destruct (Z.ltb_spec res 0); [lia|exact Hnext].
Qed.

End ExecScanExits.

Lemma stop_scan_cleanup_releases_witness :
  exists d',
    stop_scan_cleanup demo_idle_world demo_running_daemon "scan-1"
    = inr (None, d')
    /\ KB.released (openvas_db d') 1.
Proof.
  destruct (stop_scan_cleanup demo_idle_world demo_running_daemon "scan-1")
    as [err|[r d']] eqn:Hrun.
  - apply (f_equal (fun x : exc (option bool * daemon Z) =>
                      match x with inl _ => true | inr _ => false end))
      in Hrun.
    vm_compute in Hrun. discriminate Hrun.
  - assert (Hr : r = None).
    { apply (f_equal (fun x : exc (option bool * daemon Z) =>
                        match x with inr (r, _) => r | inl _ => None end))
        in Hrun.
      vm_compute in Hrun. symmetry. exact Hrun. }
    subst r. exists d'. split; [reflexivity|].
    apply (stop_scan_cleanup_releases demo_idle_world "scan-1"
             demo_running_daemon d' 1 Hrun).
    + vm_compute. split; [discriminate|reflexivity].
    + vm_compute. reflexivity.
Defined.

Lemma stop_scan_cleanup_without_scan_witness :
  exists d',
    stop_scan_cleanup demo_idle_world demo_daemon "scan-1" = inr (None, d')
    /\ KB.dbs (openvas_db d') = KB.dbs (openvas_db demo_daemon)
    /\ KB.in_use (openvas_db d') = KB.in_use (openvas_db demo_daemon)
    /\ events d' = events demo_daemon.
Proof.
  apply (stop_scan_cleanup_without_scan demo_idle_world "scan-1" demo_daemon).
  intros i _. unfold holds_mapping, KB.get_at, KB.items_at, KB.part.
  cbn. rewrite lookup_empty. cbn. discriminate.
Defined.

Lemma exec_scan_releases_main_index_witness :
  exists d',
    snd (demo_exec_scan
           (demo_world [] None (Some 4242) (fun _ => None) engine_late_finish)
           5)
    = Returned Completed d'
    /\ KB.released (openvas_db d') 1.
Proof.
  destruct (snd (demo_exec_scan _ 5)) as [e d'|err|d'] eqn:Hrun;
    try (apply (f_equal exit_of) in Hrun; vm_compute in Hrun;
         discriminate Hrun).
  assert (He : e = Completed).
  { apply (f_equal exit_of) in Hrun. vm_compute in Hrun.
    injection Hrun as <-. reflexivity. }
  subst e. exists d'. split; [reflexivity|].
  destruct (exec_scan_releases_main_index _ _ _ _ _ _ _ _ _ _ _ _ _ _ Hrun
              (or_introl eq_refl)) as (i & k & Halloc & _ & Hrel).
  vm_compute in Halloc. injection Halloc as <- _. exact Hrel.
Defined.

Lemma exec_scan_oserror_keeps_index_witness :
  exists d',
    snd (demo_exec_scan
           (demo_world [] None None (fun _ => None) (fun _ k => k)) 5)
    = Returned SpawnOSError d'
    /\ 1 ∈ KB.in_use (openvas_db d').
Proof.
  destruct (snd (demo_exec_scan _ 5)) as [e d'|err|d'] eqn:Hrun;
    try (apply (f_equal exit_of) in Hrun; vm_compute in Hrun;
         discriminate Hrun).
  assert (He : e = SpawnOSError).
  { apply (f_equal exit_of) in Hrun. vm_compute in Hrun.
    injection Hrun as <-. reflexivity. }
  subst e. exists d'. split; [reflexivity|].
  destruct (exec_scan_oserror_keeps_index _ _ _ _ _ _ _ _ _ _ _ _ _ Hrun)
    as (i & k & Halloc & _ & Huse & _).
  vm_compute in Halloc. injection Halloc as <- _. exact Huse.
Defined.

Lemma exec_scan_stopped_keeps_index_witness :
  exists d',
    snd (demo_exec_scan
           (demo_world [] None (Some 4242) (fun _ => None) engine_then_stop)
           5)
    = Returned Stopped d'
    /\ ~ KB.released (openvas_db d') 1.
Proof.
  destruct (snd (demo_exec_scan _ 5)) as [e d'|err|d'] eqn:Hrun;
    try (apply (f_equal exit_of) in Hrun; vm_compute in Hrun;
         discriminate Hrun).
  assert (He : e = Stopped).
  { apply (f_equal exit_of) in Hrun. vm_compute in Hrun.
    injection Hrun as <-. reflexivity. }
  subst e. exists d'. split; [reflexivity|].
  destruct (exec_scan_stopped_keeps_index _ _ _ _ _ _ _ _ _ _ _ _ _ Hrun)
    as (i & k & Halloc & _ & _ & Hkept).
  vm_compute in Halloc. injection Halloc as <- _. exact Hkept.
Defined.

Lemma exec_scan_refused_witness :
  exists e msg,
    exec_scan demo_cvss [] "internal/results" "internal/status" "internal/ip"
      demo_float
      (fun _ => true) demo_idle_world 5
      (with_pending_feed demo_daemon (Some true)) "scan-1" "192.168.0.0/24"
    = ([], Returned e
             (emit (with_pending_feed demo_daemon (Some true))
                (ScanError (Some "192.168.0.0/24") "" "" msg "")))
    /\ return_value e = RInt 2.
Proof.
  apply (exec_scan_refused demo_cvss [] "internal/results" "internal/status"
           "internal/ip" demo_float (fun _ => true) demo_idle_world "scan-1"
           "192.168.0.0/24" 5 (with_pending_feed demo_daemon (Some true))).
  left. reflexivity.
Defined.

Lemma wait_for_engine_no_timeout_witness :
  exists d',
    wait_for_engine 7
      (demo_world [] None (Some 4242) (fun _ => Some 1) (fun _ k => k))
      "scan-1" demo_waiting_daemon
    = inl (Running d').
Proof.
  apply (wait_for_engine_no_timeout
           (demo_world [] None (Some 4242) (fun _ => Some 1) (fun _ k => k))
           "scan-1" demo_waiting_daemon).
  - vm_compute. reflexivity.
  - intros n k j Hnew. exact Hnew.
  - intros n res [= <-]. lia.
Defined.

(** *** The result translator *)

Section Translator.
Context {score : Type}.
Variable cvss_base_v2_value : string -> score.
Variable QOD_TYPES : Dict.t string string.
Variable results_key : string.

(** X8. A queued record with fewer than five fields makes
    [get_openvas_result] raise [IndexError]: when the first record of the
    queue of the selected index is such a record, the call raises before
    anything is reported for it. *)
Theorem get_openvas_result_short_record (d : daemon score)
    (host : option string) (res : string) (rest : list string) :
  KB.enumerate (openvas_db d) results_key = res :: rest ->
  res <> "" ->
  (length (split "|||" res) < 5)%nat ->
  (forall d0 : daemon score,
     translate_result cvss_base_v2_value QOD_TYPES d0 host res
     = inl IndexError)
  /\ get_openvas_result cvss_base_v2_value QOD_TYPES results_key d host
     = inl IndexError.
Proof.
  intros Hqueue Hres Hshort.
  assert (Htr : forall d0 : daemon score,
             translate_result cvss_base_v2_value QOD_TYPES d0 host res
             = inl IndexError).
  { intros d0. unfold translate_result.
    destruct (split "|||" res) as [|m0 [|m1 [|m2 [|m3 [|m4 fields]]]]];
      try reflexivity.
    cbn [length] in Hshort. lia. }
  split; [exact Htr|].
  unfold get_openvas_result. rewrite Hqueue.
  cbn [length get_openvas_result_loop]. unfold KB.pop. rewrite Hqueue.
  cbn [opt_truthy default id]. unfold str_truthy.
  rewrite (proj2 (String.eqb_neq _ _) Hres). cbn [negb].
  rewrite Htr. reflexivity.
Qed.

Lemma translate_result_events (d d' : daemon score) (host : option string)
    (res : string) :
  translate_result cvss_base_v2_value QOD_TYPES d host res = inr d' ->
  openvas_db d' = openvas_db d
  /\ exists es,
       events d' = (events d ++ es)%list
       /\ length es = (if is_reported res then 1 else 0)%nat.
Proof.
  unfold translate_result, is_reported.
  destruct (split "|||" res) as [|m0 [|m1 [|m2 [|m3 [|m4 rest]]]]];
    try discriminate.
  match goal with
  | |- ebind ?q _ = _ -> _ => destruct q as [e|rqod]
  end; cbn [ebind]; [discriminate|].
  intros [= <-]. unfold reported_kinds. cbn [existsb].
  destruct (String.eqb m0 "ERRMSG") eqn:E1;
    [apply String.eqb_eq in E1; subst m0; cbn|].
  { split; [reflexivity|]. eexists. split; reflexivity. }
  destruct (String.eqb m0 "LOG") eqn:E2;
    [apply String.eqb_eq in E2; subst m0; cbn|].
  { split; [reflexivity|]. eexists. split; reflexivity. }
  destruct (String.eqb m0 "HOST_DETAIL") eqn:E3;
    [apply String.eqb_eq in E3; subst m0; cbn|].
  { split; [reflexivity|]. eexists. split; reflexivity. }
  destruct (String.eqb m0 "ALARM") eqn:E4; cbn.
  - split; [reflexivity|]. eexists. split; reflexivity.
  - split; [reflexivity|]. exists []. split; [|reflexivity].
    symmetry. apply app_nil_r.
Qed.

Lemma get_openvas_result_loop_events (host : option string) (turns : nat) :
  forall (d d' : daemon score),
    (length (KB.enumerate (openvas_db d) results_key) < turns)%nat ->
    Forall (fun r => str_truthy r = true)
      (KB.enumerate (openvas_db d) results_key) ->
    get_openvas_result_loop cvss_base_v2_value QOD_TYPES results_key turns
      host d = inr d' ->
    KB.enumerate (openvas_db d') results_key = []
    /\ exists es,
         events d' = (events d ++ es)%list
         /\ length es
            = length (List.filter is_reported
                        (KB.enumerate (openvas_db d) results_key)).
Proof.
  induction turns as [|turns IH]; intros d d' Hlen Hall; [lia|].
  cbn [get_openvas_result_loop]. unfold KB.pop.
  destruct (KB.enumerate (openvas_db d) results_key) as [|r q] eqn:Equeue.
  - cbn [opt_truthy]. intros [= <-]. cbn [openvas_db with_db].
    split; [exact Equeue|]. exists []. split; [|reflexivity].
    symmetry. apply app_nil_r.
  - pose proof (Forall_inv Hall) as Hr.
    pose proof (Forall_inv_tail Hall) as Hq.
    cbn [opt_truthy default id]. rewrite Hr.
    set (d0 := with_db d (KB.write_at (openvas_db d)
                            (KB.selected (openvas_db d)) results_key q)).
    assert (Hq0 : KB.enumerate (openvas_db d0) results_key = q).
    { unfold KB.enumerate, d0. cbn [openvas_db with_db KB.selected KB.write_at].
      rewrite items_at_write_at. rewrite decide_True by auto. reflexivity. }
    destruct (translate_result _ _ d0 host r) as [e|d1] eqn:Etr;
      cbn [ebind]; [discriminate|].
    apply translate_result_events in Etr as (Hdb & es1 & Hev1 & Hlen1).
    intros Hloop. apply IH in Hloop.
    + destruct Hloop as (Hempty & es & Hev & Hlen').
      split; [exact Hempty|].
      exists (es1 ++ es)%list. split.
      * rewrite Hev, Hev1. unfold d0. cbn [events with_db].
        symmetry. apply app_assoc.
      * rewrite length_app, Hlen1, Hlen', Hdb, Hq0.
        cbn [List.filter]. destruct (is_reported r); reflexivity.
    + rewrite Hdb, Hq0. cbn [length] in Hlen. lia.
    + rewrite Hdb, Hq0. exact Hq.
Qed.

(** X9. [get_openvas_result] empties the result queue of the selected
    index and reports one event for each record of the four kinds it
    knows, in addition to the events reported before; records of another
    kind are dropped without any report. *)
Theorem get_openvas_result_events (d d' : daemon score)
    (host : option string) :
  Forall (fun r => str_truthy r = true)
    (KB.enumerate (openvas_db d) results_key) ->
  get_openvas_result cvss_base_v2_value QOD_TYPES results_key d host
  = inr d' ->
  KB.enumerate (openvas_db d') results_key = []
  /\ exists es,
       events d' = (events d ++ es)%list
       /\ length es
          = length (List.filter is_reported
                      (KB.enumerate (openvas_db d) results_key)).
Proof.
  intros Hall Hres.
  unfold get_openvas_result in Hres.
  apply (get_openvas_result_loop_events host _ d d' (Nat.lt_succ_diag_r _)
           Hall Hres).
Qed.

End Translator.

(** *** The selection of VTs *)

Lemma dict_mem_of_item {K V : Type} `{EqDecision K} (d : Dict.t K V) (k : K) :
  In k (Dict.keys d) -> Dict.mem d k = true.
Proof.
  unfold Dict.keys. intros Hin. apply in_map_iff in Hin as (it & <- & Hin).
  unfold Dict.mem. destruct (dict_get_of_item d it Hin) as [v ->].
  reflexivity.
Qed.

Lemma families_of_get (temp_vts_dict : vts_dict) :
  forall (families : Dict.t (option string) (list string))
         (family : option string),
    Dict.get (families_of temp_vts_dict families) family
    = match Dict.get families family,
            family_members temp_vts_dict family with
      | None, [] => None
      | o, ms => Some (default [] o ++ ms)%list
      end.
Proof.
  induction temp_vts_dict as [|[oid v] rest IH]; intros families family.
  - cbn [families_of family_members List.filter map].
    destruct (Dict.get families family) as [l|]; [|reflexivity].
    cbn [default]. rewrite app_nil_r. reflexivity.
  - cbn [families_of]. rewrite IH. clear IH.
    unfold family_members. cbn [List.filter snd].
    set (fam := Dict.get (vt_custom v) "family").
    set (families1 :=
           if Dict.mem families fam then families
           else Dict.set families fam []).
    assert (Hcur : Dict.get families1 fam
                   = Some (default [] (Dict.get families fam))).
    { unfold families1, Dict.mem.
      destruct (Dict.get families fam) as [l|] eqn:Eget.
      - exact Eget.
      - apply dict_get_set. }
    rewrite Hcur.
    destruct (decide (fam = family)) as [<-|Hne].
    + rewrite (proj1 (dict_get_set _ _ _)).
      rewrite bool_decide_eq_true_2 by reflexivity.
      cbn [map fst default].
      destruct (Dict.get families fam) as [l|]; unfold id; cbn [default app];
        [rewrite <- app_assoc|]; reflexivity.
    + rewrite dict_get_set_ne by exact Hne.
      rewrite bool_decide_eq_false_2 by exact Hne.
      assert (Hsame : Dict.get families1 family = Dict.get families family).
      { unfold families1. destruct (Dict.mem families fam); [reflexivity|].
        apply dict_get_set_ne. exact Hne. }
      rewrite Hsame. reflexivity.
Qed.

Lemma filter_groups_spec (temp_vts_dict : vts_dict) (filters : list string) :
  forall vts_list : list string,
    filter_groups (families_of temp_vts_dict []) filters vts_list
    = if forallb (fun elem => (length (split "=" elem) =? 2)%nat) filters
      then ok (vts_list ++ flat_map (group_of temp_vts_dict) filters)%list
      else throw ValueError.
Proof.
  induction filters as [|elem rest IH]; intros vts_list;
    cbn [filter_groups forallb flat_map].
  - rewrite app_nil_r. reflexivity.
  - unfold group_of at 1.
    destruct (split "=" elem) as [|key [|value [|x l]]]; try reflexivity.
    cbn [length Nat.eqb andb].
    unfold Dict.mem. rewrite families_of_get. cbn [Dict.get default app].
    destruct (String.eqb key "family"); cbn [andb].
    + destruct (family_members temp_vts_dict (Some value)) as [|m ms];
        rewrite IH; [|rewrite <- app_assoc]; reflexivity.
    + rewrite IH. reflexivity.
Qed.

(** X10. [get_vts_in_groups] raises [ValueError] when some filter does
    not hold exactly one [=]; otherwise it returns, filter after filter,
    the VTs of the catalogue whose family the filter names, in the order
    of the catalogue; a filter on another key selects nothing. *)
Theorem get_vts_in_groups_families (temp_vts_dict : vts_dict)
    (filters : list string) :
  get_vts_in_groups temp_vts_dict filters
  = if forallb (fun elem => (length (split "=" elem) =? 2)%nat) filters
    then ok (flat_map (group_of temp_vts_dict) filters)
    else throw ValueError.
Proof. unfold get_vts_in_groups. rewrite filter_groups_spec. reflexivity. Qed.

Lemma group_of_known (temp_vts_dict : vts_dict) (elem oid : string) :
  In oid (group_of temp_vts_dict elem) -> Dict.mem temp_vts_dict oid = true.
Proof.
  unfold group_of.
  destruct (split "=" elem) as [|key [|value [|x l]]]; try contradiction.
  destruct (String.eqb key "family"); [|contradiction].
  unfold family_members. intros Hin.
  apply in_map_iff in Hin as (it & <- & Hin).
  apply filter_In in Hin as [Hin _].
  apply dict_mem_of_item. unfold Dict.keys. apply in_map. exact Hin.
Qed.

Section Selection.
Variable b64decode_ok : string -> bool.

Lemma process_single_vts_known (temp_vts_dict : vts_dict)
    (items : list (string * Dict.t string string)) :
  forall (vts_list l : list string) (vts_params params : Dict.t string string),
    Forall (fun oid => Dict.mem temp_vts_dict oid = true) vts_list ->
    process_single_vts b64decode_ok temp_vts_dict items vts_list vts_params
    = inr (l, params) ->
    Forall (fun oid => Dict.mem temp_vts_dict oid = true) l.
Proof.
  induction items as [|[vtid vt_params] rest IH];
    intros vts_list l vts_params params Hknown; cbn [process_single_vts].
  - intros [= <- _]. exact Hknown.
  - destruct (Dict.mem temp_vts_dict vtid) eqn:Emem; cbn [negb].
    + destruct (process_vt_params _ _ _ _ _) as [e|vts_params'];
        cbn [ebind]; [discriminate|].
      apply IH. apply Forall_app. split; [exact Hknown|].
      constructor; [exact Emem|constructor].
    + apply IH. exact Hknown.
Qed.

(** X11. The list of VTs that [process_vts] returns, the one written as
    [plugin_set], names VTs of the catalogue only: an id that the
    catalogue does not hold is left out. *)
Theorem process_vts_known (temp_vts_dict : vts_dict) (vts : vts_selection)
    (vts_list : list string) (vts_params : Dict.t string string) :
  process_vts b64decode_ok temp_vts_dict vts = inr (vts_list, vts_params) ->
  Forall (fun oid => Dict.mem temp_vts_dict oid = true) vts_list.
Proof.
  unfold process_vts.
  destruct (vt_groups vts) as [|g gs] eqn:Egroups; cbn [ebind ok].
  - apply process_single_vts_known. constructor.
  - unfold get_vts_in_groups. rewrite filter_groups_spec. cbn [app].
    destruct (forallb _ _); cbn [ebind ok throw]; [|discriminate].
    apply process_single_vts_known.
    apply Forall_forall. intros oid Hin.
    apply list_elem_of_In, in_flat_map in Hin as (elem & _ & Hin).
    exact (group_of_known _ _ _ Hin).
Qed.

(** X12. The parameter with id [0] of a VT (its timeout) is checked as an
    integer whatever type the VT declares for it: a value that reads as an
    integer is written, unchanged, under the key built from the declared
    type; any other value is dropped. *)
Theorem process_vt_param_timeout (temp_vts_dict : vts_dict) (vtid : string)
    (v : vt) (p : vt_param) (value : string)
    (vts_params : Dict.t string string) :
  Dict.get temp_vts_dict vtid = Some v ->
  Dict.get (vt_params v) "0" = Some p ->
  vp_type p <> "" ->
  vp_name p <> "" ->
  process_vt_param b64decode_ok temp_vts_dict vtid "0" value vts_params
  = ok (match int_of_string value with
        | Some _ =>
            Dict.set vts_params
              (vtid ++ ":0:" ++ vp_type p ++ ":" ++ vp_name p) value
        | None => vts_params
        end).
Proof.
  intros Hvt Hp Htype Hname.
  unfold process_vt_param, get_vt_param_type, get_vt_param_name, vts_index.
  rewrite Hvt. cbn [ebind ok]. rewrite Hp. cbn [option_map].
  unfold str_truthy.
  rewrite (proj2 (String.eqb_neq _ _) Htype).
  rewrite (proj2 (String.eqb_neq _ _) Hname).
  cbn [negb orb]. rewrite String.eqb_refl.
  unfold check_param_type.
  change (existsb (String.eqb "integer")
            ["entry"; "password"; "radio"; "sshlogin"]) with false.
  cbv iota.
  change (String.eqb "integer" "checkbox") with false.
  cbn [andb]. cbv iota.
  change (String.eqb "integer" "file") with false. cbv iota.
  change (String.eqb "integer" "integer") with true. cbv iota.
  destruct (int_of_string value); reflexivity.
Qed.

End Selection.

(** *** The feed: errors and settings *)

Lemma read_plugin_set_error (lines : list string) :
  forall (date : pyval) (e : pyerr),
    read_plugin_set lines date = inl e -> e = IndexError.
Proof.
  induction lines as [|line rest IH]; intros date e; cbn [read_plugin_set].
  - discriminate.
  - destruct (contains "PLUGIN_SET" line); [|apply IH].
    destruct (split " = " line) as [|a [|b l]].
    + intros [= <-]. reflexivity.
    + intros [= <-]. reflexivity.
    + apply IH.
Qed.

Lemma read_plugin_set_malformed (line : string) (lines : list string) :
  In line lines ->
  contains "PLUGIN_SET" line = true ->
  (length (split " = " line) < 2)%nat ->
  forall date, read_plugin_set lines date = inl IndexError.
Proof.
  intros Hin Hmark Hshort.
  induction lines as [|l rest IH]; intros date; [destruct Hin|].
  cbn [read_plugin_set].
  destruct Hin as [->|Hin].
  - rewrite Hmark.
    destruct (split " = " line) as [|a [|b l']]; try reflexivity.
    cbn [length] in Hshort. lia.
  - destruct (contains "PLUGIN_SET" l); [|apply IH, Hin].
    destruct (split " = " l) as [|a [|b l']]; try reflexivity.
    apply IH, Hin.
Qed.

Lemma parse_param_error {score : Type} (w : world) (d : daemon score)
    (e : pyerr) :
  parse_param w d = inl e -> e = SubprocessError \/ e = UnicodeDecodeError.
Proof.
  unfold parse_param. destruct (openvas_settings w) as [result|].
  - destruct (is_ascii result); cbn [negb]; [discriminate|].
    intros [= <-]. right. reflexivity.
  - intros [= <-]. left. reflexivity.
Qed.

(** X13. [feed_is_outdated] raises [OspdOpenvasError] exactly when the
    setting [plugins_folder] is missing or false (empty): no other failure
    of the check is reported under that exception. *)
Theorem feed_is_outdated_no_folder {score : Type} (w : world)
    (d : daemon score) (current_feed : string) :
  (exists msg,
     feed_is_outdated w d current_feed = inl (OspdOpenvasError msg))
  <-> match Dict.get (scan_only_params d) "plugins_folder" with
      | Some v => truthy v = false
      | None => True
      end.
Proof.
  unfold feed_is_outdated.
  destruct (Dict.get (scan_only_params d) "plugins_folder") as [[n|folder]|].
  - cbn [truthy]. destruct (n =? 0); cbn [negb].
    + split; [reflexivity|]. intros _. eexists. reflexivity.
    + split; [intros [msg Hraise]; discriminate Hraise|discriminate].
  - cbn [truthy]. unfold str_truthy.
    destruct (String.eqb folder ""); cbn [negb].
    + split; [reflexivity|]. intros _. eexists. reflexivity.
    + split; [|discriminate]. intros [msg Hraise]. exfalso.
      destruct (read_lines w folder "plugin_feed_info.inc") as [lines|].
      * destruct (read_plugin_set lines (PInt 0)) as [e|date] eqn:Edate;
          cbn [ebind] in Hraise.
        { apply read_plugin_set_error in Edate. congruence. }
        unfold int in Hraise at 1.
        destruct (int_of_string current_feed) as [current|];
          cbn [ebind ok throw] in Hraise; [|discriminate Hraise].
        destruct (int date) as [e|version] eqn:Eint;
          cbn [ebind] in Hraise.
        { destruct date as [z|s]; cbn [int] in Eint; [discriminate Eint|].
          destruct (int_of_string s); [discriminate Eint|].
          injection Eint as <-. discriminate Hraise. }
        destruct ((current <? version) || (version =? 0));
          discriminate Hraise.
      * destruct (parse_param w d) as [e|d'] eqn:Eparse;
          cbn [ebind] in Hraise; [|discriminate Hraise].
        apply parse_param_error in Eparse.
        destruct Eparse; congruence.
  - split; [reflexivity|]. intros _. eexists. reflexivity.
Qed.

(** X14. When a line of the feed marker file mentions [PLUGIN_SET]
    without the separator [' = '], [feed_is_outdated] raises [IndexError],
    whatever the other lines of the file and the cached version are. *)
Theorem feed_is_outdated_malformed_plugin_set {score : Type} (w : world)
    (d : daemon score) (plugins_folder current_feed line : string)
    (lines : list string) :
  Dict.get (scan_only_params d) "plugins_folder" = Some (PStr plugins_folder) ->
  plugins_folder <> "" ->
  read_lines w plugins_folder "plugin_feed_info.inc" = Some lines ->
  In line lines ->
  contains "PLUGIN_SET" line = true ->
  (length (split " = " line) < 2)%nat ->
  feed_is_outdated w d current_feed = inl IndexError.
Proof.
  intros Hfolder Hne Hlines Hin Hmark Hshort. unfold feed_is_outdated.
  rewrite Hfolder. unfold str_truthy.
  rewrite (proj2 (String.eqb_neq _ _) Hne). cbn [negb].
  rewrite Hlines.
  rewrite (read_plugin_set_malformed line lines Hin Hmark Hshort).
  reflexivity.
Qed.

(** X15. While a scan is running [check_feed] never reloads the VTs:
    what it returns does not depend on [load_vts]; and it ends either with
    the pending flag set or with a catalogue that has the version of the
    feed. *)
Theorem check_feed_never_reloads_during_scan {score : Type}
    (nvti_get_feed_version : daemon score -> option string)
    (redis_nvticache_init load_vts load_vts' : daemon score -> daemon score)
    (w : world) (d : daemon score) :
  running_scan w = true ->
  check_feed nvti_get_feed_version redis_nvticache_init load_vts w d
  = check_feed nvti_get_feed_version redis_nvticache_init load_vts' w d
  /\ forall d',
       check_feed nvti_get_feed_version redis_nvticache_init load_vts w d
       = inr d' ->
       is_true (pending_feed d') = true
       \/ vts_version d' = nvti_get_feed_version d'.
Proof.
  intros Hrun. unfold check_feed. rewrite Hrun. split; [reflexivity|].
  intros d'. cbn [negb andb].
  match goal with
  | |- ebind ?first _ = _ -> _ => destruct first as [e|[[[[|]|] d0]|]]
  end; cbn [ebind]; try discriminate; try (intros [= <-]; left; reflexivity).
  all: match goal with
       | |- ebind ?second _ = _ -> _ => destruct second as [e|d1]
       end; cbn [ebind]; try discriminate.
  all: destruct (is_true (pending_feed d1)) eqn:Epf;
    [intros [= <-]; left; exact Epf|].
  all: destruct (bool_decide (vts_version d1 = nvti_get_feed_version d1))
         eqn:Ever; cbn [negb];
    [intros [= <-]; right; apply bool_decide_eq_true in Ever; exact Ever
    |intros [= <-]; left; reflexivity].
Qed.

Lemma dict_set_keys {K V : Type} `{EqDecision K} (d : Dict.t K V) (k : K)
    (v : V) :
  Dict.keys (Dict.set d k v)
  = if Dict.mem d k then Dict.keys d else (Dict.keys d ++ [k])%list.
Proof.
  unfold Dict.mem, Dict.keys.
  induction d as [|[k0 v0] d IH]; cbn [Dict.set Dict.get map fst app].
  - reflexivity.
  - destruct (decide (k0 = k)) as [->|Hne]; cbn [map fst].
    + reflexivity.
    + rewrite IH. destruct (Dict.get d k); reflexivity.
Qed.

Lemma dict_mem_keys {K V : Type} `{EqDecision K} (d : Dict.t K V) (k : K) :
  Dict.mem d k = true <-> In k (Dict.keys d).
Proof.
  split; [|apply dict_mem_of_item].
  unfold Dict.mem, Dict.keys.
  induction d as [|[k0 v0] d IH]; cbn [Dict.get map fst]; [discriminate|].
  destruct (decide (k0 = k)) as [->|Hne]; [left; reflexivity|].
  intros Hmem. right. apply IH, Hmem.
Qed.

Lemma dict_set_wf {K V : Type} `{EqDecision K} (d : Dict.t K V) (k : K)
    (v : V) :
  Dict.wf d -> Dict.wf (Dict.set d k v).
Proof.
  unfold Dict.wf. intros Hwf. rewrite dict_set_keys.
  destruct (Dict.mem d k) eqn:Emem; [exact Hwf|].
  apply NoDup_ListNoDup. apply NoDup_ListNoDup in Hwf.
  apply List.NoDup_app; [exact Hwf|constructor; [intros []|constructor]|].
  intros x Hx [<-|[]].
  apply dict_mem_keys in Hx. congruence.
Qed.

Lemma parse_settings_wf (confs : list string) :
  forall param_list : Dict.t string pyval,
    Dict.wf param_list -> Dict.wf (parse_settings confs param_list).
Proof.
  induction confs as [|conf rest IH]; intros param_list Hwf;
    cbn [parse_settings]; [exact Hwf|].
  destruct (split "=" conf) as [|e0 [|e1 [|x l]]]; try (apply IH, Hwf).
  apply IH, dict_set_wf, Hwf.
Qed.

Lemma update_scan_only_get (items : list (string * pyval)) :
  forall (so : Dict.t string pyval) (k : string),
    Dict.wf items ->
    Dict.get (update_scan_only items so) k
    = if Dict.mem OSPD_PARAMS k then Dict.get so k
      else match Dict.get items k with
           | Some v => Some v
           | None => Dict.get so k
           end.
Proof.
  induction items as [|[elem v] rest IH]; intros so k Hwf;
    cbn [update_scan_only Dict.get].
  - destruct (Dict.mem OSPD_PARAMS k); reflexivity.
  - unfold Dict.wf, Dict.keys in Hwf. cbn [map fst] in Hwf.
    apply NoDup_cons in Hwf as [Hfresh Hrest].
    rewrite (IH _ k Hrest). clear IH.
    destruct (Dict.mem OSPD_PARAMS k) eqn:Ek.
    + destruct (Dict.mem OSPD_PARAMS elem) eqn:Eelem; [reflexivity|].
      apply dict_get_set_ne. intros ->. congruence.
    + destruct (decide (elem = k)) as [->|Hne].
      * rewrite Ek.
        assert (Hnone : Dict.get rest k = None).
        { destruct (Dict.get rest k) as [v'|] eqn:Eget; [|reflexivity].
          exfalso. apply Hfresh. apply list_elem_of_In.
          apply (dict_mem_keys rest k). unfold Dict.mem. rewrite Eget.
          reflexivity. }
        rewrite Hnone. apply dict_get_set.
      * destruct (Dict.get rest k); [reflexivity|].
        destruct (Dict.mem OSPD_PARAMS elem); [reflexivity|].
        apply dict_get_set_ne. exact Hne.
Qed.

Lemma update_defaults_get (param_list : Dict.t string pyval)
    (defaults : Dict.t string pyval) (k : string) :
  Dict.get (update_defaults defaults param_list) k
  = match Dict.get defaults k with
    | Some old => Some (default old (Dict.get param_list k))
    | None => None
    end.
Proof.
  unfold update_defaults.
  induction defaults as [|[elem old] rest IH]; cbn [map Dict.get];
    [reflexivity|].
  destruct (decide (elem = k)) as [->|Hne].
  - destruct (Dict.get param_list k); cbn [Dict.get default id];
      rewrite decide_True by reflexivity; reflexivity.
  - destruct (Dict.get param_list elem); cbn [Dict.get];
      rewrite decide_False by exact Hne; exact IH.
Qed.

(** X16. [parse_param] files every setting printed by the scanner in
    exactly one place: a setting that [OSPD_PARAMS] declares replaces the
    default of that parameter and never enters [scan_only_params]; any
    other setting is stored in [scan_only_params]; what the scanner does
    not print keeps its value. *)
Theorem parse_param_files_settings {score : Type} (w : world)
    (d d' : daemon score) (result : string) :
  openvas_settings w = Some result ->
  parse_param w d = inr d' ->
  let param_list := parse_settings (split newline result) [] in
  forall k,
    Dict.get (ospd_defaults d') k
    = match Dict.get (ospd_defaults d) k with
      | Some old => Some (default old (Dict.get param_list k))
      | None => None
      end
    /\ Dict.get (scan_only_params d') k
       = if Dict.mem OSPD_PARAMS k then Dict.get (scan_only_params d) k
         else match Dict.get param_list k with
              | Some v => Some v
              | None => Dict.get (scan_only_params d) k
              end.
Proof.
  intros Hsettings Hparse param_list k.
  unfold parse_param in Hparse. rewrite Hsettings in Hparse.
  destruct (is_ascii result); cbn [negb] in Hparse; [|discriminate Hparse].
  injection Hparse as <-. cbn [ospd_defaults scan_only_params with_params].
  split.
  - apply update_defaults_get.
  - apply update_scan_only_get. apply parse_settings_wf. constructor.
Qed.

(** *** A stop command that cannot be run *)

Section CleanupFailure.
Context {score : Type}.
Variable w : world.
Variable global_scan_id : string.

Lemma stop_scan_cleanup_loop_failed (kbs : list Z) :
  forall d d' : daemon score,
    stop_scan_cleanup_loop w global_scan_id kbs d = inr (Some false, d') ->
    exists i, In i kbs /\ ~ KB.released (openvas_db d') i.
Proof.
  induction kbs as [|current_kbi rest IH]; intros d d' Hloop.
  - discriminate Hloop.
  - apply stop_scan_cleanup_loop_cons in Hloop
      as [(_ & _ & _ & Hkept)|(d1 & Hrest & _)].
    + exists current_kbi. split; [left; reflexivity|exact Hkept].
    + destruct (IH d1 d' Hrest) as (i & Hin & Hkept).
      exists i. split; [right; exact Hin|exact Hkept].
Qed.

(** X17. When [stop_scan_cleanup] returns [False] (the stop command
    could not be run while the engine process was alive), it leaves an
    index of the store unreleased. *)
Theorem stop_scan_cleanup_failed_stop (d d' : daemon score) :
  stop_scan_cleanup w d global_scan_id = inr (Some false, d') ->
  exists i,
    0 <= i < KB.max_dbindex (openvas_db d)
    /\ ~ KB.released (openvas_db d') i.
Proof.
  intros Hstop. apply stop_scan_cleanup_loop_failed in Hstop as (i & Hin & Hk).
  exists i. split; [|exact Hk].
  apply list_elem_of_In, elem_of_seqZ in Hin. lia.
Qed.

End CleanupFailure.

(** *** The command line of the engine *)

(** X18. A daemon whose niceness field was set by its constructor always
    launches the engine through [nice]: created without a niceness, it
    runs [nice -n None openvas --scan-start <id>]. *)
Theorem start_command_always_nice (w : world) (n : option pyval)
    (openvas_scan_id : string) :
  niceness w = init_niceness n ->
  start_command w openvas_scan_id
  = (["nice"; "-n"; match n with Some v => str v | None => "None" end]
       ++ (if negb (is_running_as_root w) && sudo_available w
           then ["sudo"; "-n"] else [])
       ++ ["openvas"; "--scan-start"; openvas_scan_id])%list.
Proof.
  intros Hnice. unfold start_command, init_niceness in *. rewrite Hnice.
  destruct (negb (is_running_as_root w) && sudo_available w); reflexivity.
Qed.

(** *** Completion read from a released index *)

(** X19. On a main index that has been released, [target_is_finished]
    answers [True]: the mapping of the scan id is missing and so is the
    status it then looks up. *)
Theorem target_is_finished_released {score : Type} (d : daemon score)
    (scan_id : string) :
  KB.released (openvas_db d) (main_index d) ->
  target_is_finished d scan_id = true.
Proof.
  intros [_ Hnone]. unfold target_is_finished.
  assert (Hget : forall key,
             KB.get_at (openvas_db d) (main_index d) key = None).
  { intros key. unfold KB.get_at, KB.items_at, KB.part. rewrite Hnone.
    cbn. rewrite lookup_empty. reflexivity. }
  rewrite !Hget. reflexivity.
Qed.

(** *** The alive test against the VT parameters *)

Lemma merge_alive_test_last (lines : list string) :
  forall (params : Dict.t string string) (line key val : string),
    Forall (fun l => (length (split "|||" l) =? 2)%nat = true) lines ->
    split "|||" line = [key; val] ->
    exists params',
      merge_alive_test (lines ++ [line]) params = ok params'
      /\ Dict.get params' key = Some val.
Proof.
  induction lines as [|l lines IH]; intros params line key val Hall Hline.
  - cbn [app merge_alive_test]. rewrite Hline.
    eexists. split; [reflexivity|]. apply dict_get_set.
  - pose proof (Forall_inv Hall) as Hl.
    pose proof (Forall_inv_tail Hall) as Hrest.
    cbn beta in Hl. cbn [app merge_alive_test].
    destruct (split "|||" l) as [|k [|v [|x r]]]; try discriminate Hl.
    apply IH; assumption.
Qed.

(** X20. When the alive test is [consider alive] (the value 8), the
    parameter [Do a TCP ping] of the Ping Host VT ends up as [yes] in the
    parameters handed to the engine, whatever the scan configuration set
    for it: the line forced for that value is applied last. *)
Theorem alive_test_consider_alive (target_options : Dict.t string pyval)
    (v : pyval) (nvts_params : Dict.t string string) :
  Dict.get target_options "alive_test" = Some v ->
  int v = inr AliveTest.ALIVE_TEST_CONSIDER_ALIVE ->
  exists params',
    merge_alive_test (build_alive_test_opt_as_prefs target_options)
      nvts_params = ok params'
    /\ Dict.get params' (OID_PING_HOST ++ ":1:checkbox:Do a TCP ping")
       = Some "yes".
Proof.
  intros Hget Hint.
  rewrite (build_alive_test_of_int _ _ _ Hget Hint).
  change (alive_test_prefs AliveTest.ALIVE_TEST_CONSIDER_ALIVE)
    with (firstn 6 (alive_test_prefs 8)
            ++ [(OID_PING_HOST ++ ":1:checkbox:" ++ "Do a TCP ping|||yes")
                  %string])%list.
  apply merge_alive_test_last.
  - apply (bool_decide_unpack _). vm_compute. reflexivity.
  - vm_compute. reflexivity.
Qed.

(** *** The feed version of the marker file *)

Lemma read_plugin_set_last (pre post : list string) (line a b : string)
    (rest : list string) :
  contains "PLUGIN_SET" line = true ->
  split " = " line = a :: b :: rest ->
  Forall no_plugin_set post ->
  forall date0 date1,
    read_plugin_set pre date0 = inr date1 ->
    read_plugin_set (pre ++ line :: post) date0
    = inr (PStr (remove_char dquote (remove_char ";" b))).
Proof.
  intros Hmark Hsplit Hpost.
  induction pre as [|l pre IH]; intros date0 date1 Hpre.
  - cbn [app read_plugin_set]. rewrite Hmark, Hsplit.
    apply read_plugin_set_skips. exact Hpost.
  - cbn [app read_plugin_set] in *.
    destruct (contains "PLUGIN_SET" l); [|exact (IH _ _ Hpre)].
    destruct (split " = " l) as [|x [|y r]]; try discriminate Hpre.
    exact (IH _ _ Hpre).
Qed.

(** X21. When the marker file assigns [PLUGIN_SET] more than once, the
    last assignment is the feed version that [feed_is_outdated] compares
    with the cached one. *)
Theorem feed_is_outdated_last_plugin_set {score : Type} (w : world)
    (d : daemon score) (plugins_folder current_feed line a b : string)
    (pre post rest : list string) (date1 : pyval) (current version : Z) :
  Dict.get (scan_only_params d) "plugins_folder" = Some (PStr plugins_folder) ->
  plugins_folder <> "" ->
  read_lines w plugins_folder "plugin_feed_info.inc"
  = Some (pre ++ line :: post)%list ->
  read_plugin_set pre (PInt 0) = inr date1 ->
  contains "PLUGIN_SET" line = true ->
  split " = " line = a :: b :: rest ->
  Forall no_plugin_set post ->
  int_of_string current_feed = Some current ->
  int_of_string (remove_char dquote (remove_char ";" b)) = Some version ->
  feed_is_outdated w d current_feed
  = inr (Some ((current <? version) || (version =? 0)), d).
Proof.
  intros Hfolder Hne Hlines Hpre Hmark Hsplit Hpost Hcur Hver.
  apply (feed_is_outdated_with_marker w d plugins_folder current_feed _
           (PStr (remove_char dquote (remove_char ";" b))) current version
           Hfolder Hne Hlines).
  - exact (read_plugin_set_last pre post line a b rest Hmark Hsplit Hpost
             _ _ Hpre).
  - exact Hcur.
  - cbn [int]. rewrite Hver. reflexivity.
Qed.

(** *** The further properties on the scenarios *)

Lemma get_openvas_result_short_record_witness :
  get_openvas_result demo_cvss [] "internal/results" demo_short_record_daemon
    (Some "192.168.0.7")
  = inl IndexError.
Proof.
  apply (get_openvas_result_short_record demo_cvss [] "internal/results"
           demo_short_record_daemon (Some "192.168.0.7") "ALARM|||gateway"
           ["LOG|||gateway|||general/tcp|||1.3.6.1.4.1.25623.1.0.100315|||up"]).
  - vm_compute. reflexivity.
  - discriminate.
  - vm_compute. lia.
Defined.

Lemma get_openvas_result_events_witness :
  exists d',
    get_openvas_result demo_cvss [] "internal/results" demo_results_daemon
      (Some "192.168.0.7") = inr d'
    /\ KB.enumerate (openvas_db d') "internal/results" = []
    /\ length (events d') = 1%nat.
Proof.
  destruct (get_openvas_result demo_cvss [] "internal/results"
              demo_results_daemon (Some "192.168.0.7")) as [e|d'] eqn:Hres.
  - apply (f_equal (fun x : exc (daemon Z) =>
                      match x with inl _ => true | inr _ => false end))
      in Hres.
    vm_compute in Hres. discriminate Hres.
  - exists d'. split; [reflexivity|].
    assert (Hqueue :
              KB.enumerate (openvas_db demo_results_daemon) "internal/results"
              = ["LOG|||gateway|||general/tcp|||1.3.6.1.4.1.25623.1.0.100315|||up";
                 "DEBUG|||gateway|||general/tcp||||||trace"])
      by (vm_compute; reflexivity).
    destruct (get_openvas_result_events demo_cvss [] "internal/results"
                demo_results_daemon d' (Some "192.168.0.7"))
      as (Hempty & es & Hev & Hlen).
    + rewrite Hqueue. repeat constructor.
    + exact Hres.
    + split; [exact Hempty|].
      rewrite Hev, length_app, Hlen, Hqueue. vm_compute. reflexivity.
Defined.

Lemma process_vts_known_witness :
  exists vts_list vts_params,
    process_vts (fun _ => true) (vts demo_daemon)
      {| vt_groups := ["family=Port scanners"];
         single_vts :=
           [("1.3.6.1.4.1.25623.1.0.100315", [("1", "1")]);
            ("1.3.6.1.4.1.25623.1.0.000000", [])] |}
    = inr (vts_list, vts_params)
    /\ Forall (fun oid => Dict.mem (vts demo_daemon) oid = true) vts_list.
Proof.
  destruct (process_vts (fun _ => true) (vts demo_daemon) _)
    as [e|[vts_list vts_params]] eqn:Hvts.
  - apply (f_equal (fun x : exc (list string * Dict.t string string) =>
                      match x with inl _ => true | inr _ => false end))
      in Hvts.
    vm_compute in Hvts. discriminate Hvts.
  - exists vts_list, vts_params. split; [reflexivity|].
    exact (process_vts_known _ _ _ _ _ Hvts).
Defined.

Lemma process_vt_param_timeout_witness :
  process_vt_param (fun _ => true)
    [("1.3.6.1.4.1.25623.1.0.100315", demo_vt_timeout)]
    "1.3.6.1.4.1.25623.1.0.100315" "0" "30" []
  = ok [("1.3.6.1.4.1.25623.1.0.100315:0:entry:Timeout", "30")]
  /\ process_vt_param (fun _ => true)
       [("1.3.6.1.4.1.25623.1.0.100315", demo_vt_timeout)]
       "1.3.6.1.4.1.25623.1.0.100315" "0" "soon" []
     = ok [].
Proof.
  split.
  - apply (process_vt_param_timeout (fun _ => true)
             [("1.3.6.1.4.1.25623.1.0.100315", demo_vt_timeout)]
             "1.3.6.1.4.1.25623.1.0.100315" demo_vt_timeout
             {| vp_type := "entry"; vp_name := "Timeout";
                vp_default := "320" |} "30" []);
      [reflexivity|reflexivity|discriminate|discriminate].
  - apply (process_vt_param_timeout (fun _ => true)
             [("1.3.6.1.4.1.25623.1.0.100315", demo_vt_timeout)]
             "1.3.6.1.4.1.25623.1.0.100315" demo_vt_timeout
             {| vp_type := "entry"; vp_name := "Timeout";
                vp_default := "320" |} "soon" []);
      [reflexivity|reflexivity|discriminate|discriminate].
Defined.

Lemma feed_is_outdated_malformed_plugin_set_witness :
  feed_is_outdated
    (demo_world []
       (Some ["# feed" ++ newline; "PLUGIN_SET=5;" ++ newline;
              plugin_set_line "7"])
       None (fun _ => None) (fun _ k => k))
    demo_daemon "6" = inl IndexError.
Proof.
  apply (feed_is_outdated_malformed_plugin_set
           (demo_world []
              (Some ["# feed" ++ newline; "PLUGIN_SET=5;" ++ newline;
                     plugin_set_line "7"])
              None (fun _ => None) (fun _ k => k))
           demo_daemon "/var/lib/openvas/plugins" "6"
           ("PLUGIN_SET=5;" ++ newline)
           ["# feed" ++ newline; "PLUGIN_SET=5;" ++ newline;
            plugin_set_line "7"]).
  - reflexivity.
  - discriminate.
  - reflexivity.
  - right. left. reflexivity.
  - reflexivity.
  - vm_compute. lia.
Defined.

Lemma check_feed_never_reloads_during_scan_witness :
  check_feed (fun _ => Some "201910251234") (fun d => d) (fun d => d)
    demo_stuck_world demo_daemon
  = check_feed (fun _ => Some "201910251234") (fun d => d)
      (fun d => with_pending_feed d None) demo_stuck_world demo_daemon.
Proof.
  apply (check_feed_never_reloads_during_scan
           (fun _ => Some "201910251234") (fun d => d) (fun d => d)
           (fun d => with_pending_feed d None) demo_stuck_world demo_daemon).
  reflexivity.
Defined.

Lemma parse_param_files_settings_witness :
  exists d',
    parse_param demo_stuck_world demo_daemon = inr d'
    /\ Dict.get (ospd_defaults d') "safe_checks" = Some (PInt 0)
    /\ Dict.get (scan_only_params d') "safe_checks" = None
    /\ Dict.get (scan_only_params d') "plugins_folder"
       = Some (PStr "/opt/plugins").
Proof.
  destruct (parse_param demo_stuck_world demo_daemon) as [e|d'] eqn:Hparse.
  - apply (f_equal (fun x : exc (daemon Z) =>
                      match x with inl _ => true | inr _ => false end))
      in Hparse.
    vm_compute in Hparse. discriminate Hparse.
  - exists d'. split; [reflexivity|].
    pose proof (parse_param_files_settings demo_stuck_world demo_daemon d'
                  _ eq_refl Hparse) as Hfiled.
    cbv zeta in Hfiled.
    destruct (Hfiled "safe_checks") as [Hdefault Hkept].
    destruct (Hfiled "plugins_folder") as [_ Hstored].
    split; [rewrite Hdefault; vm_compute; reflexivity|].
    split; [rewrite Hkept; vm_compute; reflexivity|].
    rewrite Hstored. vm_compute. reflexivity.
Defined.

Lemma stop_scan_cleanup_failed_stop_witness :
  exists d',
    stop_scan_cleanup demo_stuck_world demo_running_daemon "scan-1"
    = inr (Some false, d')
    /\ exists i, 0 <= i < 4 /\ ~ KB.released (openvas_db d') i.
Proof.
  destruct (stop_scan_cleanup demo_stuck_world demo_running_daemon "scan-1")
    as [err|[r d']] eqn:Hrun.
  - apply (f_equal (fun x : exc (option bool * daemon Z) =>
                      match x with inl _ => true | inr _ => false end))
      in Hrun.
    vm_compute in Hrun. discriminate Hrun.
  - assert (Hr : r = Some false).
    { apply (f_equal (fun x : exc (option bool * daemon Z) =>
                        match x with inr (r, _) => r | inl _ => None end))
        in Hrun.
      vm_compute in Hrun. symmetry. exact Hrun. }
    subst r. exists d'. split; [reflexivity|].
    exact (stop_scan_cleanup_failed_stop demo_stuck_world "scan-1"
             demo_running_daemon d' Hrun).
Defined.

Lemma start_command_always_nice_witness :
  start_command demo_stuck_world demo_uuid
  = ["nice"; "-n"; "None"; "sudo"; "-n"; "openvas"; "--scan-start";
     demo_uuid].
Proof.
  exact (start_command_always_nice demo_stuck_world None demo_uuid eq_refl).
Defined.

Lemma target_is_finished_released_witness :
  target_is_finished (with_main_kbindex demo_daemon (Some 2)) "scan-1" = true.
Proof.
  apply (target_is_finished_released
           (with_main_kbindex demo_daemon (Some 2)) "scan-1").
  split.
  - intros Hin. change (2 ∈ ({[0]} : gset Z)) in Hin.
    apply elem_of_singleton in Hin. discriminate Hin.
  - reflexivity.
Defined.

Lemma alive_test_consider_alive_witness :
  exists params',
    merge_alive_test
      (build_alive_test_opt_as_prefs [("alive_test", PStr "8")])
      [("1.3.6.1.4.1.25623.1.0.100315:1:checkbox:Do a TCP ping", "no")]
    = ok params'
    /\ Dict.get params'
         "1.3.6.1.4.1.25623.1.0.100315:1:checkbox:Do a TCP ping"
       = Some "yes".
Proof.
  apply (alive_test_consider_alive [("alive_test", PStr "8")] (PStr "8")
           [("1.3.6.1.4.1.25623.1.0.100315:1:checkbox:Do a TCP ping", "no")]);
    reflexivity.
Defined.

Lemma feed_is_outdated_last_plugin_set_witness :
  feed_is_outdated
    (demo_world [] (Some [plugin_set_line "5"; plugin_set_line "7"]) None
       (fun _ => None) (fun _ k => k))
    demo_daemon "6" = inr (Some true, demo_daemon).
Proof.
  apply (feed_is_outdated_last_plugin_set
           (demo_world [] (Some [plugin_set_line "5"; plugin_set_line "7"])
              None (fun _ => None) (fun _ k => k))
           demo_daemon "/var/lib/openvas/plugins" "6" (plugin_set_line "7")
           "PLUGIN_SET" (String dquote ("7" ++ String dquote (";" ++ newline)))
           [plugin_set_line "5"] [] [] (PStr ("5" ++ newline)) 6 7).
  - reflexivity.
  - discriminate.
  - reflexivity.
  - reflexivity.
  - reflexivity.
  - reflexivity.
  - constructor.
  - reflexivity.
  - reflexivity.
Defined.

(** *** The preferences written for the engine *)

Lemma string_length_app (a b : string) :
  String.length (a ++ b) = (String.length a + String.length b)%nat.
Proof.
  induction a as [|c a IH]; [reflexivity|]. exact (f_equal S IH).
Qed.

Lemma string_app_assoc (a b c : string) : (a ++ b) ++ c = a ++ (b ++ c).
Proof.
  induction a as [|x a IH]; [reflexivity|]. exact (f_equal (String x) IH).
Qed.

Lemma string_last_char (a b : string) (x y : ascii) :
  a ++ String x "" = b ++ String y "" -> x = y.
Proof.
  revert b. induction a as [|c a IH]; intros [|c' b] H.
  - change (String x "" = String y "") in H. congruence.
  - change (String x "" = String c' (b ++ String y "")) in H.
    injection H as _ H. destruct b; discriminate H.
  - change (String c (a ++ String x "") = String y "") in H.
    injection H as _ H. destruct a; discriminate H.
  - change (String c (a ++ String x "") = String c' (b ++ String y "")) in H.
    injection H as _ H. exact (IH _ H).
Qed.

Lemma scanprefs_not_marker (u : string) :
  "internal/" ++ u ++ "/scanprefs" <> "internal/" ++ u.
Proof.
  intros H. apply (String.app_inj "internal/") in H.
  apply (f_equal String.length) in H. rewrite string_length_app in H.
  cbn in H. lia.
Qed.

Lemma scanprefs_not_mapping (u s : string) :
  "internal/" ++ u ++ "/scanprefs" <> "internal/" ++ s ++ "/globalscanid".
Proof.
  intros H. apply (String.app_inj "internal/") in H.
  change "/scanprefs" with ("/scanpref" ++ "s") in H.
  change "/globalscanid" with ("/globalscani" ++ "d") in H.
  rewrite <- !string_app_assoc in H.
  apply string_last_char in H. discriminate H.
Qed.

Lemma scanprefs_not_scanid (u : string) :
  "internal/" ++ u ++ "/scanprefs" <> "internal/scanid".
Proof.
  intros H. change "internal/scanid" with ("internal/" ++ "scanid") in H.
  apply (String.app_inj "internal/") in H.
  apply (f_equal String.length) in H. rewrite string_length_app in H.
  cbn in H. lia.
Qed.

Lemma list_under_add {score : Type} (i : Z) (key : string)
    (l l' : list string) (d : daemon score) :
  list_under i key l d ->
  list_under i key (l ++ l')%list (add_single_item d key l').
Proof.
  intros [Hsel Hitems]. unfold list_under, add_single_item, KB.append.
  cbn [openvas_db with_db KB.selected KB.write_at]. split; [exact Hsel|].
  rewrite items_at_write_at. rewrite decide_True by auto.
  unfold KB.enumerate. rewrite Hsel, Hitems. reflexivity.
Qed.

Lemma list_under_add_ne {score : Type} (i : Z) (key key' : string)
    (l l' : list string) (d : daemon score) :
  key <> key' ->
  list_under i key l d -> list_under i key l (add_single_item d key' l').
Proof.
  intros Hne [Hsel Hitems]. unfold list_under, add_single_item, KB.append.
  cbn [openvas_db with_db KB.selected KB.write_at]. split; [exact Hsel|].
  rewrite items_at_write_at. rewrite decide_False; [exact Hitems|].
  intros [_ Heq]. apply Hne. symmetry. exact Heq.
Qed.

Lemma list_under_fold {score : Type} (i : Z) (key : string)
    (items : list (string * string)) :
  forall (l : list string) (d : daemon score),
    list_under i key l d ->
    list_under i key
      (l ++ map (fun '(k, v) => (k ++ "|||" ++ v)%string) items)%list
      (fold_left (fun d '(k, v) => add_single_item d key [k ++ "|||" ++ v])
         items d).
Proof.
  induction items as [|[k v] items IH]; intros l d Hl; cbn [fold_left map].
  - rewrite app_nil_r. exact Hl.
  - change (l ++ (k ++ "|||" ++ v)%string :: map (fun '(k, v) => (k ++ "|||" ++ v)%string) items)%list
      with (l ++ [(k ++ "|||" ++ v)%string]
              ++ map (fun '(k, v) => (k ++ "|||" ++ v)%string) items)%list.
    rewrite app_assoc. apply IH. apply list_under_add. exact Hl.
Qed.

Lemma set_credentials_list {score : Type} (i : Z) (l : list string)
    (w : world) (d d' : daemon score) (target id : string) :
  set_credentials w d target id = inr (d', false) ->
  list_under i ("internal/" ++ id ++ "/scanprefs") l d ->
  exists creds,
    build_credentials_as_prefs (scan_credentials w) = inr creds
    /\ vts d' = vts d
    /\ list_under i ("internal/" ++ id ++ "/scanprefs") (l ++ creds)%list d'.
Proof.
  unfold set_credentials. intros Hset Hl.
  destruct (scan_credentials w) as [|c cs].
  - injection Hset as <-. exists []. split; [reflexivity|].
    split; [reflexivity|]. rewrite app_nil_r. exact Hl.
  - destruct (build_credentials_as_prefs (c :: cs)) as [e|[|x xs]];
      cbn [ebind] in Hset; try discriminate Hset.
    injection Hset as <-. exists (x :: xs). split; [reflexivity|].
    split; [reflexivity|]. apply list_under_add. exact Hl.
Qed.

Lemma set_plugins_list {score : Type} (b64decode_ok : string -> bool)
    (i : Z) (l : list string) (w : world) (d d' : daemon score)
    (target id : string) :
  set_plugins b64decode_ok w d target id = inr (d', false) ->
  list_under i ("internal/" ++ id ++ "/scanprefs") l d ->
  exists nvts nvts_list nvts_params params,
    scan_vts w = Some nvts
    /\ process_vts b64decode_ok (vts d) nvts = inr (nvts_list, nvts_params)
    /\ match scan_target_options w with
       | [] => ok nvts_params
       | _ :: _ =>
           merge_alive_test
             (build_alive_test_opt_as_prefs (scan_target_options w))
             nvts_params
       end = inr params
    /\ list_under i ("internal/" ++ id ++ "/scanprefs")
         (l ++ [("plugin_set|||" ++ join ";" nvts_list)%string]
            ++ map (fun '(k, v) => (k ++ "|||" ++ v)%string) params)%list d'.
Proof.
  unfold set_plugins. intros Hset Hl.
  destruct (scan_vts w) as [nvts|]; [|discriminate Hset].
  cbn [vts with_temp_vts_dict] in Hset.
  destruct (process_vts b64decode_ok (vts d) nvts)
    as [e|[nvts_list nvts_params]] eqn:Evts;
    cbn [ebind] in Hset; [discriminate Hset|].
  match type of Hset with
  | ebind ?m _ = _ => destruct m as [e|params] eqn:Emerge
  end; cbn [ebind] in Hset; [discriminate Hset|].
  injection Hset as <-.
  exists nvts, nvts_list, nvts_params, params.
  split; [reflexivity|]. split; [exact Evts|]. split; [exact Emerge|].
  rewrite app_assoc.
  match goal with
  | |- list_under _ _ _ (with_temp_vts_dict ?x None) =>
      assert (Hx : list_under i ("internal/" ++ id ++ "/scanprefs")
                     ((l ++ [("plugin_set|||" ++ join ";" nvts_list)%string])
                        ++ map (fun '(k, v) => (k ++ "|||" ++ v)%string) params)%list x)
  end.
  { apply list_under_fold. apply list_under_add. exact Hl. }
  exact Hx.
Qed.

(** X22. When [exec_scan] has prepared a scan on an index that held no
    key, the list of preferences the engine reads holds, in this order:
    the lines of the scan options (with the merged exclusions), the main
    index, the target, the port range, the credential lines, the
    [plugin_set] line and the lines of the VT parameters (with the alive
    test applied). *)
Theorem prepare_scan_preferences {score : Type}
    (b64decode_ok : string -> bool) (w : world) (d d' : daemon score)
    (scan_id target : string) (i : Z) (k : KB.t) :
  prepare_scan b64decode_ok w d scan_id target = inr d' ->
  KB.allocate (openvas_db d) = Some (i, k) ->
  KB.dbs (openvas_db d) !! i = None ->
  exists creds nvts nvts_list nvts_params params,
    build_credentials_as_prefs (scan_credentials w) = inr creds
    /\ scan_vts w = Some nvts
    /\ process_vts b64decode_ok (vts d) nvts = inr (nvts_list, nvts_params)
    /\ match scan_target_options w with
       | [] => ok nvts_params
       | _ :: _ =>
           merge_alive_test
             (build_alive_test_opt_as_prefs (scan_target_options w))
             nvts_params
       end = inr params
    /\ KB.items_at (openvas_db d') i
         ("internal/" ++ new_uuid w ++ "/scanprefs")
       = (scan_preferences
            (merge_exclude_hosts (scan_options w) (scan_exclude_hosts w)
               (scan_finished_hosts w))
            ++ [("ov_maindbid|||" ++ str_of_Z i)%string;
                ("TARGET|||" ++ target)%string;
                ("port_range|||" ++ default "" (scan_ports w))%string]
            ++ creds
            ++ [("plugin_set|||" ++ join ";" nvts_list)%string]
            ++ map (fun '(key, val) => (key ++ "|||" ++ val)%string) params)%list.
Proof.
  intros Hprep Halloc Hempty. unfold prepare_scan in Hprep.
  destruct (is_true (pending_feed d)); [discriminate Hprep|].
  destruct (opt_truthy (scan_ports w)); cbn [negb] in Hprep;
    [|discriminate Hprep].
  rewrite Halloc in Hprep.
  pose proof (allocate_spec _ _ _ Halloc)
    as (_ & _ & Hsel & _ & _ & Hdbs).
  set (key := "internal/" ++ new_uuid w ++ "/scanprefs") in *.
  set (prefs := scan_preferences
                  (merge_exclude_hosts (scan_options w)
                     (scan_exclude_hosts w) (scan_finished_hosts w))) in *.
  match type of Hprep with
  | match set_credentials w ?dd _ _ with _ => _ end = _ =>
      assert (Hl1 : list_under i key
                      (((([] ++ prefs) ++ [("ov_maindbid|||" ++ str_of_Z i)%string])
                          ++ [("TARGET|||" ++ target)%string])
                         ++ [("port_range|||" ++ default "" (scan_ports w))%string])%list
                      dd);
      [|assert (Hv1 : vts dd = vts d) by reflexivity;
        destruct (set_credentials w dd target (new_uuid w))
          as [e|[d1 b1]] eqn:Ecred; [discriminate Hprep|]]
  end.
  { do 4 apply list_under_add.
    apply list_under_add_ne; [apply scanprefs_not_scanid|].
    apply list_under_add_ne; [apply scanprefs_not_mapping|].
    apply list_under_add_ne; [apply scanprefs_not_marker|].
    split; [exact Hsel|].
    unfold KB.items_at, KB.part. cbn [openvas_db with_db with_main_kbindex].
    rewrite Hdbs, Hempty. cbn. rewrite lookup_empty. reflexivity. }
  destruct (set_plugins b64decode_ok w d1 target (new_uuid w))
    as [e|[d2 b2]] eqn:Eplug; [discriminate Hprep|].
  destruct b1; [discriminate Hprep|]. destruct b2; [discriminate Hprep|].
  cbn [orb] in Hprep. injection Hprep as <-.
  destruct (set_credentials_list i _ w _ _ target (new_uuid w) Ecred Hl1)
    as (creds & Hcreds & Hv2 & Hl2).
  destruct (set_plugins_list b64decode_ok i _ w _ _ target (new_uuid w)
              Eplug Hl2)
    as (nvts & nvts_list & nvts_params & params & Hvts & Hproc & Hmerge & Hl3).
  exists creds, nvts, nvts_list, nvts_params, params.
  split; [exact Hcreds|]. split; [exact Hvts|].
  split; [rewrite <- Hv1, <- Hv2; exact Hproc|].
  split; [exact Hmerge|].
  destruct Hl3 as [_ Hl3]. subst key prefs. rewrite Hl3.
  cbn [app]. rewrite <- !app_assoc. reflexivity.
Qed.

(** *** A main index released under a running scan *)

Section Vanished.
Context {score : Type}.
Variable cvss_base_v2_value : string -> score.
Variable QOD_TYPES : Dict.t string string.
Variables results_key status_key host_ip_key : string.
Variable float_of_string : string -> option float.
Variables scan_id target : string.
Variable m : Z.

Lemma items_at_released (k : KB.t) (key : string) :
  KB.released k m -> KB.items_at k m key = [].
Proof.
  intros [_ Hnone]. unfold KB.items_at, KB.part. rewrite Hnone.
  cbn. rewrite lookup_empty. reflexivity.
Qed.

Lemma poll_tick_vanished (openvas_scan_id : string) (b : bool)
    (d : daemon score) :
  main_kbindex d = Some m ->
  KB.released (openvas_db d) m ->
  exists d',
    poll_tick cvss_base_v2_value QOD_TYPES results_key status_key host_ip_key
      float_of_string
      scan_id target openvas_scan_id b d
    = ({| obs_harvested := []; obs_finished := true |},
       if b then TickBreak d' else TickContinue d')
    /\ main_kbindex d' = Some m
    /\ KB.in_use (openvas_db d') = KB.in_use (openvas_db d)
    /\ KB.dbs (openvas_db d') = KB.dbs (openvas_db d).
Proof.
  intros Hmain Hrel.
  assert (Hm : main_index d = m) by (unfold main_index; rewrite Hmain; auto).
  assert (Hitems : forall key, KB.items_at (openvas_db d) m key = [])
    by (intros key; apply items_at_released, Hrel).
  unfold poll_tick, scan_is_stopped. rewrite Hm.
  cbn [openvas_db with_db].
  change (KB.get (KB.select (openvas_db d) m)
            ("internal/" ++ openvas_scan_id))
    with (head (KB.items_at (openvas_db d) m
                  ("internal/" ++ openvas_scan_id))).
  rewrite Hitems. cbn [head].
  rewrite bool_decide_eq_false_2 by discriminate.
  change (main_index (with_db d (KB.select (openvas_db d) m)))
    with (main_index d).
  rewrite Hm.
  unfold get_openvas_result. cbn [openvas_db with_db].
  change (KB.enumerate (KB.select (KB.select (openvas_db d) m) m) results_key)
    with (KB.items_at (openvas_db d) m results_key).
  rewrite Hitems. cbn [length get_openvas_result_loop].
  unfold KB.pop. cbn [openvas_db with_db].
  change (KB.enumerate (KB.select (KB.select (openvas_db d) m) m) results_key)
    with (KB.items_at (openvas_db d) m results_key).
  rewrite Hitems. cbn [opt_truthy openvas_db with_db].
  unfold ok. cbv beta iota.
  change (KB.enumerate (openvas_db _) "internal/dbindex")
    with (KB.items_at (openvas_db d) m "internal/dbindex").
  rewrite Hitems. cbn [harvest_hosts]. unfold ok. cbv beta iota.
  match goal with
  | |- context [target_is_finished ?x scan_id] =>
      assert (Hfin : target_is_finished x scan_id = true)
  end.
  { unfold target_is_finished.
    change (main_index _) with (main_index d). rewrite Hm.
    cbn [openvas_db with_db].
    unfold KB.get_at.
    change (KB.items_at (KB.select (KB.select (openvas_db d) m) m))
      with (KB.items_at (openvas_db d)).
    rewrite !Hitems. reflexivity. }
  rewrite Hfin. eexists. split; [destruct b; reflexivity|].
  split; [exact Hmain|]. split; reflexivity.
Qed.

(** X23. When the main index of a running scan has been released by
    another process (as [stop_scan_cleanup] does) and stays free, the
    polling loop of [exec_scan] ends at its second turn as a completed
    scan, not as a stopped one, and releases that index once more. *)
Theorem poll_loop_vanished_index (w : world) (d : daemon score)
    (fuel : nat) :
  main_kbindex d = Some m ->
  KB.released (openvas_db d) m ->
  (forall n k, KB.released k m -> KB.released (engine w n k) m) ->
  (2 <= fuel)%nat ->
  exists d',
    poll_loop cvss_base_v2_value QOD_TYPES results_key status_key host_ip_key
      float_of_string
      fuel w scan_id target false [] d
    = ([ {| obs_harvested := []; obs_finished := true |};
         {| obs_harvested := []; obs_finished := true |} ],
       Returned Completed d')
    /\ KB.released (openvas_db d') m.
Proof.
  intros Hmain Hrel Hengine Hfuel.
  destruct fuel as [|[|fuel]]; try lia. clear Hfuel.
  assert (Hsleep : forall d0 : daemon score,
             KB.released (openvas_db d0) m ->
             KB.released (openvas_db (sleep w d0)) m).
  { intros d0 H0. exact (Hengine (clock d0) _ H0). }
  destruct (poll_tick_vanished (new_uuid w) false (sleep w d) Hmain
              (Hsleep d Hrel))
    as (d1 & Ht1 & Hmain1 & Huse1 & Hdbs1).
  assert (Hrel1 : KB.released (openvas_db d1) m).
  { destruct (Hsleep d Hrel) as [Hfree Hnone].
    split; [rewrite Huse1; exact Hfree|rewrite Hdbs1; exact Hnone]. }
  destruct (poll_tick_vanished (new_uuid w) true (sleep w d1) Hmain1
              (Hsleep d1 Hrel1))
    as (d2 & Ht2 & Hmain2 & _ & _).
  cbn [poll_loop]. rewrite Ht1. cbn [app]. rewrite Ht2.
  eexists. split; [reflexivity|].
  unfold main_index. rewrite Hmain2. cbn [default id openvas_db with_db].
  apply released_release. right. reflexivity.
Qed.

End Vanished.

Lemma prepare_scan_preferences_witness :
  exists d',
    prepare_scan (fun _ => true) demo_idle_world demo_daemon "scan-1"
      "192.168.0.0/24" = inr d'
    /\ KB.items_at (openvas_db d') 1 ("internal/" ++ demo_uuid ++ "/scanprefs")
       = ["safe_checks|||yes"; "exclude_hosts|||10.0.0.1,10.0.0.2,10.0.0.3";
          "ov_maindbid|||1"; "TARGET|||192.168.0.0/24";
          "port_range|||T:1-1024";
          "plugin_set|||1.3.6.1.4.1.25623.1.0.100315";
          "1.3.6.1.4.1.25623.1.0.100315:1:checkbox:Report dead hosts|||yes";
          "1.3.6.1.4.1.25623.1.0.100315:1:checkbox:Do a TCP ping|||no";
          "1.3.6.1.4.1.25623.1.0.100315:2:checkbox:TCP ping tries also TCP-SYN ping|||no";
          "1.3.6.1.4.1.25623.1.0.100315:7:checkbox:TCP ping tries only TCP-SYN ping|||no";
          "1.3.6.1.4.1.25623.1.0.100315:3:checkbox:Do an ICMP ping|||yes";
          "1.3.6.1.4.1.25623.1.0.100315:4:checkbox:Use ARP|||no";
          "1.3.6.1.4.1.25623.1.0.100315:5:checkbox:Mark unrechable Hosts as dead (not scanning)|||yes"].
Proof.
  destruct (prepare_scan (fun _ => true) demo_idle_world demo_daemon "scan-1"
              "192.168.0.0/24") as [o|d'] eqn:Hprep.
  - apply (f_equal (fun x : outcome Z + daemon Z =>
                      match x with inl _ => true | inr _ => false end))
      in Hprep.
    vm_compute in Hprep. discriminate Hprep.
  - exists d'. split; [reflexivity|].
    destruct (KB.allocate (openvas_db demo_daemon)) as [[i k]|] eqn:Halloc;
      [|vm_compute in Halloc; discriminate Halloc].
    assert (Hi : i = 1).
    { apply (f_equal (fun o : option (Z * KB.t) =>
                        match o with Some (i, _) => i | None => 0 end))
        in Halloc.
      vm_compute in Halloc. symmetry. exact Halloc. }
    subst i.
    destruct (prepare_scan_preferences (fun _ => true) demo_idle_world
                demo_daemon d' "scan-1" "192.168.0.0/24" 1 k Hprep Halloc
                eq_refl)
      as (creds & nvts & nvts_list & nvts_params & params
          & Hcreds & Hvts & Hproc & Hmerge & Hitems).
    vm_compute in Hcreds. injection Hcreds as <-.
    vm_compute in Hvts. injection Hvts as <-.
    vm_compute in Hproc. injection Hproc as <- <-.
    vm_compute in Hmerge. injection Hmerge as <-.
    change (new_uuid demo_idle_world) with demo_uuid in Hitems.
    rewrite Hitems. vm_compute. reflexivity.
Defined.

Lemma poll_loop_vanished_index_witness :
  exists d',
    poll_loop demo_cvss [] "internal/results" "internal/status" "internal/ip"
      demo_float
      2 demo_idle_world "scan-1" "192.168.0.0/24" false []
      (with_main_kbindex demo_daemon (Some 2))
    = ([ {| obs_harvested := []; obs_finished := true |};
         {| obs_harvested := []; obs_finished := true |} ],
       Returned Completed d')
    /\ KB.released (openvas_db d') 2.
Proof.
  apply (poll_loop_vanished_index demo_cvss [] "internal/results"
           "internal/status" "internal/ip"
             demo_float "scan-1" "192.168.0.0/24" 2
           demo_idle_world (with_main_kbindex demo_daemon (Some 2)) 2).
  - reflexivity.
  - split.
    + intros Hin. change (2 ∈ ({[0]} : gset Z)) in Hin.
      apply elem_of_singleton in Hin. discriminate Hin.
    + reflexivity.
  - intros n k Hk. exact Hk.
  - lia.
Defined.

(** *** The host indices of a stopped scan *)

Lemma release_host_kbs_releases (scan_id : string) (j : Z)
    (host_kbs : list Z) :
  forall k : KB.t,
    In j host_kbs ->
    opt_truthy (KB.get_at k j ("internal/" ++ scan_id)) = true ->
    KB.released (release_host_kbs scan_id host_kbs k) j.
Proof.
  induction host_kbs as [|h host_kbs IH]; intros k Hin Hkey; [destruct Hin|].
  cbn [release_host_kbs].
  change (KB.get (KB.select k h) ("internal/" ++ scan_id))
    with (KB.get_at k h ("internal/" ++ scan_id)).
  destruct (decide (h = j)) as [->|Hne].
  - rewrite Hkey.
    destruct (release_host_kbs_index scan_id j host_kbs
                (KB.release (KB.select k j) j)) as (_ & Hkeep & _).
    apply Hkeep. apply released_release. right. reflexivity.
  - destruct Hin as [Heq|Hin]; [contradiction|].
    destruct (opt_truthy (KB.get_at k h ("internal/" ++ scan_id))).
    + apply IH; [exact Hin|].
      rewrite get_at_release_ne by congruence. exact Hkey.
    + apply IH; [exact Hin|exact Hkey].
Qed.

Section CleanupHosts.
Context {score : Type}.
Variable w : world.
Variable global_scan_id : string.
Variables i j : Z.
Variable s : string.

Lemma stop_scan_cleanup_loop_hosts (kbs : list Z) :
  forall d d' : daemon score,
    stop_scan_cleanup_loop w global_scan_id kbs d = inr (None, d') ->
    In i kbs ->
    0 <= j < KB.max_dbindex (openvas_db d) ->
    KB.get_at (openvas_db d) i ("internal/" ++ global_scan_id ++ "/globalscanid")
    = Some s ->
    s <> "" ->
    opt_truthy (KB.get_at (openvas_db d) j ("internal/" ++ s)) = true ->
    (forall x, In x kbs -> x <> i ->
               ~ holds_mapping (openvas_db d) x global_scan_id) ->
    KB.released (openvas_db d') j.
Proof.
  induction kbs as [|current_kbi rest IH];
    intros d d' Hloop Hin Hrange Hmap Hs Hkey Hone; [destruct Hin|].
  assert (Hholds : holds_mapping (openvas_db d) i global_scan_id).
  { unfold holds_mapping. rewrite Hmap. cbn [opt_truthy]. unfold str_truthy.
    rewrite (proj2 (String.eqb_neq _ _) Hs). reflexivity. }
  apply stop_scan_cleanup_loop_cons in Hloop
    as [(Hr & _)|(d1 & Hloop & _ & Hcase)]; [discriminate Hr|].
  destruct Hcase as [[Hno Hdb1]|[Hyes (scan_id & Hsid & Hdb1)]].
  - assert (Hne : current_kbi <> i) by (intros ->; contradiction).
    destruct Hin as [Heq|Hin]; [contradiction|].
    apply (IH d1 d' Hloop Hin); try rewrite Hdb1.
    + exact Hrange.
    + exact Hmap.
    + exact Hs.
    + exact Hkey.
    + intros x Hx Hxi. apply (Hone x); [right; exact Hx|exact Hxi].
  - assert (Heq : current_kbi = i).
    { destruct (decide (current_kbi = i)) as [Heq|Hne]; [exact Heq|].
      exfalso. apply (Hone current_kbi); [left; reflexivity|exact Hne|].
      exact Hyes. }
    subst current_kbi. rewrite Hmap in Hsid. cbn [default id] in Hsid.
    subst scan_id.
    apply (stop_scan_cleanup_loop_releases w global_scan_id j rest d1 d' Hloop).
    left. rewrite Hdb1.
    destruct (decide (j = i)) as [->|Hji].
    + destruct (release_host_kbs_index s i
                  (seqZ 0 (KB.max_dbindex (openvas_db d)))
                  (KB.release
                     (KB.set (KB.select (openvas_db d) i)
                        ("internal/" ++ s) ["stop_all"]) i))
        as (_ & Hkeep & _).
      apply Hkeep. apply released_release. right. reflexivity.
    + apply release_host_kbs_releases.
      * apply list_elem_of_In, elem_of_seqZ. lia.
      * rewrite get_at_release_ne by exact Hji.
        unfold KB.set. rewrite get_at_write_at_ne by exact Hji.
        exact Hkey.
Qed.

(** X24. When [stop_scan_cleanup] runs to its end for a scan whose
    mapping sits on one index, every index that carried a marker of the
    engine scan id when it started, the host indices of the scan among
    them, has been released. *)
Theorem stop_scan_cleanup_releases_hosts (d d' : daemon score) :
  stop_scan_cleanup w d global_scan_id = inr (None, d') ->
  0 <= i < KB.max_dbindex (openvas_db d) ->
  0 <= j < KB.max_dbindex (openvas_db d) ->
  KB.get_at (openvas_db d) i ("internal/" ++ global_scan_id ++ "/globalscanid")
  = Some s ->
  s <> "" ->
  opt_truthy (KB.get_at (openvas_db d) j ("internal/" ++ s)) = true ->
  (forall x, 0 <= x < KB.max_dbindex (openvas_db d) -> x <> i ->
             ~ holds_mapping (openvas_db d) x global_scan_id) ->
  KB.released (openvas_db d') j.
Proof.
  intros Hstop Hi Hj Hmap Hs Hkey Hone.
  apply (stop_scan_cleanup_loop_hosts _ d d' Hstop); try assumption.
  - apply list_elem_of_In, elem_of_seqZ. lia.
  - intros x Hx. apply Hone. apply list_elem_of_In, elem_of_seqZ in Hx. lia.
Qed.

End CleanupHosts.

Lemma stop_scan_cleanup_releases_hosts_witness :
  exists d',
    stop_scan_cleanup demo_idle_world demo_hosts_daemon "scan-1"
    = inr (None, d')
    /\ KB.released (openvas_db d') 2.
Proof.
  destruct (stop_scan_cleanup demo_idle_world demo_hosts_daemon "scan-1")
    as [err|[r d']] eqn:Hrun.
  - apply (f_equal (fun x : exc (option bool * daemon Z) =>
                      match x with inl _ => true | inr _ => false end))
      in Hrun.
    vm_compute in Hrun. discriminate Hrun.
  - assert (Hr : r = None).
    { apply (f_equal (fun x : exc (option bool * daemon Z) =>
                        match x with inr (r, _) => r | inl _ => None end))
        in Hrun.
      vm_compute in Hrun. symmetry. exact Hrun. }
    subst r. exists d'. split; [reflexivity|].
    apply (stop_scan_cleanup_releases_hosts demo_idle_world "scan-1" 1 2
             demo_uuid demo_hosts_daemon d' Hrun).
    + vm_compute. split; [discriminate|reflexivity].
    + vm_compute. split; [discriminate|reflexivity].
    + vm_compute. reflexivity.
    + discriminate.
    + vm_compute. reflexivity.
    + intros x Hx Hne Hholds.
      change (KB.max_dbindex (openvas_db demo_hosts_daemon)) with 4 in Hx.
      assert (Hcases : x = 0 \/ x = 2 \/ x = 3) by lia.
      destruct Hcases as [->|[->| ->]]; vm_compute in Hholds;
        discriminate Hholds.
Defined.

(** *** A host index that is finished *)

Section HostHarvest.
Context {score : Type}.
Variable cvss_base_v2_value : string -> score.
Variable QOD_TYPES : Dict.t string string.
Variables results_key status_key host_ip_key : string.
Variable float_of_string : string -> option float.

Local Abbreviation keeps := (harvest_keeps results_key status_key).

Lemma harvest_keeps_refl (d : daemon score) : keeps d d.
Proof.
  split; [reflexivity|]. split; [reflexivity|]. split; [reflexivity|].
  exists []. symmetry. apply app_nil_r.
Qed.

Lemma harvest_keeps_trans (d1 d2 d3 : daemon score) :
  keeps d1 d2 -> keeps d2 d3 -> keeps d1 d3.
Proof.
  intros (Hs1 & Hm1 & Hi1 & es1 & He1) (Hs2 & Hm2 & Hi2 & es2 & He2).
  split; [congruence|]. split; [congruence|]. split.
  - intros j key Hr Hs. rewrite (Hi2 j key Hr Hs). apply Hi1; assumption.
  - exists (es1 ++ es2)%list. rewrite He2, He1. symmetry. apply app_assoc.
Qed.

Lemma harvest_keeps_emit (d : daemon score) (e : event score) :
  keeps d (emit d e).
Proof.
  split; [reflexivity|]. split; [reflexivity|]. split; [reflexivity|].
  exists [e]. reflexivity.
Qed.

Lemma harvest_keeps_pop (d : daemon score) (key : string)
    (res : option string) (k : KB.t) :
  key = results_key \/ key = status_key ->
  KB.pop (openvas_db d) key = (res, k) ->
  keeps d (with_db d k).
Proof.
  intros Hkey. unfold KB.pop.
  destruct (KB.enumerate (openvas_db d) key) as [|x rest];
    intros [= _ <-].
  { split; [reflexivity|]. split; [reflexivity|]. split; [reflexivity|].
    exists []. symmetry. apply app_nil_r. }
  split; [reflexivity|]. split; [reflexivity|]. split.
  - intros j key' Hr Hs. cbn [openvas_db with_db].
    rewrite items_at_write_at. rewrite decide_False; [reflexivity|].
    intros [_ ->]. destruct Hkey; contradiction.
  - exists []. symmetry. apply app_nil_r.
Qed.

Lemma get_openvas_result_loop_keeps (turns : nat) :
  forall (d d' : daemon score) (host : option string),
    get_openvas_result_loop cvss_base_v2_value QOD_TYPES results_key turns
      host d = inr d' ->
    keeps d d'.
Proof.
  induction turns as [|turns IH]; intros d d' host;
    cbn [get_openvas_result_loop].
  - intros [= <-]. apply harvest_keeps_refl.
  - destruct (KB.pop (openvas_db d) results_key) as [res k] eqn:Epop.
    apply (harvest_keeps_pop d results_key res k (or_introl eq_refl)) in Epop.
    destruct (opt_truthy res).
    + destruct (translate_result _ _ _ _ _) as [e|d1] eqn:Etr; cbn [ebind];
        [discriminate|].
      intros Hloop. apply IH in Hloop.
      eapply harvest_keeps_trans; [exact Epop|].
      eapply harvest_keeps_trans; [|exact Hloop].
      destruct (translate_result_events _ _ _ _ _ _ Etr) as (Hdb & es & He & _).
      destruct (translate_result_frame _ _ _ _ _ _ Etr) as (_ & Hmk & _).
      split; [rewrite Hdb; reflexivity|]. split; [exact Hmk|].
      split; [intros j key _ _; rewrite Hdb; reflexivity|].
      exists es. exact He.
    + intros [= <-]. exact Epop.
Qed.

Lemma update_progress_keeps (d d' : daemon score) (target : string)
    (host : option string) (msg : string) :
  update_progress float_of_string d target host msg = inr d' -> keeps d d'.
Proof.
  intros Hup. apply update_progress_cases in Hup as [->|[host_prog ->]];
    [apply harvest_keeps_refl|apply harvest_keeps_emit].
Qed.

Lemma get_openvas_status_loop_keeps (turns : nat) :
  forall (d d' : daemon score) (target : string) (host : option string),
    get_openvas_status_loop status_key float_of_string turns target host d
    = inr d' ->
    keeps d d'.
Proof.
  induction turns as [|turns IH]; intros d d' target host;
    cbn [get_openvas_status_loop].
  - intros [= <-]. apply harvest_keeps_refl.
  - destruct (KB.pop (openvas_db d) status_key) as [res k] eqn:Epop.
    apply (harvest_keeps_pop d status_key res k (or_intror eq_refl)) in Epop.
    destruct (opt_truthy res); [|intros [= <-]; exact Epop].
    destruct (update_progress _ _ _ _ _) as [e|d1] eqn:Eup; cbn [ebind];
      [discriminate|].
    intros Hloop. apply IH in Hloop. apply update_progress_keeps in Eup.
    eapply harvest_keeps_trans; [exact Epop|].
    eapply harvest_keeps_trans; [exact Eup|exact Hloop].
Qed.

Lemma get_openvas_timestamp_keeps (d : daemon score) (host : option string) :
  keeps d (get_openvas_timestamp_scan_host d host).
Proof.
  unfold get_openvas_timestamp_scan_host.
  destruct (opt_truthy _); [apply harvest_keeps_emit|].
  destruct (opt_truthy _); [apply harvest_keeps_emit|apply harvest_keeps_refl].
Qed.

Lemma host_status_keeps (d d' : daemon score) (target : string)
    (host : option string) :
  get_openvas_status status_key float_of_string d target host = inr d' ->
  keeps d (get_openvas_timestamp_scan_host d' host).
Proof.
  intros Hst. apply get_openvas_status_loop_keeps in Hst.
  eapply harvest_keeps_trans; [exact Hst|].
  apply get_openvas_timestamp_keeps.
Qed.

(** X25. When the polling loop harvests a host index whose marker reads
    [finished] and the harvest raises nothing (every record queued there
    translates, every status line is read), it reports the host as
    finished, removes the index from the registry of the main index and
    releases it. *)
Theorem harvest_host_finished (target openvas_scan_id i : string) (kbi : Z)
    (b b' : bool) (hv hv' : list string) (d d' : daemon score) :
  harvest_host cvss_base_v2_value QOD_TYPES results_key status_key host_ip_key
    float_of_string target openvas_scan_id i (b, hv, d)
  = inr (b', hv', d') ->
  kb_index_of i = inr kbi ->
  KB.get_at (openvas_db d) kbi "internal/scan_id" = Some openvas_scan_id ->
  openvas_scan_id <> "" ->
  KB.get_at (openvas_db d) kbi ("internal/" ++ openvas_scan_id)
  = Some "finished" ->
  results_key <> "internal/" ++ openvas_scan_id ->
  status_key <> "internal/" ++ openvas_scan_id ->
  b' = false
  /\ hv' = (hv ++ [i])%list
  /\ KB.released (openvas_db d') kbi
  /\ ~ In i (KB.items_at (openvas_db d') (main_index d') "internal/dbindex")
  /\ In (HostFinished target
           (KB.get_at (openvas_db d) kbi host_ip_key)) (events d').
Proof.
  intros Hh Hkbi Hid Hosid Hfin Hrk Hsk.
  unfold harvest_host in Hh.
  rewrite Hkbi in Hh. cbn [ebind] in Hh.
  set (d0 := with_db d (KB.select (openvas_db d) kbi)) in Hh.
  assert (Hid0 : KB.get (openvas_db d0) "internal/scan_id"
                 = Some openvas_scan_id) by exact Hid.
  rewrite Hid0 in Hh. cbn [opt_truthy] in Hh. unfold str_truthy in Hh.
  rewrite (proj2 (String.eqb_neq _ _) Hosid) in Hh. cbn [negb] in Hh.
  rewrite bool_decide_eq_true_2 in Hh by reflexivity.
  set (host := KB.get (openvas_db d0) host_ip_key) in Hh.
  destruct (get_openvas_result _ _ _ d0 host) as [e|d1] eqn:Eres;
    cbn [ebind] in Hh; [discriminate Hh|].
  apply get_openvas_result_loop_keeps in Eres.
  destruct (get_openvas_status _ _ d1 target host) as [e|d2] eqn:Est;
    cbn [ebind] in Hh; [discriminate Hh|].
  apply host_status_keeps in Est.
  set (d3 := get_openvas_timestamp_scan_host d2 host) in Hh, Est.
  assert (H03 : keeps d0 d3).
  { eapply harvest_keeps_trans; [exact Eres|exact Est]. }
  assert (Hdone : host_is_finished d3 openvas_scan_id = true).
  { unfold host_is_finished. apply bool_decide_eq_true.
    destruct H03 as (Hsel & _ & Hitems & _).
    unfold KB.get, KB.get_at. rewrite Hsel.
    rewrite Hitems by (intros Heq; symmetry in Heq; contradiction).
    exact Hfin. }
  rewrite Hdone in Hh.
  destruct (get_openvas_status _ _ (emit d3 _) target host) as [e|d5]
    eqn:Est2; cbn [ebind] in Hh; [discriminate Hh|].
  apply host_status_keeps in Est2.
  set (d6 := get_openvas_timestamp_scan_host d5 host) in Hh, Est2.
  unfold ok in Hh. injection Hh as Hb Hhv Hd'.
  subst d'. clearbody d6 d3.
  split; [symmetry; exact Hb|]. split; [symmetry; exact Hhv|].
  cbn [openvas_db with_db].
  split; [apply released_release; right; reflexivity|].
  split.
  - change (main_index (with_db d6 _)) with (main_index d6).
    intros Hin.
    destruct (decide (main_index d6 = kbi)) as [Heq|Hne].
    + rewrite Heq in Hin.
      rewrite (items_at_released kbi) in Hin; [destruct Hin|].
      apply released_release. right. reflexivity.
    + unfold KB.items_at, KB.part, KB.release in Hin.
      cbn [KB.dbs] in Hin. rewrite lookup_delete_ne in Hin by congruence.
      change (In i (KB.items_at
                      (KB.remove_item
                         (KB.select (openvas_db d6) (main_index d6))
                         "internal/dbindex" i)
                      (main_index d6) "internal/dbindex")) in Hin.
      unfold KB.remove_item in Hin.
      cbn [KB.selected KB.select] in Hin.
      rewrite items_at_write_at in Hin.
      rewrite decide_True in Hin by (split; reflexivity).
      apply filter_In in Hin as [_ Hneq].
      rewrite String.eqb_refl in Hneq. discriminate Hneq.
  - destruct Est2 as (_ & _ & _ & es & Hev).
    change (events (with_db d6 _)) with (events d6).
    rewrite Hev. apply in_or_app. left.
    cbn [events emit]. apply in_or_app. right. left. reflexivity.
Qed.

End HostHarvest.

Lemma harvest_host_finished_witness :
  exists d',
    harvest_host demo_cvss [] "internal/results" "internal/status"
      "internal/ip" demo_float "192.168.0.0/24" demo_uuid "2"
      (true, [], demo_harvest_daemon)
    = inr (false, ["2"], d')
    /\ KB.released (openvas_db d') 2
    /\ ~ In "2" (KB.items_at (openvas_db d') (main_index d')
                   "internal/dbindex")
    /\ In (HostFinished "192.168.0.0/24" (Some "192.168.0.7")) (events d').
Proof.
  destruct (harvest_host demo_cvss [] "internal/results" "internal/status"
              "internal/ip" demo_float "192.168.0.0/24" demo_uuid "2"
              (true, [], demo_harvest_daemon))
    as [e|[[b' hv'] d']] eqn:Hh.
  - apply (f_equal (fun x : exc (bool * list string * daemon Z) =>
                      match x with inl _ => true | inr _ => false end))
      in Hh.
    vm_compute in Hh. discriminate Hh.
  - destruct (harvest_host_finished demo_cvss [] "internal/results"
                "internal/status" "internal/ip"
                  demo_float "192.168.0.0/24" demo_uuid
                "2" 2 true b' [] hv' demo_harvest_daemon d' Hh)
      as (Hb & Hhv & Hrel & Hreg & Hev).
    + vm_compute. reflexivity.
    + vm_compute. reflexivity.
    + discriminate.
    + vm_compute. reflexivity.
    + discriminate.
    + discriminate.
    + subst b' hv'. exists d'. split; [reflexivity|].
      split; [exact Hrel|]. split; [exact Hreg|exact Hev].
Defined.

(** *** A host index of another scan *)

(** X26. The polling loop leaves a registered host index alone when that
    index carries no scan id or the id of another scan: nothing is read
    from its queues, nothing is reported, nothing is released; only the
    selection moves to it. *)
Theorem harvest_host_other_scan {score : Type}
    (cvss_base_v2_value : string -> score) (QOD_TYPES : Dict.t string string)
    (results_key status_key host_ip_key : string)
    (float_of_string : string -> option float)
    (target openvas_scan_id i : string)
    (kbi : Z) (b : bool) (hv : list string) (d : daemon score) :
  kb_index_of i = inr kbi ->
  KB.get_at (openvas_db d) kbi "internal/scan_id" <> Some openvas_scan_id ->
  harvest_host cvss_base_v2_value QOD_TYPES results_key status_key host_ip_key
    float_of_string target openvas_scan_id i (b, hv, d)
  = inr (b, hv, with_db d (KB.select (openvas_db d) kbi)).
Proof.
  intros Hkbi Hother. unfold harvest_host.
  rewrite Hkbi. cbn [ebind].
  destruct (negb (opt_truthy _)); [reflexivity|].
  rewrite bool_decide_eq_false_2 by exact Hother. reflexivity.
Qed.

Lemma harvest_host_other_scan_witness :
  harvest_host demo_cvss [] "internal/results" "internal/status"
    "internal/ip" demo_float "192.168.0.0/24" "another-scan" "2"
    (true, [], demo_harvest_daemon)
  = inr (true, [],
         with_db demo_harvest_daemon
           (KB.select (openvas_db demo_harvest_daemon) 2)).
Proof.
  apply (harvest_host_other_scan demo_cvss [] "internal/results"
           "internal/status" "internal/ip"
             demo_float "192.168.0.0/24" "another-scan"
           "2" 2 true [] demo_harvest_daemon).
  - vm_compute. reflexivity.
  - intros Heq. vm_compute in Heq. discriminate Heq.
Defined.

(** *** The engine fails at launch *)

Section SpawnFailure.
Context {score : Type}.
Variable cvss_base_v2_value : string -> score.
Variable QOD_TYPES : Dict.t string string.
Variables results_key status_key host_ip_key : string.
Variable float_of_string : string -> option float.
Variable b64decode_ok : string -> bool.
Variable w : world.
Variables scan_id target : string.
Variable i : Z.

Local Abbreviation mapping := ("internal/" ++ scan_id ++ "/globalscanid").

Lemma head_set_add (key key' : string) (l : list string) (d : daemon score) :
  head_set i key d -> head_set i key (add_single_item d key' l).
Proof.
  intros [Hsel Hhead]. unfold head_set, add_single_item, KB.append.
  cbn [openvas_db with_db KB.selected KB.write_at]. split; [exact Hsel|].
  unfold KB.get_at in *. rewrite items_at_write_at.
  destruct (decide _) as [[_ <-]|_]; [|exact Hhead].
  unfold KB.enumerate. rewrite Hsel.
  destruct (KB.items_at (openvas_db d) i key') as [|x rest];
    [discriminate Hhead|exact Hhead].
Qed.

Lemma head_set_first (key x : string) (d : daemon score) :
  KB.selected (openvas_db d) = i ->
  x <> "" ->
  KB.items_at (openvas_db d) i key = [] \/ KB.items_at (openvas_db d) i key = ["new"] ->
  head_set i key (add_single_item d key [x]).
Proof.
  intros Hsel Hx Hitems. unfold head_set, add_single_item, KB.append.
  cbn [openvas_db with_db KB.selected KB.write_at]. split; [exact Hsel|].
  unfold KB.get_at. rewrite items_at_write_at.
  rewrite decide_True by (split; [exact Hsel|reflexivity]).
  unfold KB.enumerate. rewrite Hsel.
  destruct Hitems as [-> | ->]; cbn [app head opt_truthy]; [|reflexivity].
  unfold str_truthy. rewrite (proj2 (String.eqb_neq _ _) Hx). reflexivity.
Qed.

Lemma head_set_fold (key key' : string) (items : list (string * string)) :
  forall d : daemon score,
    head_set i key d ->
    head_set i key
      (fold_left (fun d '(k, v) => add_single_item d key' [k ++ "|||" ++ v])
         items d).
Proof.
  induction items as [|[k v] items IH]; intros d Hd; cbn [fold_left].
  - exact Hd.
  - apply IH. apply head_set_add. exact Hd.
Qed.

Lemma head_set_set_credentials (key : string) (d d' : daemon score)
    (id : string) (b : bool) :
  set_credentials w d target id = inr (d', b) ->
  head_set i key d -> head_set i key d'.
Proof.
  unfold set_credentials. intros Hset Hd.
  destruct (scan_credentials w) as [|c cs]; [injection Hset as <- _; exact Hd|].
  destruct (build_credentials_as_prefs (c :: cs)) as [e|[|l ls]];
    cbn [ebind] in Hset; try discriminate; injection Hset as <- _.
  - exact Hd.
  - apply head_set_add. exact Hd.
Qed.

Lemma head_set_set_plugins (key : string) (d d' : daemon score)
    (id : string) (b : bool) :
  set_plugins b64decode_ok w d target id = inr (d', b) ->
  head_set i key d -> head_set i key d'.
Proof.
  unfold set_plugins. intros Hset Hd.
  destruct (scan_vts w) as [nvts|]; [|injection Hset as <- _; exact Hd].
  cbn [vts with_temp_vts_dict] in Hset.
  destruct (process_vts b64decode_ok (vts d) nvts) as [e|[nvts_list params]];
    cbn [ebind] in Hset; [discriminate|].
  match type of Hset with
  | ebind ?m _ = _ => destruct m as [e|params']
  end; cbn [ebind] in Hset; [discriminate|].
  injection Hset as <- _.
  match goal with
  | |- head_set _ _ (with_temp_vts_dict ?x None) =>
      assert (Hx : head_set i key x)
  end.
  { apply head_set_fold. apply head_set_add. exact Hd. }
  exact Hx.
Qed.

Lemma prepare_scan_mapping (d d' : daemon score) (k : KB.t) :
  prepare_scan b64decode_ok w d scan_id target = inr d' ->
  KB.allocate (openvas_db d) = Some (i, k) ->
  KB.dbs (openvas_db d) !! i = None ->
  new_uuid w <> "" ->
  head_set i mapping d'.
Proof.
  intros Hprep Halloc Hempty Huuid. unfold prepare_scan in Hprep.
  destruct (is_true (pending_feed d)); [discriminate Hprep|].
  destruct (opt_truthy (scan_ports w)); cbn [negb] in Hprep;
    [|discriminate Hprep].
  rewrite Halloc in Hprep.
  pose proof (allocate_spec _ _ _ Halloc)
    as (_ & _ & Hsel & _ & _ & Hdbs).
  match type of Hprep with
  | match set_credentials w ?dd _ _ with _ => _ end = _ =>
      assert (H1 : head_set i mapping dd);
      [|destruct (set_credentials w dd target (new_uuid w))
          as [e|[d1 b1]] eqn:Ecred; [discriminate Hprep|]]
  end.
  { do 5 apply head_set_add.
    apply head_set_first; [exact Hsel|exact Huuid|].
    unfold add_single_item, KB.append.
    cbn [openvas_db with_db with_main_kbindex KB.selected KB.write_at].
    rewrite items_at_write_at.
    assert (Hnil : forall key, KB.items_at k i key = []).
    { intros key. unfold KB.items_at, KB.part. rewrite Hdbs, Hempty.
      cbn. rewrite lookup_empty. reflexivity. }
    unfold KB.enumerate. rewrite Hsel, !Hnil.
    destruct (decide _); [right|left]; reflexivity. }
  destruct (set_plugins b64decode_ok w d1 target (new_uuid w))
    as [e|[d2 b2]] eqn:Eplug; [discriminate Hprep|].
  destruct (b1 || b2); [discriminate Hprep|]. injection Hprep as <-.
  apply (head_set_set_plugins _ _ _ _ _ Eplug).
  apply (head_set_set_credentials _ _ _ _ _ Ecred). exact H1.
Qed.

(** The wait for the engine keeps what every sleep keeps. *)
Lemma wait_for_engine_invariant (P : daemon score -> Prop) (fuel : nat) :
  (forall d, P d -> P (sleep w d)) ->
  forall d : daemon score,
    P d ->
    match wait_for_engine fuel w scan_id d with
    | inl (Returned SpawnFailed d') =>
        exists dc r, P dc /\ stop_scan_cleanup w dc scan_id = inr (r, d')
    | _ => True
    end.
Proof.
  intros Hsleep. induction fuel as [|fuel IH]; intros d Hd;
    cbn [wait_for_engine]; [exact I|].
  destruct (bool_decide _); [|exact I].
  pose proof (IH (sleep w d) (Hsleep d Hd)) as Hnext.
  destruct (poll w (clock d)) as [res|]; [|exact Hnext].
  destruct (res <? 0); [|exact Hnext].
  destruct (stop_scan_cleanup w d scan_id) as [e|[r d']] eqn:Estop; [exact I|].
  exists d, r. split; [exact Hd|exact Estop].
Qed.

(** With the engine process gone, the stop command is never needed. *)
Lemma stop_scan_cleanup_loop_gone (kbs : list Z) :
  (forall pid, process_life w pid = 0%nat) ->
  forall (d d' : daemon score) (r : option bool),
    stop_scan_cleanup_loop w scan_id kbs d = inr (r, d') -> r = None.
Proof.
  intros Hgone. induction kbs as [|current_kbi rest IH]; intros d d' r;
    cbn [stop_scan_cleanup_loop].
  - intros [= <- _]. reflexivity.
  - destruct (opt_truthy _); [|apply IH].
    unfold find_process.
    destruct (KB.get _ "internal/ovas_pid") as [pid|]; cbn [ebind ok].
    + destruct (int_of_string pid) as [n|]; cbn [ebind ok throw];
        [|discriminate].
      rewrite Hgone. cbn [Nat.ltb Nat.leb]. apply IH.
    + apply IH.
Qed.

(** The cleanup after a negative exit code finds the mapping that the
    preparation wrote and so releases the index. *)
Lemma exec_scan_spawn_failure_cleanup (fuel : nat) (d d' : daemon score)
    (k : KB.t) :
  snd (exec_scan cvss_base_v2_value QOD_TYPES results_key status_key
         host_ip_key float_of_string b64decode_ok w fuel d scan_id target)
  = Returned SpawnFailed d' ->
  KB.allocate (openvas_db d) = Some (i, k) ->
  KB.dbs (openvas_db d) !! i = None ->
  new_uuid w <> "" ->
  (forall pid, process_life w pid = 0%nat) ->
  (forall n k, holds_mapping k i scan_id ->
               holds_mapping (engine w n k) i scan_id) ->
  KB.released (openvas_db d') i.
Proof.
  intros Hrun Halloc Hempty Huuid Hgone Hengine.
  unfold exec_scan in Hrun.
  pose proof (prepare_scan_cases b64decode_ok w scan_id target d) as Hcases.
  destruct (prepare_scan b64decode_ok w d scan_id target) as [o|d1] eqn:Hprep.
  { cbn [snd] in Hrun. subst o. contradiction. }
  destruct Hcases as (i' & k' & Halloc' & Hp).
  rewrite Halloc in Halloc'. injection Halloc' as <- <-.
  pose proof (prepare_scan_mapping d d1 k Hprep Halloc Hempty Huuid) as Hmap.
  destruct (popen w _) as [ovas_pid|]; cbn [snd] in Hrun;
    [|discriminate Hrun].
  set (d2 := add_single_item d1 "internal/ovas_pid" [str_of_Z ovas_pid])
    in Hrun.
  assert (Hmap2 : holds_mapping (openvas_db d2) i scan_id)
    by (apply (head_set_add mapping "internal/ovas_pid"), Hmap).
  assert (Hmax2 : KB.max_dbindex (openvas_db d2)
                  = KB.max_dbindex (openvas_db d)).
  { destruct Hp as (_ & _ & _ & Hmax). exact Hmax. }
  pose proof (wait_for_engine_invariant
                (fun dc => KB.max_dbindex (openvas_db dc)
                           = KB.max_dbindex (openvas_db d)
                           /\ holds_mapping (openvas_db dc) i scan_id)
                fuel) as Hwait.
  specialize (Hwait ltac:(intros d0 [H1 H2]; split;
                            [exact H1|exact (Hengine (clock d0) _ H2)])
                    d2 (conj Hmax2 Hmap2)).
  destruct (wait_for_engine fuel w scan_id d2) as [o|d3].
  - cbn [snd] in Hrun. subst o.
    destruct Hwait as (dc & r & [Hmaxc Hmapc] & Hstop).
    pose proof (stop_scan_cleanup_loop_gone _ Hgone _ _ _ Hstop) as ->.
    apply (stop_scan_cleanup_loop_releases w scan_id i _ dc d' Hstop).
    right. split; [|exact Hmapc].
    apply list_elem_of_In, elem_of_seqZ. rewrite Hmaxc.
    pose proof (allocate_spec _ _ _ Halloc) as (Hrange & _). lia.
  - pose proof (poll_loop_cases cvss_base_v2_value QOD_TYPES results_key
                  status_key host_ip_key
                    float_of_string w scan_id target fuel false [] d3)
      as Hloop.
    rewrite Hrun in Hloop. contradiction.
Qed.

(** X27. When the engine ends with a negative code before it has taken
    the scan (the return value is 1), [exec_scan] has run
    [stop_scan_cleanup], and, the engine process being gone and the mapping
    of the scan still in place, the index it allocated is released. *)
Theorem exec_scan_spawn_failure_releases (fuel : nat) (d d' : daemon score)
    (k : KB.t) :
  snd (exec_scan cvss_base_v2_value QOD_TYPES results_key status_key
         host_ip_key float_of_string b64decode_ok w fuel d scan_id target)
  = Returned SpawnFailed d' ->
  KB.allocate (openvas_db d) = Some (i, k) ->
  KB.dbs (openvas_db d) !! i = None ->
  new_uuid w <> "" ->
  (forall pid, process_life w pid = 0%nat) ->
  (forall n k, holds_mapping k i scan_id ->
               holds_mapping (engine w n k) i scan_id) ->
  KB.released (openvas_db d') i.
Proof. apply exec_scan_spawn_failure_cleanup. Qed.

(** C2 (as the code has it). What [exec_scan] leaves of the main index
    [i] it allocates, by the way it returns. On normal completion, and
    when it gives up before the launch over the credentials or the VT
    selection, the index is released. When the engine ends with a negative
    code before it has taken the scan, [stop_scan_cleanup] has run, and
    has released the index if the engine process is gone and the mapping
    of the scan is still in place. On a stop request of the client the
    index is not released: the request is still to be read there, and the
    release is left to [stop_scan_cleanup], which made the request.
    A scan refused for a pending feed or a missing port list has allocated
    nothing. Nothing is said of the exit on [OSError]. *)
Theorem exec_scan_release_on_exit (fuel : nat) (d d' : daemon score)
    (k : KB.t) (e : exit) :
  snd (exec_scan cvss_base_v2_value QOD_TYPES results_key status_key
         host_ip_key float_of_string b64decode_ok w fuel d scan_id target)
  = Returned e d' ->
  KB.allocate (openvas_db d) = Some (i, k) ->
  match e with
  | Completed | NotLaunched =>
      main_kbindex d' = Some i /\ KB.released (openvas_db d') i
  | SpawnFailed =>
      (exists (dc : daemon score) r,
         main_kbindex dc = Some i
         /\ stop_scan_cleanup w dc scan_id = inr (r, d'))
      /\ (KB.dbs (openvas_db d) !! i = None ->
          new_uuid w <> "" ->
          (forall pid, process_life w pid = 0%nat) ->
          (forall n k, holds_mapping k i scan_id ->
                       holds_mapping (engine w n k) i scan_id) ->
          KB.released (openvas_db d') i)
  | Stopped =>
      main_kbindex d' = Some i
      /\ KB.get_at (openvas_db d') i ("internal/" ++ new_uuid w)
         = Some "stop_all"
      /\ ~ KB.released (openvas_db d') i
  | PendingFeed | NoPorts =>
      openvas_db d' = openvas_db d /\ main_kbindex d' = main_kbindex d
  | SpawnOSError => True
  end.
Proof.
  intros Hrun Halloc.
  pose proof (exec_scan_cases cvss_base_v2_value QOD_TYPES results_key
                status_key host_ip_key float_of_string b64decode_ok w scan_id
                target fuel d) as Hcases.
  rewrite Hrun in Hcases. destruct e.
  - exact Hcases.
  - exact Hcases.
  - destruct Hcases as (i' & k' & Halloc' & Hmk & Hrel).
    rewrite Halloc in Halloc'. injection Halloc' as <- <-.
    split; assumption.
  - exact I.
  - destruct Hcases as (i' & k' & dc & r & Halloc' & Hmk & _ & Hstop).
    rewrite Halloc in Halloc'. injection Halloc' as <- <-.
    split; [exists dc, r; split; assumption|].
    intros Hempty Huuid Hgone Hengine.
    exact (exec_scan_spawn_failure_cleanup fuel d d' k Hrun Halloc Hempty
             Huuid Hgone Hengine).
  - destruct Hcases as (i' & k' & d0 & Halloc' & Hmk & _).
    rewrite Halloc in Halloc'. injection Halloc' as <- <-.
    pose proof (exec_scan_stopped_marker cvss_base_v2_value QOD_TYPES
                  results_key status_key host_ip_key float_of_string
                  b64decode_ok w scan_id target fuel d d' Hrun) as Hmark.
    unfold main_index in Hmark. rewrite Hmk in Hmark. cbn [default] in Hmark.
    split; [exact Hmk|]. split; [exact Hmark|].
    exact (get_at_not_released _ _ _ _ Hmark).
  - destruct Hcases as (i' & k' & Halloc' & Hmk & Hrel).
    rewrite Halloc in Halloc'. injection Halloc' as <- <-.
    split; assumption.
Qed.

End SpawnFailure.

Lemma exec_scan_release_on_exit_witness :
  exists d',
    snd (demo_exec_scan
           (demo_world [] None (Some 4242) (fun _ => None) engine_late_finish)
           5)
    = Returned Completed d'
    /\ main_kbindex d' = Some 1
    /\ KB.released (openvas_db d') 1.
Proof.
  destruct (snd (demo_exec_scan _ 5)) as [e d'|err|d'] eqn:Hrun;
    try (apply (f_equal exit_of) in Hrun; vm_compute in Hrun;
         discriminate Hrun).
  assert (He : e = Completed).
  { apply (f_equal exit_of) in Hrun. vm_compute in Hrun.
    injection Hrun as <-. reflexivity. }
  subst e. exists d'. split; [reflexivity|].
  destruct (KB.allocate (openvas_db demo_daemon)) as [[i k]|] eqn:Halloc;
    [|vm_compute in Halloc; discriminate Halloc].
  assert (Hi : i = 1).
  { apply (f_equal (fun o : option (Z * KB.t) =>
                      match o with Some (i, _) => i | None => 0 end))
      in Halloc.
    vm_compute in Halloc. symmetry. exact Halloc. }
  subst i.
  exact (exec_scan_release_on_exit demo_cvss [] "internal/results"
           "internal/status" "internal/ip" demo_float (fun _ => true)
           (demo_world [] None (Some 4242) (fun _ => None) engine_late_finish)
           "scan-1" "192.168.0.0/24" 1 5 demo_daemon d' k Completed Hrun
           Halloc).
Defined.

(** C2 (as stated) fails: when the client asks for the scan to be stopped,
    [exec_scan] returns with the main index, 1, still in use and holding
    its keys. *)
Lemma stopped_scan_keeps_main_index :
  let run :=
    demo_exec_scan
      (demo_world [] None (Some 4242) (fun _ => None) engine_then_stop) 5 in
  run_summary run = Some (Stopped, [1; 0])
  /\ exists d',
       snd run = Returned Stopped d'
       /\ main_kbindex d' = Some 1
       /\ 1 ∈ KB.in_use (openvas_db d')
       /\ ~ KB.released (openvas_db d') 1.
Proof.
  intros run.
  assert (Hsum : run_summary run = Some (Stopped, [1; 0]))
    by (vm_compute; reflexivity).
  split; [exact Hsum|].
  unfold run_summary in Hsum.
  destruct (snd run) as [e d'|err|d'] eqn:Hrun; try discriminate Hsum.
  injection Hsum as -> Huse.
  assert (Hin : 1 ∈ KB.in_use (openvas_db d')).
  { apply elem_of_elements. rewrite Huse. apply list_elem_of_In.
    left. reflexivity. }
  exists d'. split; [reflexivity|].
  split.
  - apply (f_equal (fun o : outcome Z =>
                      match o with
                      | Returned _ d0 => main_kbindex d0
                      | _ => None
                      end)) in Hrun.
    vm_compute in Hrun. symmetry. exact Hrun.
  - split; [exact Hin|]. intros [Hfree _]. exact (Hfree Hin).
Qed.

Lemma exec_scan_spawn_failure_releases_witness :
  exists d',
    snd (demo_exec_scan
           (demo_world [] None (Some 4242) (fun _ => Some (-9))
              (fun _ k => k)) 5)
    = Returned SpawnFailed d'
    /\ KB.released (openvas_db d') 1.
Proof.
  destruct (snd (demo_exec_scan _ 5)) as [e d'|err|d'] eqn:Hrun;
    try (apply (f_equal exit_of) in Hrun; vm_compute in Hrun;
         discriminate Hrun).
  assert (He : e = SpawnFailed).
  { apply (f_equal exit_of) in Hrun. vm_compute in Hrun.
    injection Hrun as <-. reflexivity. }
  subst e. exists d'. split; [reflexivity|].
  destruct (KB.allocate (openvas_db demo_daemon)) as [[i k]|] eqn:Halloc;
    [|vm_compute in Halloc; discriminate Halloc].
  assert (Hi : i = 1).
  { apply (f_equal (fun o : option (Z * KB.t) =>
                      match o with Some (i, _) => i | None => 0 end))
      in Halloc.
    vm_compute in Halloc. symmetry. exact Halloc. }
  subst i.
  apply (exec_scan_spawn_failure_releases demo_cvss [] "internal/results"
           "internal/status" "internal/ip" demo_float (fun _ => true)
           (demo_world [] None (Some 4242) (fun _ => Some (-9))
              (fun _ k => k))
           "scan-1" "192.168.0.0/24" 1 5 demo_daemon d' k Hrun Halloc).
  - reflexivity.
  - discriminate.
  - intros pid. reflexivity.
  - intros n k0 Hk0. exact Hk0.
Defined.
